(** * setup_project.py: a shallow embedding and its specification

    The script scaffolds a Python project: it checks that an interpreter
    runs, reads a project name, validates it, creates or reuses the project
    folder, writes a [Pipfile] and a [.gitignore], and creates the [src] and
    [tests] subdirectories.

    The development has three layers:
    - Python's [str] operations used by the script ([strip], [lower], the
      regular expression of [verify_folder_name]);
    - the process environment (file system, standard input, the emitted
      prompts and log records) and a state-and-exception monad over it;
    - the functions of the script, one definition per Python function, and
      the theorems about them. *)

From Stdlib Require Import ZArith Ascii String.
From stdpp Require Import base option list gmap strings.

Local Open Scope string_scope.

(** ** Python strings

    Characters are [ascii] values read as the code points U+0000..U+00FF;
    the character classes below are Python's on that range. *)

Module PyStr.

Definition code (c : ascii) : nat := nat_of_ascii c.

Definition between (lo hi : nat) (c : ascii) : bool :=
  (lo <=? code c)%nat && (code c <=? hi)%nat.

(** [str.isspace] on one character: TAB..CR, FS..US, space, NEL, NBSP. *)
Definition isspace (c : ascii) : bool :=
  between 9 13 c || between 28 32 c || Nat.eqb (code c) 133 || Nat.eqb (code c) 160.

(** [str.isalnum] on one character: the ASCII letters and digits, and in
    the upper half the letters (general category L) and the numeric characters
    (superscript digits and vulgar fractions). *)
Definition isalnum (c : ascii) : bool :=
  between 48 57 c || between 65 90 c || between 97 122 c
  || Nat.eqb (code c) 170 || between 178 179 c || Nat.eqb (code c) 181
  || between 185 186 c || between 188 190 c
  || between 192 214 c || between 216 246 c || between 248 255 c.

(** Upper-case letters that [str.lower] moves: A..Z and the Latin-1
    capitals (all of U+00C0..U+00DE but the multiplication sign). *)
Definition isupper (c : ascii) : bool :=
  between 65 90 c || between 192 214 c || between 216 222 c.

Definition lower_char (c : ascii) : ascii :=
  if isupper c then ascii_of_nat (code c + 32) else c.

(** [s.lower()] *)
Fixpoint lower (s : string) : string :=
  match s with
  | EmptyString => EmptyString
  | String c s' => String (lower_char c) (lower s')
  end.

(** [s.lstrip()] *)
Fixpoint lstrip (s : string) : string :=
  match s with
  | EmptyString => EmptyString
  | String c s' => if isspace c then lstrip s' else s
  end.

Definition is_empty (s : string) : bool :=
  match s with EmptyString => true | String _ _ => false end.

(** Removal of the trailing characters that satisfy [p]. *)
Fixpoint rstrip_with (p : ascii -> bool) (s : string) : string :=
  match s with
  | EmptyString => EmptyString
  | String c s' =>
      let r := rstrip_with p s' in
      if p c && is_empty r then EmptyString else String c r
  end.

(** [s.rstrip()] *)
Definition rstrip (s : string) : string := rstrip_with isspace s.

(** [s.strip()] *)
Definition strip (s : string) : string := rstrip (lstrip s).

(** All characters of [s] satisfy [p]. *)
Fixpoint all (p : ascii -> bool) (s : string) : bool :=
  match s with
  | EmptyString => true
  | String c s' => p c && all p s'
  end.

(** [x in xs] for a list of strings. *)
Definition in_list (x : string) (xs : list string) : bool :=
  bool_decide (x ∈ xs).

End PyStr.

(** ** The regular expression of [verify_folder_name]

    Matchers are written in continuation-passing style: a matcher receives
    the position reached, the rest of the subject and what to do after it.
    Only the constructs of the pattern [^[\w\- ]+$] are needed. *)

Module Re.

Definition matcher := nat -> string -> (nat -> string -> bool) -> bool.

(** [^] without MULTILINE: only at the start of the subject. *)
Definition bol : matcher := fun pos s k => Nat.eqb pos 0 && k pos s.

(** [$] without MULTILINE: at the end of the subject, and also just before
    a newline that is the last character of the subject. *)
Definition at_end (s : string) : bool :=
  match s with
  | EmptyString => true
  | String c EmptyString => bool_decide (c = "010"%char)
  | _ => false
  end.

Definition eol : matcher := fun pos s k => at_end s && k pos s.

(** [[...]+], greedy: one character of the class, then as many more as
    possible, giving characters back when the continuation fails. *)
Fixpoint plus (cls : ascii -> bool) (pos : nat) (s : string)
    (k : nat -> string -> bool) : bool :=
  match s with
  | EmptyString => false
  | String c s' => cls c && (plus cls (S pos) s' k || k (S pos) s')
  end.

Definition seq (m1 m2 : matcher) : matcher :=
  fun pos s k => m1 pos s (fun pos' s' => m2 pos' s' k).

(** [re.match(pattern, s)]: the pattern must match at position 0; the
    match need not reach the end of the subject. *)
Definition match_ (m : matcher) (s : string) : bool :=
  m 0%nat s (fun _ _ => true).

(** [\w] for a [str] pattern: alphanumeric or underscore. *)
Definition word (c : ascii) : bool :=
  PyStr.isalnum c || bool_decide (c = "_"%char).

(** The class [[\w\- ]]. *)
Definition name_class (c : ascii) : bool :=
  word c || bool_decide (c = "-"%char) || bool_decide (c = " "%char).

(** [r'^[\w\- ]+$'] *)
Definition pattern : matcher := seq bol (seq (plus name_class) eol).

End Re.

(** ** The process environment *)

Module Env.

(** What a path names in the file system. *)
Inductive node :=
| File (content : string)
| Dir.

Inductive level := INFO | ERROR.

(** What the process emits: the prompt of an [input] call, or a record of
    the [logging] module (the time stamp of the format is left out). *)
Inductive event :=
| Prompt (text : string)
| Log (lv : level) (msg : string).

(** What [subprocess.run([sys.executable, "--version"], ...)] gives. *)
Inductive launch :=
| Completed (returncode : Z) (stdout : string)
| NotFound.

(** The part of the environment the script cannot change: which paths the
    operating system refuses to create or write (permissions, read-only
    media), and the interpreter behind [sys.executable]. *)
Record Host := mkHost {
  refused : string -> bool;
  sys_executable : string;
  interpreter : launch
}.

(** The file system is keyed by path strings as the script passes them;
    [stdin] holds the lines still to be read. *)
Record World := mkWorld {
  host : Host;
  fs : gmap string node;
  stdin : list string;
  out : list event
}.

Definition set_fs (f : gmap string node) (w : World) : World :=
  mkWorld (host w) f (stdin w) (out w).

Definition set_stdin (l : list string) (w : World) : World :=
  mkWorld (host w) (fs w) l (out w).

Definition emit (e : event) (w : World) : World :=
  mkWorld (host w) (fs w) (stdin w) (out w ++ [e]).

Inductive errno := ENOENT | EACCES | EEXIST | ENOTDIR | EISDIR.

(** The exceptions that occur. [FileNotFoundError], [FileExistsError] and
    the like are the [OSError]s with the matching [errno]. *)
Inductive exn :=
| OSError (code : errno) (filename : string)
| EOFError
| AttributeError (msg : string).

Definition is_OSError (e : exn) : bool :=
  match e with OSError _ _ => true | _ => false end.

Definition is_FileNotFoundError (e : exn) : bool :=
  match e with OSError ENOENT _ => true | _ => false end.

Definition is_FileExistsError (e : exn) : bool :=
  match e with OSError EEXIST _ => true | _ => false end.

Definition strerror (c : errno) : string :=
  match c with
  | ENOENT => "[Errno 2] No such file or directory"
  | EACCES => "[Errno 13] Permission denied"
  | EEXIST => "[Errno 17] File exists"
  | ENOTDIR => "[Errno 20] Not a directory"
  | EISDIR => "[Errno 21] Is a directory"
  end.

(** [str(e)] *)
Definition exn_str (e : exn) : string :=
  match e with
  | OSError c f => strerror c ++ ": '" ++ f ++ "'"
  | EOFError => "EOF when reading a line"
  | AttributeError m => m
  end.

(** How a call ends: it returns, [sys.exit] was called ([SystemExit],
    which no handler of the script catches), or an exception escapes. *)
Inductive outcome (A : Type) :=
| Return (a : A)
| Exit (status : Z)
| Raise (e : exn).
Arguments Return {A} a.
Arguments Exit {A} status.
Arguments Raise {A} e.

Definition M (A : Type) : Type := World -> outcome A * World.

Definition ret {A} (a : A) : M A := fun w => (Return a, w).

Definition bind {A B} (m : M A) (k : A -> M B) : M B :=
  fun w =>
    match m w with
    | (Return a, w') => k a w'
    | (Exit c, w') => (Exit c, w')
    | (Raise e, w') => (Raise e, w')
    end.

Definition raise {A} (e : exn) : M A := fun w => (Raise e, w).

(** [sys.exit(status)] *)
Definition sys_exit {A} (status : Z) : M A := fun w => (Exit status, w).

(** [try: body  except <class> as e: handler e] *)
Definition try_except {A} (body : M A) (catches : exn -> bool)
    (handler : exn -> M A) : M A :=
  fun w =>
    match body w with
    | (Raise e, w') => if catches e then handler e w' else (Raise e, w')
    | r => r
    end.

Definition modify (f : World -> World) : M unit := fun w => (Return tt, f w).

Definition get {A} (f : World -> A) : M A := fun w => (Return (f w), w).

End Env.

Import Env.

Declare Scope prog_scope.
Delimit Scope prog_scope with prog.
Notation "x <- y ; z" := (bind y (fun x => z))
  (at level 20, y at level 100, z at level 200, only parsing) : prog_scope.
Notation "y ;; z" := (bind y (fun _ => z))
  (at level 100, z at level 200, only parsing, right associativity) : prog_scope.
Local Open Scope prog_scope.

(** ** The operating system and the standard library

    The calls the script makes into [os], [os.path], [subprocess],
    [logging] and the builtins, over the world above. Paths are compared as
    written (no symbolic links, no [.] or [..] resolution), which is exact
    for the paths the script builds from a validated name. A call fails as
    the file system dictates (missing or non-directory parent, existing
    target) or because the host refuses the path. *)

Module Os.

Definition is_sep (c : ascii) : bool := bool_decide (c = "/"%char).

(** [p[:i], p[i:]] for [i = p.rfind('/') + 1]. *)
Fixpoint cut (p : string) : string * string :=
  match p with
  | EmptyString => (EmptyString, EmptyString)
  | String c p' =>
      let (h, t) := cut p' in
      if PyStr.is_empty h
      then if is_sep c then (String c EmptyString, t) else (EmptyString, String c t)
      else (String c h, t)
  end.

(** [posixpath.split]: the head loses its trailing slashes unless it
    consists of slashes only. *)
Definition split (p : string) : string * string :=
  let (h, t) := cut p in
  let r := PyStr.rstrip_with is_sep h in
  (if PyStr.is_empty r then h else r, t).

Definition starts_with_sep (s : string) : bool :=
  match s with String c _ => is_sep c | EmptyString => false end.

Fixpoint ends_with_sep (s : string) : bool :=
  match s with
  | EmptyString => false
  | String c EmptyString => is_sep c
  | String _ s' => ends_with_sep s'
  end.

(** [os.path.join(a, b)] *)
Definition join (a b : string) : string :=
  if starts_with_sep b then b
  else if PyStr.is_empty a || ends_with_sep a then a ++ b
  else a ++ "/" ++ b.

Definition present (f : gmap string node) (p : string) : bool :=
  bool_decide (is_Some (f !! p)).

(** [os.path.exists(p)] *)
Definition exists_ (p : string) : M bool := get (fun w => present (fs w) p).

(** The directory that is to hold [p] must be there: the working directory
    when [p] has no head, else a directory of the file system. *)
Definition parent_error (f : gmap string node) (p : string) : option errno :=
  let h := fst (split p) in
  if PyStr.is_empty h then None
  else match f !! h with
       | Some Dir => None
       | Some (File _) => Some ENOTDIR
       | None => Some ENOENT
       end.

(** [os.mkdir(p)] *)
Definition mkdir (p : string) : M unit :=
  fun w =>
    if PyStr.is_empty p then (Raise (OSError ENOENT p), w)
    else match parent_error (fs w) p with
         | Some c => (Raise (OSError c p), w)
         | None =>
             if present (fs w) p then (Raise (OSError EEXIST p), w)
             else if refused (host w) p then (Raise (OSError EACCES p), w)
             else (Return tt, set_fs (<[p := Dir]> (fs w)) w)
         end.

(** [os.makedirs(name)] with [exist_ok=False]: the missing ancestors are
    created first, an ancestor that appears meanwhile is tolerated, and a
    path ending in [.] is done once its head exists. The recursion is on
    the head, which is shorter than the name; [fuel] bounds it. *)
Fixpoint makedirs_fuel (fuel : nat) (name : string) : M unit :=
  let (head0, tail0) := split name in
  let (head, tail) := if PyStr.is_empty tail0 then split head0 else (head0, tail0) in
  missing <- (if PyStr.is_empty head || PyStr.is_empty tail then ret false
              else (e <- exists_ head; ret (negb e)));
  if (missing : bool) then
    match fuel with
    | O => mkdir name
    | S fuel' =>
        try_except (makedirs_fuel fuel' head) is_FileExistsError (fun _ => ret tt);;
        if bool_decide (tail = ".") then ret tt else mkdir name
    end
  else mkdir name.

Definition makedirs (name : string) : M unit :=
  makedirs_fuel (String.length name) name.

(** [with open(p, "w") as f: f.write(content)]: the file is created or
    truncated, and then holds exactly [content]. *)
Definition write_file (p content : string) : M unit :=
  fun w =>
    if PyStr.is_empty p then (Raise (OSError ENOENT p), w)
    else match parent_error (fs w) p with
         | Some c => (Raise (OSError c p), w)
         | None =>
             match fs w !! p with
             | Some Dir => (Raise (OSError EISDIR p), w)
             | _ =>
                 if refused (host w) p then (Raise (OSError EACCES p), w)
                 else (Return tt, set_fs (<[p := File content]> (fs w)) w)
             end
         end.

(** [input(prompt)]: the prompt is written, one line is read; at the end
    of the input [EOFError] is raised. *)
Definition input (prompt : string) : M string :=
  fun w =>
    let w1 := emit (Prompt prompt) w in
    match stdin w1 with
    | [] => (Raise EOFError, w1)
    | line :: rest => (Return line, set_stdin rest w1)
    end.

Definition logging_info (msg : string) : M unit := modify (emit (Log INFO msg)).

Definition logging_error (msg : string) : M unit := modify (emit (Log ERROR msg)).

(** [subprocess.run([sys.executable, "--version"], capture_output=True,
    text=True)]: the return code and the captured standard output. *)
Definition subprocess_run_version : M (Z * string) :=
  fun w =>
    match interpreter (host w) with
    | Completed rc so => (Return (rc, so), w)
    | NotFound => (Raise (OSError ENOENT (sys_executable (host w))), w)
    end.

End Os.

Import Os.

(** ** The script *)

(** The values on which the script calls a method. *)
Inductive value :=
| VBool (b : bool)
| VStr (s : string).

(** [v.lower()]: defined on strings; a [bool] has no such attribute. *)
Definition method_lower (v : value) : M value :=
  match v with
  | VStr s => ret (VStr (PyStr.lower s))
  | VBool _ => raise (AttributeError "'bool' object has no attribute 'lower'")
  end.

(** [v == s] for a string literal [s]. *)
Definition eq_str (v : value) (s : string) : bool :=
  match v with
  | VStr s' => bool_decide (s' = s)
  | VBool _ => false
  end.

Definition verify_folder_name (folder_name : string) : M unit :=
  if Re.match_ Re.pattern folder_name then
    logging_info ("'" ++ folder_name ++ "' is a valid folder name.")
  else
    logging_error ("'" ++ folder_name ++ "' is not a valid folder name. Folder names must only contain alphanumeric characters, hyphens, and spaces.");;
    sys_exit 1.

Definition check_python3_installed : M unit :=
  try_except
    (result <- subprocess_run_version;
     if (fst result =? 0)%Z then
       logging_info ("Python interpreter is installed: " ++ PyStr.strip (snd result))
     else
       logging_error "Python interpreter is not installed.";;
       sys_exit 1)
    is_FileNotFoundError
    (fun _ =>
       logging_error "Python interpreter is not installed.";;
       sys_exit 1).

(** The body of [for _ in range(retry_limit)], with the statements after
    the loop reached when no iteration is left. *)
Fixpoint get_yes_no_loop (prompt : string) (iterations : nat) : M bool :=
  match iterations with
  | O =>
      logging_error "Too many invalid inputs.";;
      sys_exit 1
  | S iterations' =>
      line <- input prompt;
      let response := PyStr.lower (PyStr.strip line) in
      if PyStr.in_list response ["yes"; "y"] then ret true
      else if PyStr.in_list response ["no"; "n"] then ret false
      else
        logging_info "Invalid input. Please answer 'yes' or 'no'.";;
        get_yes_no_loop prompt iterations'
  end.

(** [range(n)] has [n] elements, none when [n] is negative. *)
Definition get_yes_no_input (prompt : string) (retry_limit : Z) : M bool :=
  get_yes_no_loop prompt (Z.to_nat retry_limit).

(** The default value of [retry_limit]. *)
Definition default_retry_limit : Z := 3.

Definition manage_folder (folder_name : string) : M bool :=
  found <- exists_ folder_name;
  if (found : bool) then
    use_existing <- get_yes_no_input
      ("The folder '" ++ folder_name ++ "' already exists. Do you want to use this existing folder? (yes/no): ")
      default_retry_limit;
    if (use_existing : bool) then
      logging_info ("Using the existing folder: " ++ folder_name);;
      ret true
    else
      logging_info "User chose not to use the existing folder.";;
      ret false
  else
    try_except
      (makedirs folder_name;;
       logging_info ("Folder '" ++ folder_name ++ "' created.");;
       ret true)
      is_OSError
      (fun e =>
         logging_error ("Failed to create the folder '" ++ folder_name ++ "': " ++ exn_str e);;
         ret false).

Definition check_and_overwrite_file (file_path : string) : M bool :=
  found <- exists_ file_path;
  if (found : bool) then
    response <- get_yes_no_input
      ("A file at " ++ file_path ++ " already exists. Do you want to overwrite it? (yes/no): ")
      default_retry_limit;
    l1 <- method_lower (VBool response);
    if eq_str l1 "yes" then ret true
    else
      l2 <- method_lower (VBool response);
      if eq_str l2 "y" then ret true
      else
        logging_info ("User chose not to overwrite the existing file: " ++ file_path);;
        ret false
  else ret true.

(** The text of a string literal: its lines, with a newline between each
    two; [dq] is the double quote. *)
Definition nl : string := String "010"%char EmptyString.

Definition dq : string := String "034"%char EmptyString.

Fixpoint join_lines (lines : list string) : string :=
  match lines with
  | [] => EmptyString
  | [l] => l
  | l :: rest => l ++ nl ++ join_lines rest
  end.

(** The literal [pipfile_content] of [create_pipfile]. *)
Definition pipfile_content : string :=
  join_lines
    ["# [[source]]";
     "# url = " ++ dq ++ "https://pypi.org/simple" ++ dq;
     "# verify_ssl = true";
     "# name = " ++ dq ++ "pypi" ++ dq;
     EmptyString;
     "# [packages]";
     "# db-dtypes = " ++ dq ++ "*" ++ dq;
     EmptyString;
     "# [dev-packages]";
     "# pytest = " ++ dq ++ "*" ++ dq;
     "# mypy = " ++ dq ++ "*" ++ dq;
     "# pandas-stubs = " ++ dq ++ "*" ++ dq;
     EmptyString;
     "# [requires]";
     "# python_version = " ++ dq ++ "3.11" ++ dq].

(** The literal [gitignore_content] of [create_gitignore]; it ends with a newline. *)
Definition gitignore_content : string :=
  join_lines
    ["# Byte-compiled / optimized / DLL files";
     "__pycache__/";
     "*.py[cod]";
     "*$py.class";
     EmptyString;
     "# C extensions";
     "*.so";
     EmptyString;
     "# Distribution / packaging";
     ".Python";
     "build/";
     "dist/";
     "downloads/";
     "eggs/";
     "lib/";
     "lib64/";
     "parts/";
     "sdist/";
     "var/";
     "wheels/";
     "pip-wheel-metadata/";
     "share/python-wheels/";
     "*.egg-info/";
     ".installed.cfg";
     "*.egg";
     "MANIFEST";
     EmptyString;
     "# PyInstaller";
     "*.manifest";
     "*.spec";
     EmptyString;
     "# Installer logs";
     "pip-log.txt";
     "pip-delete-this-directory.txt";
     EmptyString;
     "# Unit test / coverage reports";
     "htmlcov/";
     ".tox/";
     ".nox/";
     ".coverage";
     ".coverage.*";
     ".cache";
     "nosetests.xml";
     "coverage.xml";
     "*.cover";
     "*.py,cover";
     ".hypothesis/";
     ".pytest_cache/";
     EmptyString;
     "# Translations";
     "*.mo";
     "*.pot";
     EmptyString;
     "# Django stuff:";
     "*.log";
     "local_settings.py";
     "db.sqlite3";
     "db.sqlite3-journal";
     EmptyString;
     "# Flask stuff:";
     "instance/";
     ".webassets-cache";
     EmptyString;
     "# Scrapy stuff:";
     ".scrapy";
     EmptyString;
     "# Sphinx documentation";
     "docs/_build/";
     EmptyString;
     "# PyBuilder";
     "target/";
     EmptyString;
     "# Jupyter Notebook";
     ".ipynb_checkpoints";
     EmptyString;
     "# IPython";
     "profile_default/";
     "ipython_config.py";
     EmptyString;
     "# pyenv";
     ".python-version";
     EmptyString;
     "# pipenv";
     "#Pipfile.lock";
     EmptyString;
     "# PEP 582; used by e.g. github.com/David-OConnor/pyflow";
     "__pypackages__/";
     EmptyString;
     "# Celery stuff";
     "celerybeat-schedule";
     "celerybeat.pid";
     EmptyString;
     "# SageMath parsed files";
     "*.sage.py";
     EmptyString;
     "# Environments";
     ".env";
     ".venv";
     "env/";
     "venv/";
     "ENV/";
     "env.bak/";
     "venv.bak/";
     EmptyString;
     "# Spyder project settings";
     ".spyderproject";
     ".spyproject";
     EmptyString;
     "# Rope project settings";
     ".ropeproject";
     EmptyString;
     "# mkdocs documentation";
     "/site";
     EmptyString;
     "# mypy";
     ".mypy_cache/";
     ".dmypy.json";
     "dmypy.json";
     EmptyString;
     "# Pyre type checker";
     ".pyre/";
     EmptyString].

Definition create_pipfile (folder_name : string) : M unit :=
  let pipfile_path := join folder_name "Pipfile" in
  go <- check_and_overwrite_file pipfile_path;
  if (go : bool) then
    write_file pipfile_path pipfile_content;;
    logging_info "Pipfile created."
  else
    logging_info "The existing Pipfile was not overwritten.".

Definition create_gitignore (folder_name : string) : M unit :=
  let gitignore_path := join folder_name ".gitignore" in
  go <- check_and_overwrite_file gitignore_path;
  if (go : bool) then
    write_file gitignore_path gitignore_content;;
    logging_info ".gitignore file created."
  else ret tt.

Definition create_project_structure (folder_name : string) : M unit :=
  try_except
    (let src_path := join folder_name "src" in
     let tests_path := join folder_name "tests" in
     src_found <- exists_ src_path;
     (if negb src_found then
        makedirs src_path;;
        logging_info ("Source directory created at: " ++ src_path)
      else
        logging_info ("Source directory already exists at: " ++ src_path));;
     tests_found <- exists_ tests_path;
     if negb tests_found then
       makedirs tests_path;;
       logging_info ("Tests directory created at: " ++ tests_path)
     else
       logging_info ("Tests directory already exists at: " ++ tests_path))
    is_OSError
    (fun e =>
       logging_error ("Failed to create project directories in '" ++ folder_name ++ "': " ++ exn_str e);;
       sys_exit 1).

Definition main : M unit :=
  check_python3_installed;;
  line <- input "Enter the name of your python project: ";
  let folder_name := PyStr.strip line in
  verify_folder_name folder_name;;
  proceed <- manage_folder folder_name;
  if (proceed : bool) then
    logging_info ("Setup will proceed using the folder: " ++ folder_name);;
    create_pipfile folder_name;;
    create_gitignore folder_name;;
    create_project_structure folder_name
  else
    logging_info "Setup was cancelled by the user.".

(** The exit status of the process that runs [main()] as the script does:
    0 when [main] returns, the argument of [sys.exit], and 1 when an
    exception escapes (the interpreter prints the traceback). *)
Definition exit_status {A} (o : outcome A) : Z :=
  match o with
  | Return _ => 0
  | Exit status => status
  | Raise _ => 1
  end.

Definition run (w : World) : Z * World :=
  let (o, w') := main w in (exit_status o, w').

(** * Vocabulary of the statements *)

(** ** The names of the specification

    [NameSpec] states the accepted names in the words of the specification:
    the non-empty strings of letters, digits, underscores, hyphens and
    spaces. It is compared with the regular expression the code runs. *)

Module NameSpec.

Definition letter_or_digit (c : ascii) : bool := PyStr.isalnum c.

Definition allowed_char (c : ascii) : bool :=
  letter_or_digit c
  || bool_decide (c = "_"%char) || bool_decide (c = "-"%char)
  || bool_decide (c = " "%char).

Definition accepts (s : string) : bool :=
  negb (PyStr.is_empty s) && PyStr.all allowed_char s.

End NameSpec.

(** No path separator. *)
Definition not_sep (c : ascii) : bool := negb (is_sep c).

(** The name passes [verify_folder_name]. *)
Definition valid_name (s : string) : Prop := Re.match_ Re.pattern s = true.

(** The name is not empty and holds no path separator. *)
Definition plain (s : string) : Prop :=
  PyStr.is_empty s = false /\ PyStr.all not_sep s = true.

Definition invalid_input : event :=
  Log INFO "Invalid input. Please answer 'yes' or 'no'.".

(** The events of the rounds in which the lines [us] were turned down. *)
Definition retries (prompt : string) (us : list string) : list event :=
  flat_map (fun _ => [Prompt prompt; invalid_input]) us.

(** The line is none of the four answers once stripped and lower-cased. *)
Definition unrecognized (line : string) : Prop :=
  PyStr.lower (PyStr.strip line) ∉ ["yes"; "y"; "no"; "n"].

Definition reuse_prompt (folder_name : string) : string :=
  "The folder '" ++ folder_name ++ "' already exists. Do you want to use this existing folder? (yes/no): ".

Definition overwrite_prompt (file_path : string) : string :=
  "A file at " ++ file_path ++ " already exists. Do you want to overwrite it? (yes/no): ".

Definition no_lower : exn := AttributeError "'bool' object has no attribute 'lower'".

Definition not_installed : event := Log ERROR "Python interpreter is not installed.".

Definition invalid_name_msg (folder_name : string) : event :=
  Log ERROR ("'" ++ folder_name ++ "' is not a valid folder name. Folder names must only contain alphanumeric characters, hyphens, and spaces.").

(** The interpreter ran and reported success. *)
Definition interpreter_ok (h : Host) : bool :=
  match interpreter h with
  | Completed rc _ => (rc =? 0)%Z
  | NotFound => false
  end.

Definition installed_msg (h : Host) : event :=
  match interpreter h with
  | Completed _ so => Log INFO ("Python interpreter is installed: " ++ PyStr.strip so)
  | NotFound => not_installed
  end.

Definition pipfile_path (d : string) : string := d ++ "/" ++ "Pipfile".
Definition gitignore_path (d : string) : string := d ++ "/" ++ ".gitignore".
Definition src_path (d : string) : string := d ++ "/" ++ "src".
Definition tests_path (d : string) : string := d ++ "/" ++ "tests".

(** The record logged for a subdirectory: it was there, or it was made. *)
Definition dir_report (label : string) (was_present : bool) (p : string) : event :=
  Log INFO (label ++ (if was_present then " directory already exists at: "
                      else " directory created at: ") ++ p).

Definition dirs_failed (d : string) (p : string) : event :=
  Log ERROR ("Failed to create project directories in '" ++ d ++ "': "
             ++ exn_str (OSError EACCES p)).

(** The file system once the directory [p] is ensured; [None] when the
    operating system refuses to create it. *)
Definition ensured (h : Host) (f : gmap string node) (p : string)
    : option (gmap string node) :=
  if present f p then Some f
  else if refused h p then None
  else Some (<[p := Dir]> f).

(** The block that [create_project_structure] runs for each of its two
    directories, [label] being the word its records start with. *)
Definition ensure_block (label p : string) : M unit :=
  found <- exists_ p;
  if negb found then
    makedirs p;;
    logging_info (label ++ " directory created at: " ++ p)
  else
    logging_info (label ++ " directory already exists at: " ++ p).

Definition name_prompt : string := "Enter the name of your python project: ".

(** What [main] does once the name is validated. *)
Definition setup (folder_name : string) : M unit :=
  proceed <- manage_folder folder_name;
  if (proceed : bool) then
    logging_info ("Setup will proceed using the folder: " ++ folder_name);;
    create_pipfile folder_name;;
    create_gitignore folder_name;;
    create_project_structure folder_name
  else
    logging_info "Setup was cancelled by the user.".

(** The world in which the name is validated: the interpreter was reported,
    the name prompt was written and the first line was read. *)
Definition named (rest : list string) (w : World) : World :=
  set_stdin rest (emit (Prompt name_prompt) (emit (installed_msg (host w)) w)).

(** A host that refuses nothing and has a working interpreter. *)
Definition sample_host : Host :=
  mkHost (fun _ => false) "/usr/bin/python3" (Completed 0 ("Python 3.11.4" ++ nl)).


(** A host that refuses to create [locked] and [proj/tests]. *)
Definition strict_host : Host :=
  mkHost (fun p => bool_decide (p = "locked") || bool_decide (p = "proj/tests"))
    "/usr/bin/python3" (Completed 0 "Python 3.11.4").




(** ** Vocabulary of the further properties *)

(** The line reads as the answer [b]: yes for true, no for false. *)
Definition reads (b : bool) (line : string) : Prop :=
  PyStr.lower (PyStr.strip line) ∈ (if b then ["yes"; "y"] else ["no"; "n"]).

(** The paths a run for the folder [d] may create. *)
Definition project_paths (d : string) : list string :=
  [d; pipfile_path d; gitignore_path d; src_path d; tests_path d].

(** From [w] to [w'] the host is the same, every entry of the file system
    is kept as it was, and what is new lies at the paths [S]. *)
Definition touches_only (S : list string) (w w' : World) : Prop :=
  host w' = host w
  /\ fs w ⊆ fs w'
  /\ forall q, q ∉ S -> fs w' !! q = fs w !! q.

(** At the world [w] the computation touches only [S] and, if it exits,
    exits with status 1. *)
Definition ok_at {A} (S : list string) (m : M A) (w : World) : Prop :=
  touches_only S w (snd (m w))
  /\ forall c, fst (m w) = Exit c -> c = 1%Z.

(** A computation that from every world touches only [S] and calls
    [sys.exit] with status 1 only. *)
Definition confined {A} (S : list string) (m : M A) : Prop :=
  forall w, ok_at S m w.

(** A project folder that holds a [.gitignore] and no [Pipfile], and the
    input of a run on it that accepts the folder. *)
Definition gitignore_only : World :=
  mkWorld sample_host {[ "proj" := Dir; "proj/.gitignore" := File "*.pyc" ]}
    ["proj"; "yes"; "no"] [].

(** From [w] to [w'] at most [n] lines were read, from the front of the
    input, and what was emitted is kept, the new events coming after it. *)
Definition advances (n : nat) (w w' : World) : Prop :=
  (exists k, (k <= n)%nat /\ stdin w' = drop k (stdin w))
  /\ exists evs, out w' = (out w ++ evs)%list.

(** From [w] the computation reads at most [n] lines, and at most [r] of
    them when it returns. *)
Definition reads_within {A} (r n : nat) (m : M A) (w : World) : Prop :=
  advances n w (snd (m w))
  /\ forall a, fst (m w) = Return a -> advances r w (snd (m w)).

(** * The tests of the script

    [test_setup_project.py] runs [main] with some of the names it looks up
    replaced by mocks ([unittest.mock.patch]). A mock records the arguments
    of each call and hands back its [return_value]; the assertions of a
    test read these records. The module is taken as imported. *)

Module UnitTest.

(** The mocks of the two tests, by the names of the test arguments. *)
Inductive mock_name :=
| mock_input
| mock_check
| mock_verify
| mock_manage_folder
| mock_pipfile
| mock_gitignore
| mock_log.

#[global] Instance mock_name_eq_dec : EqDecision mock_name.
Proof. solve_decision. Defined.

(** A recorded call: the mock and the positional arguments. *)
Definition call : Type := mock_name * list string.

(** The state of a test: the process environment and the calls recorded
    so far, in the order in which they were made. *)
Record TestState := mkTest {
  world : World;
  calls : list call
}.

(** The state in which a test starts: its mocks are new. *)
Definition fresh (w : World) : TestState := mkTest w [].

(** Computations of a test run. *)
Definition P (A : Type) : Type := TestState -> outcome A * TestState.

Definition pret {A} (a : A) : P A := fun s => (Return a, s).

Definition pbind {A B} (m : P A) (k : A -> P B) : P B :=
  fun s =>
    match m s with
    | (Return a, s') => k a s'
    | (Exit c, s') => (Exit c, s')
    | (Raise e, s') => (Raise e, s')
    end.

(** [try: body  except <class> as e: handler e] *)
Definition ptry {A} (body : P A) (catches : exn -> bool) (handler : exn -> P A)
    : P A :=
  fun s =>
    match body s with
    | (Raise e, s') => if catches e then handler e s' else (Raise e, s')
    | r => r
    end.

(** A computation of the script that is not patched runs on the
    environment and leaves the records alone. *)
Definition lift {A} (m : M A) : P A :=
  fun s => let (o, w') := m (world s) in (o, mkTest w' (calls s)).

(** A call of a mock: the call is recorded, [return_value] is the
    result. *)
Definition called {A} (m : mock_name) (args : list string) (return_value : A)
    : P A :=
  fun s => (Return return_value, mkTest (world s) (calls s ++ [(m, args)])).

(** The argument lists of the calls of [m], oldest first. *)
Definition calls_to (m : mock_name) (s : TestState) : list (list string) :=
  omap (fun c : call => if decide (fst c = m) then Some (snd c) else None) (calls s).

(** [m.assert_called_once()] *)
Definition assert_called_once (m : mock_name) (s : TestState) : bool :=
  bool_decide (length (calls_to m s) = 1%nat).

(** [m.assert_called_once_with(args)] *)
Definition assert_called_once_with (m : mock_name) (args : list string)
    (s : TestState) : bool :=
  bool_decide (calls_to m s = [args]).

(** [m.assert_called_with(args)]: the last call is compared. *)
Definition assert_called_with (m : mock_name) (args : list string)
    (s : TestState) : bool :=
  bool_decide (last (calls_to m s) = Some args).

(** The names that [main] and [create_project_structure] look up when they
    run, and that a test may patch. *)
Record Globals := mkGlobals {
  g_input : string -> P string;
  g_logging_info : string -> P unit;
  g_check_python3_installed : P unit;
  g_verify_folder_name : string -> P unit;
  g_manage_folder : string -> P bool;
  g_create_pipfile : string -> P unit;
  g_create_gitignore : string -> P unit;
  g_create_project_structure : string -> P unit
}.

Declare Scope test_scope.
Delimit Scope test_scope with test.
Notation "x <- y ; z" := (pbind y (fun x => z))
  (at level 20, y at level 100, z at level 200, only parsing) : test_scope.
Notation "y ;; z" := (pbind y (fun _ => z))
  (at level 100, z at level 200, only parsing, right associativity) : test_scope.

(** The functions of the script that a test runs unpatched, [input] and
    [logging.info] being looked up when they are called. *)
Fixpoint get_yes_no_loop_in (input : string -> P string) (info : string -> P unit)
    (prompt : string) (iterations : nat) : P bool :=
  match iterations with
  | O =>
      (lift (logging_error "Too many invalid inputs.");;
       lift (sys_exit 1))%test
  | S iterations' =>
      (line <- input prompt;
       let response := PyStr.lower (PyStr.strip line) in
       if PyStr.in_list response ["yes"; "y"] then pret true
       else if PyStr.in_list response ["no"; "n"] then pret false
       else
         info "Invalid input. Please answer 'yes' or 'no'.";;
         get_yes_no_loop_in input info prompt iterations')%test
  end.

Definition get_yes_no_input_in (input : string -> P string)
    (info : string -> P unit) (prompt : string) (retry_limit : Z) : P bool :=
  get_yes_no_loop_in input info prompt (Z.to_nat retry_limit).

Definition check_and_overwrite_file_in (input : string -> P string)
    (info : string -> P unit) (file_path : string) : P bool :=
  (found <- lift (exists_ file_path);
   if (found : bool) then
     response <- get_yes_no_input_in input info
       ("A file at " ++ file_path ++ " already exists. Do you want to overwrite it? (yes/no): ")
       default_retry_limit;
     l1 <- lift (method_lower (VBool response));
     if eq_str l1 "yes" then pret true
     else
       l2 <- lift (method_lower (VBool response));
       if eq_str l2 "y" then pret true
       else
         info ("User chose not to overwrite the existing file: " ++ file_path);;
         pret false
   else pret true)%test.

Definition create_pipfile_in (input : string -> P string)
    (info : string -> P unit) (folder_name : string) : P unit :=
  (let pipfile_path := join folder_name "Pipfile" in
   go <- check_and_overwrite_file_in input info pipfile_path;
   if (go : bool) then
     lift (write_file pipfile_path pipfile_content);;
     info "Pipfile created."
   else
     info "The existing Pipfile was not overwritten.")%test.

Definition create_gitignore_in (input : string -> P string)
    (info : string -> P unit) (folder_name : string) : P unit :=
  (let gitignore_path := join folder_name ".gitignore" in
   go <- check_and_overwrite_file_in input info gitignore_path;
   if (go : bool) then
     lift (write_file gitignore_path gitignore_content);;
     info ".gitignore file created."
   else pret tt)%test.

(** The block that [create_project_structure] runs for each of its two
    directories, as [ensure_block]. *)
Definition ensure_block_in (info : string -> P unit) (label p : string) : P unit :=
  (found <- lift (exists_ p);
   if negb found then
     lift (makedirs p);;
     info (label ++ " directory created at: " ++ p)
   else
     info (label ++ " directory already exists at: " ++ p))%test.

Definition create_project_structure_in (info : string -> P unit)
    (folder_name : string) : P unit :=
  ptry
    (let src_path := join folder_name "src" in
     let tests_path := join folder_name "tests" in
     src_found <- lift (exists_ src_path);
     (if negb src_found then
        lift (makedirs src_path);;
        info ("Source directory created at: " ++ src_path)
      else
        info ("Source directory already exists at: " ++ src_path));;
     tests_found <- lift (exists_ tests_path);
     if negb tests_found then
       lift (makedirs tests_path);;
       info ("Tests directory created at: " ++ tests_path)
     else
       info ("Tests directory already exists at: " ++ tests_path))%test
    is_OSError
    (fun e =>
       lift (logging_error ("Failed to create project directories in '"
                            ++ folder_name ++ "': " ++ exn_str e));;
       lift (sys_exit 1))%test.

(** [main], the names it calls being looked up in [g]. *)
Definition main_in (g : Globals) : P unit :=
  (g_check_python3_installed g;;
   line <- g_input g "Enter the name of your python project: ";
   let folder_name := PyStr.strip line in
   g_verify_folder_name g folder_name;;
   proceed <- g_manage_folder g folder_name;
   if (proceed : bool) then
     g_logging_info g ("Setup will proceed using the folder: " ++ folder_name);;
     g_create_pipfile g folder_name;;
     g_create_gitignore g folder_name;;
     g_create_project_structure g folder_name
   else
     g_logging_info g "Setup was cancelled by the user.")%test.

(** The names as the module defines them. *)
Definition unpatched : Globals :=
  mkGlobals
    (fun prompt => lift (input prompt))
    (fun msg => lift (logging_info msg))
    (lift check_python3_installed)
    (fun n => lift (verify_folder_name n))
    (fun n => lift (manage_folder n))
    (fun n => lift (create_pipfile n))
    (fun n => lift (create_gitignore n))
    (fun n => lift (create_project_structure n)).

(** How a test ends: its assertions hold, one of them fails, or the
    tested code does not return. *)
Inductive verdict := Passed | Failed | Errored.

(** [input] and [logging.info] as both tests patch them. *)
Definition patched_input (prompt : string) : P string :=
  called mock_input [prompt] "valid_project".

Definition patched_info (msg : string) : P unit := called mock_log [msg] tt.

(** The patches of [test_main_success]: [create_project_structure] is not
    among them, and runs with the patched [logging.info]. *)
Definition success_patches : Globals :=
  mkGlobals
    patched_input
    patched_info
    (called mock_check [] tt)
    (fun n => called mock_verify [n] tt)
    (fun n => called mock_manage_folder [n] true)
    (fun n => called mock_pipfile [n] tt)
    (fun n => called mock_gitignore [n] tt)
    (create_project_structure_in patched_info).

Definition test_main_success (s : TestState) : verdict * TestState :=
  match main_in success_patches s with
  | (Return _, s1) =>
      (if assert_called_once mock_check s1
          && assert_called_once mock_input s1
          && assert_called_once_with mock_verify ["valid_project"] s1
          && assert_called_once_with mock_manage_folder ["valid_project"] s1
          && assert_called_once_with mock_pipfile ["valid_project"] s1
          && assert_called_once_with mock_gitignore ["valid_project"] s1
          && assert_called_with mock_log
               ["Setup will proceed using the folder: valid_project"] s1
       then Passed else Failed, s1)
  | (_, s1) => (Errored, s1)
  end.

(** The patches of [test_main_cancelled_by_user]; the three functions
    that populate the folder are not patched. *)
Definition cancelled_patches : Globals :=
  mkGlobals
    patched_input
    patched_info
    (called mock_check [] tt)
    (fun n => called mock_verify [n] tt)
    (fun n => called mock_manage_folder [n] false)
    (create_pipfile_in patched_input patched_info)
    (create_gitignore_in patched_input patched_info)
    (create_project_structure_in patched_info).

Definition test_main_cancelled_by_user (s : TestState) : verdict * TestState :=
  match main_in cancelled_patches s with
  | (Return _, s1) =>
      (if assert_called_once mock_check s1
          && assert_called_once mock_input s1
          && assert_called_once_with mock_verify ["valid_project"] s1
          && assert_called_once_with mock_manage_folder ["valid_project"] s1
          && assert_called_with mock_log ["Setup was cancelled by the user."] s1
       then Passed else Failed, s1)
  | (_, s1) => (Errored, s1)
  end.

End UnitTest.

Example pipfile_content_length : String.length pipfile_content = 221%nat.
Proof. reflexivity. Qed.

Example gitignore_content_length : String.length gitignore_content = 1305%nat.
Proof. reflexivity. Qed.

(** * Properties *)

(** ** Strings *)

Section StringFacts.

Import PyStr.

Lemma app_nil_l (b : string) : EmptyString ++ b = b.
Proof. reflexivity. Qed.

Lemma app_cons (c : ascii) (a b : string) : String c a ++ b = String c (a ++ b).
Proof. reflexivity. Qed.

Lemma app_assoc_str (a b c : string) : (a ++ b) ++ c = a ++ b ++ c.
Proof.
  induction a as [|x a IH]; [reflexivity |].
  rewrite !app_cons. now rewrite IH.
Qed.

Lemma app_empty_r (a : string) : a ++ EmptyString = a.
Proof.
  induction a as [|x a IH]; [reflexivity |].
  rewrite app_cons. now rewrite IH.
Qed.

Lemma is_empty_true (s : string) : is_empty s = true <-> s = EmptyString.
Proof. destruct s; simpl; split; congruence. Qed.

Lemma all_app (p : ascii -> bool) (a b : string) :
  all p (a ++ b) = all p a && all p b.
Proof.
  induction a as [|x a IH]; [reflexivity |].
  rewrite app_cons. simpl. rewrite IH. now destruct (p x).
Qed.

(** A white-space character is no capital, so [lower] fixes it. *)
Lemma lower_char_space (c : ascii) : isspace c = true -> lower_char c = c.
Proof.
  intros H.
  destruct c as [[] [] [] [] [] [] [] []]; vm_compute in H;
    solve [discriminate H | reflexivity].
Qed.

Lemma lstrip_split (s : string) :
  exists l, s = l ++ lstrip s /\ all isspace l = true.
Proof.
  induction s as [|c s [l [Hs Hl]]]; simpl.
  - now exists EmptyString.
  - destruct (isspace c) eqn:Hc.
    + exists (String c l). rewrite app_cons. simpl. rewrite Hc, Hl.
      split; [now f_equal | reflexivity].
    + now exists EmptyString.
Qed.

Lemma lstrip_head (s : string) :
  match lstrip s with
  | EmptyString => True
  | String c _ => isspace c = false
  end.
Proof.
  induction s as [|c s IH]; simpl; [exact I |].
  destruct (isspace c) eqn:Hc; [exact IH | exact Hc].
Qed.

Lemma rstrip_with_split (p : ascii -> bool) (s : string) :
  exists t, s = rstrip_with p s ++ t /\ all p t = true.
Proof.
  induction s as [|c s [t [Hs Ht]]]; simpl.
  - now exists EmptyString.
  - destruct (p c) eqn:Hc; simpl.
    + destruct (is_empty (rstrip_with p s)) eqn:He.
      * apply is_empty_true in He. rewrite He, app_nil_l in Hs.
        exists (String c t). rewrite app_nil_l. simpl. rewrite Hc, Ht.
        split; [now f_equal | reflexivity].
      * exists t. rewrite app_cons. split; [now f_equal | exact Ht].
    + exists t. rewrite app_cons. split; [now f_equal | exact Ht].
Qed.

Lemma rstrip_with_idem (p : ascii -> bool) (s : string) :
  rstrip_with p (rstrip_with p s) = rstrip_with p s.
Proof.
  induction s as [|c s IH]; simpl; [reflexivity |].
  destruct (p c && is_empty (rstrip_with p s)) eqn:Hc; simpl; [reflexivity |].
  rewrite IH, Hc. reflexivity.
Qed.

(** Stripping on the right keeps a first character that is kept on the
    left. *)
Lemma lstrip_rstrip (s : string) :
  match s with EmptyString => True | String c _ => isspace c = false end ->
  lstrip (rstrip s) = rstrip s.
Proof.
  unfold rstrip. destruct s as [|c s]; simpl; [reflexivity |].
  intros Hc. rewrite Hc. simpl. now rewrite Hc.
Qed.

Lemma lstrip_strip (s : string) : lstrip (strip s) = strip s.
Proof. unfold strip. apply lstrip_rstrip, lstrip_head. Qed.

Lemma rstrip_strip (s : string) : rstrip (strip s) = strip s.
Proof. unfold strip, rstrip. apply rstrip_with_idem. Qed.

Lemma strip_idem (s : string) : strip (strip s) = strip s.
Proof.
  unfold strip at 1. rewrite lstrip_strip. apply rstrip_strip.
Qed.

(** [strip] removes white space at both ends and nothing else. *)
Lemma strip_split (s : string) :
  exists l t, s = l ++ strip s ++ t
              /\ all isspace l = true /\ all isspace t = true.
Proof.
  destruct (lstrip_split s) as [l [Hs Hl]].
  destruct (rstrip_with_split isspace (lstrip s)) as [t [Hu Ht]].
  exists l, t. split; [| now split].
  unfold strip, rstrip. now rewrite <- Hu.
Qed.

(** A string without white space at its ends is its own [strip]. *)
Lemma lower_space_free (s : string) :
  all (fun c => negb (isspace c)) (lower s) = true -> strip s = s.
Proof.
  intros H.
  assert (Hs : all (fun c => negb (isspace c)) s = true).
  { induction s as [|c s IH]; simpl in *; [reflexivity |].
    apply andb_prop in H as [Hc H]. rewrite (IH H), andb_true_r.
    destruct (isspace c) eqn:E; [| reflexivity].
    rewrite (lower_char_space c E), E in Hc. discriminate Hc. }
  clear H. unfold strip.
  assert (Hl : lstrip s = s).
  { destruct s as [|c s]; simpl in *; [reflexivity |].
    apply andb_prop in Hs as [Hc _]. now destruct (isspace c). }
  rewrite Hl. unfold rstrip.
  induction s as [|c s IH]; simpl in *; [reflexivity |].
  apply andb_prop in Hs as [Hc Hs].
  destruct (isspace c); [discriminate Hc |]. simpl.
  f_equal. apply IH; [exact Hs |].
  destruct s as [|c' s]; simpl in *; [reflexivity |].
  apply andb_prop in Hs as [Hc' _]. now destruct (isspace c').
Qed.

End StringFacts.

(** ** The validator *)

Section NameFacts.

Import PyStr.

Lemma name_class_allowed (c : ascii) : Re.name_class c = NameSpec.allowed_char c.
Proof.
  unfold Re.name_class, Re.word, NameSpec.allowed_char, NameSpec.letter_or_digit.
  reflexivity.
Qed.

Lemma at_end_cases (s : string) :
  Re.at_end s = true <-> s = EmptyString \/ s = nl.
Proof.
  unfold nl. destruct s as [|c [|c' s]]; simpl.
  - split; [now left | reflexivity].
  - rewrite bool_decide_eq_true. split.
    + intros ->. now right.
    + intros [H | H]; [discriminate H | now injection H].
  - split; [discriminate | intros [H | H]; discriminate H].
Qed.

(** What the greedy class repetition followed by [$] matches. *)
Lemma plus_eol (cls : ascii -> bool) (s : string) (pos : nat) :
  Re.plus cls pos s (fun pos' s' => Re.eol pos' s' (fun _ _ => true)) = true
  <-> exists body, is_empty body = false /\ all cls body = true
                   /\ (s = body \/ s = body ++ nl).
Proof.
  unfold Re.eol. split.
  - revert pos. induction s as [|c s IH]; intros pos H; simpl in H; [discriminate H |].
    apply andb_prop in H as [Hc H]. apply orb_prop in H as [H | H].
    + destruct (IH _ H) as [body [Hne [Hall Hs]]].
      exists (String c body). simpl. rewrite Hc, Hall. repeat split.
      rewrite app_cons. destruct Hs as [-> | ->]; [now left | now right].
    + rewrite andb_true_r in H. apply at_end_cases in H.
      exists (String c EmptyString). simpl. rewrite Hc. repeat split.
      rewrite app_cons, app_nil_l. destruct H as [-> | ->]; [now left | now right].
  - intros [body [Hne [Hall Hs]]]. revert pos s Hs.
    induction body as [|c body IH]; intros pos s Hs; [discriminate Hne |].
    simpl in Hall. apply andb_prop in Hall as [Hc Hall].
    rewrite app_cons in Hs.
    assert (Hs' : exists s', s = String c s' /\ (s' = body \/ s' = body ++ nl)).
    { destruct Hs as [-> | ->]; eexists; split; eauto. }
    destruct Hs' as [s' [-> Hs']]. simpl. rewrite Hc. simpl.
    destruct body as [|c' body].
    + apply orb_true_intro. right. rewrite andb_true_r. apply at_end_cases.
      rewrite app_nil_l in Hs'. exact Hs'.
    + apply orb_true_intro. left. now apply IH.
Qed.

(** The names the code accepts: those of the specification, and each of
    them followed by one newline. *)
Lemma valid_name_iff (s : string) :
  valid_name s <->
  exists body, NameSpec.accepts body = true /\ (s = body \/ s = body ++ nl).
Proof.
  unfold valid_name, Re.match_, Re.pattern, Re.seq, Re.bol. simpl.
  rewrite plus_eol. unfold NameSpec.accepts.
  assert (Hcls : forall b, all Re.name_class b = all NameSpec.allowed_char b).
  { induction b as [|c b IH]; simpl; [reflexivity |].
    now rewrite IH, name_class_allowed. }
  split.
  - intros [body [Hne [Hall Hs]]]. exists body.
    rewrite Hne, <- Hcls, Hall. now split.
  - intros [body [Hb Hs]]. exists body.
    apply andb_prop in Hb as [Hne Hall].
    rewrite Hcls, Hall. repeat split; [| exact Hs].
    now destruct (is_empty body).
Qed.

Lemma accepts_valid (s : string) : NameSpec.accepts s = true -> valid_name s.
Proof. intros H. apply valid_name_iff. exists s. split; [exact H | now left]. Qed.

Lemma allowed_not_sep (c : ascii) :
  NameSpec.allowed_char c = true -> not_sep c = true.
Proof.
  unfold not_sep, is_sep. intros H. case_bool_decide as E; [| reflexivity].
  subst c. vm_compute in H. discriminate H.
Qed.

Lemma valid_name_plain (s : string) : valid_name s -> plain s.
Proof.
  intros H. apply valid_name_iff in H as [body [Hb Hs]].
  apply andb_prop in Hb as [Hne Hall].
  assert (Hp : plain body).
  { split; [now destruct (is_empty body) |].
    clear Hne Hs. induction body as [|c b IH]; simpl in *; [reflexivity |].
    apply andb_prop in Hall as [Hc Hall].
    now rewrite (allowed_not_sep c Hc), IH. }
  destruct Hs as [-> | ->]; [exact Hp |].
  destruct Hp as [Hne' Hsep]. split.
  - destruct body; [discriminate Hne' | reflexivity].
  - rewrite all_app, Hsep. reflexivity.
Qed.

End NameFacts.

(** ** Paths *)

Section PathFacts.

Import PyStr.

Lemma cut_plain (f : string) : all not_sep f = true -> cut f = (EmptyString, f).
Proof.
  induction f as [|c f IH]; simpl; [reflexivity |].
  intros H. apply andb_prop in H as [Hc H]. rewrite (IH H). simpl.
  unfold not_sep in Hc. now destruct (is_sep c).
Qed.

Lemma cut_app (h f : string) :
  all not_sep f = true -> cut (h ++ "/" ++ f) = (h ++ "/", f).
Proof.
  intros H. induction h as [|c h IH].
  - rewrite !app_nil_l, app_cons, app_nil_l. simpl. now rewrite (cut_plain f H).
  - rewrite !(app_cons c h). simpl. rewrite IH.
    destruct h; reflexivity.
Qed.

Lemma rstrip_sep_app (d : string) :
  all not_sep d = true -> rstrip_with is_sep (d ++ "/") = d.
Proof.
  induction d as [|c d IH]; [reflexivity |].
  rewrite app_cons. simpl. intros H. apply andb_prop in H as [Hc H].
  rewrite (IH H). unfold not_sep in Hc. now destruct (is_sep c).
Qed.

Lemma split_plain (f : string) : all not_sep f = true -> split f = (EmptyString, f).
Proof. intros H. unfold split. now rewrite (cut_plain f H). Qed.

Lemma split_child (d f : string) :
  plain d -> all not_sep f = true -> split (d ++ "/" ++ f) = (d, f).
Proof.
  intros [Hne Hd] Hf. unfold split.
  rewrite (cut_app d f Hf), (rstrip_sep_app d Hd). now rewrite Hne.
Qed.

Lemma ends_with_sep_plain (d : string) : all not_sep d = true -> ends_with_sep d = false.
Proof.
  induction d as [|c d IH]; [reflexivity |].
  simpl. intros H. apply andb_prop in H as [Hc H].
  destruct d as [|c' d]; [unfold not_sep in Hc; now destruct (is_sep c) |].
  now apply IH.
Qed.

Lemma join_child (d f : string) :
  plain d -> starts_with_sep f = false -> join d f = d ++ "/" ++ f.
Proof.
  intros [Hne Hd] Hf. unfold join.
  now rewrite Hf, Hne, (ends_with_sep_plain d Hd).
Qed.

Lemma length_app (a b : string) :
  String.length (a ++ b) = (String.length a + String.length b)%nat.
Proof.
  induction a as [|c a IH]; [reflexivity |].
  rewrite app_cons. simpl. now rewrite IH.
Qed.

(** A child path differs from its directory. *)
Lemma child_ne (d f : string) : d ++ "/" ++ f <> d.
Proof.
  intros H. apply (f_equal String.length) in H.
  rewrite !length_app in H. simpl in H. lia.
Qed.

Lemma child_inj (d f g : string) : d ++ "/" ++ f = d ++ "/" ++ g -> f = g.
Proof.
  intros H. apply (inj (String.append d)) in H.
  now apply (inj (String.append "/")) in H.
Qed.

End PathFacts.

(** ** The operating system calls *)

Section OsFacts.

Import PyStr.

Lemma present_lookup (f : gmap string node) (p : string) :
  present f p = false <-> f !! p = None.
Proof.
  unfold present. rewrite bool_decide_eq_false.
  rewrite <- eq_None_not_Some. reflexivity.
Qed.

Lemma present_some (f : gmap string node) (p : string) (n : node) :
  f !! p = Some n -> present f p = true.
Proof. intros H. unfold present. apply bool_decide_eq_true. now exists n. Qed.

Lemma present_insert (f : gmap string node) (p q : string) (n : node) :
  present (<[p := n]> f) q = bool_decide (p = q) || present f q.
Proof.
  unfold present. destruct (decide (p = q)) as [<- | E].
  - rewrite lookup_insert_eq. rewrite (bool_decide_true (p = p)) by reflexivity.
    apply bool_decide_eq_true. eauto.
  - rewrite lookup_insert_ne by exact E.
    rewrite (bool_decide_false (p = q)) by exact E. reflexivity.
Qed.

(** A name without separator is created by one [mkdir]. *)
Lemma makedirs_plain (d : string) (w : World) :
  all not_sep d = true -> makedirs d w = mkdir d w.
Proof.
  intros Hd. unfold makedirs.
  destruct (String.length d) as [|n]; simpl;
    rewrite (split_plain d Hd); destruct (is_empty d); reflexivity.
Qed.

(** So is a child of a path that is present. *)
Lemma makedirs_child (d f : string) (w : World) :
  plain d -> plain f -> present (fs w) d = true ->
  makedirs (d ++ "/" ++ f) w = mkdir (d ++ "/" ++ f) w.
Proof.
  intros Hd [Hfne Hf] Hp. unfold makedirs.
  destruct (String.length (d ++ "/" ++ f)) as [|n]; simpl;
    rewrite (split_child d f Hd Hf), Hfne; destruct Hd as [-> _]; simpl;
    unfold bind, exists_, get, ret; rewrite Hfne, Hp; reflexivity.
Qed.

(** [mkdir] of a child of a directory. *)
Lemma mkdir_child (d f : string) (w : World) :
  plain d -> plain f -> fs w !! d = Some Dir ->
  mkdir (d ++ "/" ++ f) w =
    if present (fs w) (d ++ "/" ++ f) then (Raise (OSError EEXIST (d ++ "/" ++ f)), w)
    else if refused (host w) (d ++ "/" ++ f) then (Raise (OSError EACCES (d ++ "/" ++ f)), w)
    else (Return tt, set_fs (<[d ++ "/" ++ f := Dir]> (fs w)) w).
Proof.
  intros Hd [Hfne Hf] Hdir. unfold mkdir, parent_error.
  rewrite (split_child d f Hd Hf). simpl. destruct Hd as [Hdne _].
  rewrite Hdne, Hdir.
  destruct d; [discriminate Hdne | reflexivity].
Qed.

(** [mkdir] of a name without separator. *)
Lemma mkdir_plain (d : string) (w : World) :
  plain d ->
  mkdir d w =
    if present (fs w) d then (Raise (OSError EEXIST d), w)
    else if refused (host w) d then (Raise (OSError EACCES d), w)
    else (Return tt, set_fs (<[d := Dir]> (fs w)) w).
Proof.
  intros [Hne Hd]. unfold mkdir, parent_error.
  rewrite (split_plain d Hd), Hne. reflexivity.
Qed.

(** Writing a child of a directory. *)
Lemma write_file_child (d f content : string) (w : World) :
  plain d -> plain f -> fs w !! d = Some Dir ->
  present (fs w) (d ++ "/" ++ f) = false ->
  write_file (d ++ "/" ++ f) content w =
    if refused (host w) (d ++ "/" ++ f) then (Raise (OSError EACCES (d ++ "/" ++ f)), w)
    else (Return tt, set_fs (<[d ++ "/" ++ f := File content]> (fs w)) w).
Proof.
  intros Hd [Hfne Hf] Hdir Hp. unfold write_file, parent_error.
  rewrite (split_child d f Hd Hf). simpl. destruct Hd as [Hdne _].
  rewrite Hdne, Hdir. apply present_lookup in Hp. rewrite Hp.
  destruct d; [discriminate Hdne | reflexivity].
Qed.

End OsFacts.

(** ** The Yes/No prompt *)

Section PromptFacts.

Import PyStr.

Variable prompt : string.

Lemma loop_eof (n : nat) (w : World) :
  stdin w = [] ->
  get_yes_no_loop prompt (S n) w = (Raise EOFError, emit (Prompt prompt) w).
Proof. intros H. simpl. unfold bind, input. simpl. now rewrite H. Qed.

Lemma loop_yes (n : nat) (w : World) (line : string) (rest : list string) :
  stdin w = line :: rest -> lower (strip line) ∈ ["yes"; "y"] ->
  get_yes_no_loop prompt (S n) w
  = (Return true, set_stdin rest (emit (Prompt prompt) w)).
Proof.
  intros H Hy. simpl. unfold bind, input. simpl. rewrite H.
  unfold in_list. now rewrite bool_decide_true by exact Hy.
Qed.

Lemma loop_no (n : nat) (w : World) (line : string) (rest : list string) :
  stdin w = line :: rest -> lower (strip line) ∈ ["no"; "n"] ->
  get_yes_no_loop prompt (S n) w
  = (Return false, set_stdin rest (emit (Prompt prompt) w)).
Proof.
  intros H Hn. simpl. unfold bind, input. simpl. rewrite H.
  unfold in_list. rewrite (bool_decide_true _ Hn).
  rewrite bool_decide_false; [reflexivity |].
  intros Hy. set_unfold. destruct Hn as [Hn | [Hn | []]];
    rewrite Hn in Hy; destruct Hy as [Hy | [Hy | []]]; discriminate Hy.
Qed.

Lemma loop_retry (n : nat) (w : World) (line : string) (rest : list string) :
  stdin w = line :: rest -> unrecognized line ->
  get_yes_no_loop prompt (S n) w
  = get_yes_no_loop prompt n
      (emit invalid_input (set_stdin rest (emit (Prompt prompt) w))).
Proof.
  intros H Hu. simpl. unfold bind at 1, input. simpl. rewrite H.
  unfold in_list, unrecognized in *.
  rewrite !bool_decide_false; [reflexivity | |];
    intros Hin; apply Hu; revert Hin; rewrite !elem_of_cons; tauto.
Qed.

(** One round of the loop, by the line it reads. *)
Lemma loop_cases (n : nat) (w : World) :
  match stdin w with
  | [] => get_yes_no_loop prompt (S n) w = (Raise EOFError, emit (Prompt prompt) w)
  | line :: rest =>
      (exists b, get_yes_no_loop prompt (S n) w
                 = (Return b, set_stdin rest (emit (Prompt prompt) w)))
      \/ get_yes_no_loop prompt (S n) w
         = get_yes_no_loop prompt n
             (emit invalid_input (set_stdin rest (emit (Prompt prompt) w)))
  end.
Proof.
  destruct (stdin w) as [|line rest] eqn:H; [now apply loop_eof |].
  destruct (decide (lower (strip line) ∈ ["yes"; "y"])) as [Hy | Hy].
  { left. exists true. now apply loop_yes with line. }
  destruct (decide (lower (strip line) ∈ ["no"; "n"])) as [Hn | Hn].
  { left. exists false. now apply loop_no with line. }
  right. apply loop_retry with line; [exact H |].
  unfold unrecognized. revert Hy Hn. rewrite !elem_of_cons. tauto.
Qed.

(** The prompt touches neither the file system nor the host, and only
    adds to what was emitted. *)
Lemma loop_frame (n : nat) (w : World) :
  let w' := snd (get_yes_no_loop prompt n w) in
  fs w' = fs w /\ host w' = host w /\ exists evs, out w' = (out w ++ evs)%list.
Proof.
  revert w. induction n as [|n IH]; intros w.
  - simpl. repeat split. eexists. reflexivity.
  - pose proof (loop_cases n w) as H.
    destruct (stdin w) as [|line rest].
    + rewrite H. simpl. repeat split. eexists. reflexivity.
    + destruct H as [[b H] | H]; rewrite H.
      * simpl. repeat split. eexists. reflexivity.
      * destruct (IH (emit invalid_input (set_stdin rest (emit (Prompt prompt) w))))
          as [Hfs [Hh [evs He]]].
        simpl in *. rewrite Hfs, Hh, He. repeat split.
        eexists. rewrite <- !app_assoc. reflexivity.
Qed.

(** With a round to go, the prompt is the first thing emitted. *)
Lemma loop_asks (n : nat) (w : World) :
  exists evs, out (snd (get_yes_no_loop prompt (S n) w))
              = (out w ++ Prompt prompt :: evs)%list.
Proof.
  pose proof (loop_cases n w) as H.
  destruct (stdin w) as [|line rest].
  - rewrite H. simpl. now exists [].
  - destruct H as [[b H] | H]; rewrite H.
    + simpl. now exists [].
    + destruct (loop_frame n (emit invalid_input (set_stdin rest (emit (Prompt prompt) w))))
        as [_ [_ [evs He]]].
      rewrite He. simpl. eexists. rewrite <- !app_assoc. reflexivity.
Qed.

(** The loop sees a line only through its stripped form. *)
Lemma loop_strip (n : nat) (w : World) (line : string) (rest : list string) :
  get_yes_no_loop prompt (S n) (set_stdin (line :: rest) w)
  = get_yes_no_loop prompt (S n) (set_stdin (strip line :: rest) w).
Proof. simpl. unfold bind, input. simpl. now rewrite strip_idem. Qed.

(** The lines [us] are turned down one by one. *)
Lemma loop_skip (us : list string) (n : nat) (w : World) (rest : list string) :
  Forall unrecognized us -> stdin w = (us ++ rest)%list ->
  get_yes_no_loop prompt (length us + n) w
  = get_yes_no_loop prompt n
      (mkWorld (host w) (fs w) rest (out w ++ retries prompt us)).
Proof.
  revert w. induction us as [|u us IH]; intros w Hus Hw.
  - simpl in *. rewrite app_nil_r, <- Hw. now destruct w.
  - inversion Hus as [|? ? Hu Hus']; subst.
    simpl length. simpl Nat.add.
    rewrite (loop_retry _ w u (us ++ rest)%list Hw Hu).
    rewrite IH by (exact Hus' || reflexivity).
    simpl. unfold retries. simpl. now rewrite <- !app_assoc.
Qed.

End PromptFacts.

(** ** The functions of the script *)

Section ScriptFacts.

Import PyStr.

Lemma check_python3_installed_eq (w : World) :
  check_python3_installed w =
    if interpreter_ok (host w) then (Return tt, emit (installed_msg (host w)) w)
    else (Exit 1, emit not_installed w).
Proof.
  unfold check_python3_installed, try_except, bind, subprocess_run_version,
    interpreter_ok, installed_msg.
  destruct (interpreter (host w)) as [rc so|]; simpl; [| reflexivity].
  destruct (rc =? 0)%Z; reflexivity.
Qed.

Lemma verify_folder_name_valid (d : string) (w : World) :
  valid_name d ->
  verify_folder_name d w
  = (Return tt, emit (Log INFO ("'" ++ d ++ "' is a valid folder name.")) w).
Proof. unfold valid_name, verify_folder_name. now intros ->. Qed.

Lemma verify_folder_name_invalid (d : string) (w : World) :
  ~ valid_name d ->
  verify_folder_name d w = (Exit 1, emit (invalid_name_msg d) w).
Proof.
  unfold valid_name, verify_folder_name. intros H.
  destruct (Re.match_ Re.pattern d); [now contradiction H | reflexivity].
Qed.

Lemma check_and_overwrite_file_absent (p : string) (w : World) :
  present (fs w) p = false -> check_and_overwrite_file p w = (Return true, w).
Proof. intros H. unfold check_and_overwrite_file, bind, exists_, get. now rewrite H. Qed.

(** Whatever the answer, the test on it fails: the prompt hands back a
    [bool], on which [lower] is looked up. *)
Lemma check_and_overwrite_file_answered (p : string) (w w1 : World) (b : bool) :
  present (fs w) p = true ->
  get_yes_no_input (overwrite_prompt p) default_retry_limit w = (Return b, w1) ->
  check_and_overwrite_file p w = (Raise no_lower, w1).
Proof.
  intros H Hg. unfold check_and_overwrite_file, bind at 1, exists_, get. rewrite H.
  unfold bind at 1. unfold overwrite_prompt in Hg. rewrite Hg. reflexivity.
Qed.

(** With the file present the check never returns: it ends as the prompt
    does, or with the [AttributeError]. *)
Lemma check_and_overwrite_file_present (p : string) (w : World) :
  present (fs w) p = true ->
  check_and_overwrite_file p w
  = match get_yes_no_input (overwrite_prompt p) default_retry_limit w with
    | (Return _, w1) => (Raise no_lower, w1)
    | (Exit c, w1) => (Exit c, w1)
    | (Raise e, w1) => (Raise e, w1)
    end.
Proof.
  intros H. unfold check_and_overwrite_file, bind at 1, exists_, get. rewrite H.
  unfold bind at 1. unfold overwrite_prompt.
  destruct (get_yes_no_input _ default_retry_limit w) as [[b | c | e] w1]; reflexivity.
Qed.

Lemma manage_folder_present (d : string) (w : World) :
  present (fs w) d = true ->
  manage_folder d w
  = match get_yes_no_input (reuse_prompt d) default_retry_limit w with
    | (Return true, w1) =>
        (Return true, emit (Log INFO ("Using the existing folder: " ++ d)) w1)
    | (Return false, w1) =>
        (Return false, emit (Log INFO "User chose not to use the existing folder.") w1)
    | (Exit c, w1) => (Exit c, w1)
    | (Raise e, w1) => (Raise e, w1)
    end.
Proof.
  intros H. unfold manage_folder, bind at 1, exists_, get. rewrite H.
  unfold bind at 1. unfold reuse_prompt.
  destruct (get_yes_no_input _ default_retry_limit w) as [[[] | c | e] w1]; reflexivity.
Qed.

Lemma manage_folder_absent (d : string) (w : World) :
  plain d -> present (fs w) d = false ->
  manage_folder d w
  = if refused (host w) d
    then (Return false,
          emit (Log ERROR ("Failed to create the folder '" ++ d ++ "': "
                           ++ exn_str (OSError EACCES d))) w)
    else (Return true,
          emit (Log INFO ("Folder '" ++ d ++ "' created."))
            (set_fs (<[d := Dir]> (fs w)) w)).
Proof.
  intros Hd H. unfold manage_folder, bind at 1, exists_, get. rewrite H.
  unfold try_except, bind at 1.
  rewrite (makedirs_plain d w (proj2 Hd)), (mkdir_plain d w Hd), H.
  destruct (refused (host w) d); reflexivity.
Qed.

End ScriptFacts.

(** ** Templates and subdirectories *)

Section PopulateFacts.

Import PyStr.

Variable d : string.
Hypothesis Hd : plain d.

Lemma plain_literal (f : string) :
  is_empty f = false -> all not_sep f = true -> plain f.
Proof. now split. Qed.

Lemma join_pipfile : join d "Pipfile" = pipfile_path d.
Proof. now apply join_child. Qed.

Lemma join_gitignore : join d ".gitignore" = gitignore_path d.
Proof. now apply join_child. Qed.

Lemma join_src : join d "src" = src_path d.
Proof. now apply join_child. Qed.

Lemma join_tests : join d "tests" = tests_path d.
Proof. now apply join_child. Qed.

Lemma create_pipfile_absent (w : World) :
  fs w !! d = Some Dir -> present (fs w) (pipfile_path d) = false ->
  create_pipfile d w
  = if refused (host w) (pipfile_path d)
    then (Raise (OSError EACCES (pipfile_path d)), w)
    else (Return tt,
          emit (Log INFO "Pipfile created.")
            (set_fs (<[pipfile_path d := File pipfile_content]> (fs w)) w)).
Proof.
  intros Hdir Hp. unfold create_pipfile. rewrite join_pipfile.
  unfold bind at 1. rewrite (check_and_overwrite_file_absent _ w Hp).
  unfold bind. unfold pipfile_path in *.
  rewrite (write_file_child d "Pipfile" _ w Hd (plain_literal "Pipfile" eq_refl eq_refl) Hdir Hp).
  destruct (refused (host w) _); reflexivity.
Qed.

Lemma create_gitignore_absent (w : World) :
  fs w !! d = Some Dir -> present (fs w) (gitignore_path d) = false ->
  create_gitignore d w
  = if refused (host w) (gitignore_path d)
    then (Raise (OSError EACCES (gitignore_path d)), w)
    else (Return tt,
          emit (Log INFO ".gitignore file created.")
            (set_fs (<[gitignore_path d := File gitignore_content]> (fs w)) w)).
Proof.
  intros Hdir Hp. unfold create_gitignore. rewrite join_gitignore.
  unfold bind at 1. rewrite (check_and_overwrite_file_absent _ w Hp).
  unfold bind. unfold gitignore_path in *.
  rewrite (write_file_child d ".gitignore" _ w Hd (plain_literal ".gitignore" eq_refl eq_refl) Hdir Hp).
  destruct (refused (host w) _); reflexivity.
Qed.

(** [makedirs] of a subdirectory that is absent. *)
Lemma makedirs_sub (f : string) (w : World) :
  plain f -> fs w !! d = Some Dir -> present (fs w) (d ++ "/" ++ f) = false ->
  makedirs (d ++ "/" ++ f) w
  = if refused (host w) (d ++ "/" ++ f)
    then (Raise (OSError EACCES (d ++ "/" ++ f)), w)
    else (Return tt, set_fs (<[d ++ "/" ++ f := Dir]> (fs w)) w).
Proof.
  intros Hf Hdir Hp.
  rewrite (makedirs_child d f w Hd Hf (present_some _ _ _ Hdir)).
  rewrite (mkdir_child d f w Hd Hf Hdir), Hp. reflexivity.
Qed.

Lemma set_fs_same (w : World) : set_fs (fs w) w = w.
Proof. now destruct w. Qed.

Lemma ensure_block_eq (label f : string) (w : World) :
  plain f -> fs w !! d = Some Dir ->
  ensure_block label (d ++ "/" ++ f) w
  = match ensured (host w) (fs w) (d ++ "/" ++ f) with
    | None => (Raise (OSError EACCES (d ++ "/" ++ f)), w)
    | Some f1 =>
        (Return tt,
         emit (dir_report label (present (fs w) (d ++ "/" ++ f)) (d ++ "/" ++ f))
           (set_fs f1 w))
    end.
Proof.
  intros Hf Hdir. unfold ensure_block, ensured, bind at 1, exists_, get.
  destruct (present (fs w) (d ++ "/" ++ f)) eqn:Hp; simpl.
  - now rewrite set_fs_same.
  - unfold bind. rewrite (makedirs_sub f w Hf Hdir Hp).
    destruct (refused (host w) _); reflexivity.
Qed.

Lemma ensured_keeps (h : Host) (f f1 : gmap string node) (p q : string) :
  ensured h f p = Some f1 -> q <> p -> f1 !! q = f !! q.
Proof.
  unfold ensured. intros H Hq.
  destruct (present f p); [now injection H as <- |].
  destruct (refused h p); [discriminate H |]. injection H as <-.
  now rewrite lookup_insert_ne by congruence.
Qed.

(** [create_project_structure] in closed form. *)
Lemma create_project_structure_eq (w : World) :
  fs w !! d = Some Dir ->
  create_project_structure d w
  = match ensured (host w) (fs w) (src_path d) with
    | None => (Exit 1, emit (dirs_failed d (src_path d)) w)
    | Some f1 =>
        let w1 := emit (dir_report "Source" (present (fs w) (src_path d)) (src_path d))
                    (set_fs f1 w) in
        match ensured (host w) f1 (tests_path d) with
        | None => (Exit 1, emit (dirs_failed d (tests_path d)) w1)
        | Some f2 =>
            (Return tt,
             emit (dir_report "Tests" (present f1 (tests_path d)) (tests_path d))
               (set_fs f2 w1))
        end
    end.
Proof.
  intros Hdir.
  change (create_project_structure d w)
    with (try_except
            (ensure_block "Source" (join d "src");;
             ensure_block "Tests" (join d "tests"))
            is_OSError
            (fun e =>
               logging_error ("Failed to create project directories in '" ++ d ++ "': "
                              ++ exn_str e);;
               sys_exit 1) w).
  rewrite join_src, join_tests. unfold try_except, bind at 1.
  unfold src_path, tests_path.
  rewrite (ensure_block_eq "Source" "src" w (plain_literal "src" eq_refl eq_refl) Hdir).
  destruct (ensured (host w) (fs w) (d ++ "/" ++ "src")) as [f1|] eqn:E1; [| reflexivity].
  rewrite (ensure_block_eq "Tests" "tests" _ (plain_literal "tests" eq_refl eq_refl)).
  - cbn [host fs emit set_fs].
    destruct (ensured (host w) f1 (d ++ "/" ++ "tests")); reflexivity.
  - cbn [fs emit set_fs]. rewrite (ensured_keeps _ _ _ _ d E1); [exact Hdir |].
    intros E. symmetry in E. now apply child_ne in E.
Qed.

End PopulateFacts.

(** ** The orchestrator *)

Section MainFacts.

Import PyStr.

Lemma run_status (w : World) : fst (run w) = exit_status (fst (main w)).
Proof. unfold run. now destruct (main w). Qed.

Lemma run_world (w : World) : snd (run w) = snd (main w).
Proof. unfold run. now destruct (main w). Qed.

Lemma main_missing_interpreter (w : World) :
  interpreter_ok (host w) = false -> main w = (Exit 1, emit not_installed w).
Proof.
  intros H. unfold main, bind at 1. now rewrite check_python3_installed_eq, H.
Qed.

Lemma main_eof (w : World) :
  interpreter_ok (host w) = true -> stdin w = [] ->
  main w = (Raise EOFError, emit (Prompt name_prompt) (emit (installed_msg (host w)) w)).
Proof.
  intros H Hin. unfold main, bind at 1. rewrite check_python3_installed_eq, H.
  unfold bind at 1, input. cbn [stdin emit]. now rewrite Hin.
Qed.

Lemma main_named (w : World) (line : string) (rest : list string) :
  interpreter_ok (host w) = true -> stdin w = line :: rest ->
  main w = (verify_folder_name (strip line);; setup (strip line)) (named rest w).
Proof.
  intros H Hin. unfold main, bind at 1. rewrite check_python3_installed_eq, H.
  unfold bind at 1, input. cbn [stdin emit]. now rewrite Hin.
Qed.

Lemma main_invalid (w : World) (line : string) (rest : list string) :
  interpreter_ok (host w) = true -> stdin w = line :: rest ->
  ~ valid_name (strip line) ->
  main w = (Exit 1, emit (invalid_name_msg (strip line)) (named rest w)).
Proof.
  intros H Hin Hv. rewrite (main_named w line rest H Hin).
  unfold bind. now rewrite verify_folder_name_invalid.
Qed.

Lemma main_valid (w : World) (line : string) (rest : list string) :
  interpreter_ok (host w) = true -> stdin w = line :: rest ->
  valid_name (strip line) ->
  main w = setup (strip line)
             (emit (Log INFO ("'" ++ strip line ++ "' is a valid folder name."))
                (named rest w)).
Proof.
  intros H Hin Hv. rewrite (main_named w line rest H Hin).
  unfold bind at 1. now rewrite verify_folder_name_valid.
Qed.

(** [main] sees the entered line only through its stripped form. *)
Lemma main_strip (w : World) (line : string) (rest : list string) :
  interpreter_ok (host w) = true ->
  main (set_stdin (line :: rest) w) = main (set_stdin (strip line :: rest) w).
Proof.
  intros H.
  rewrite (main_named (set_stdin (line :: rest) w) line rest H eq_refl).
  rewrite (main_named (set_stdin (strip line :: rest) w) (strip line) rest H eq_refl).
  now rewrite strip_idem.
Qed.

End MainFacts.

(** ** Ensured directories *)

Section EnsuredFacts.

Variable h : Host.






Lemma ensured_other (f f1 : gmap string node) (p q : string) :
  ensured h f p = Some f1 -> p <> q -> present f1 q = present f q.
Proof.
  unfold ensured. intros H1 Hne.
  destruct (present f p); [now injection H1 as <- |].
  destruct (refused h p); [discriminate |]. injection H1 as <-.
  rewrite present_insert. now rewrite (bool_decide_false (p = q)).
Qed.

Lemma ensured_refused (f f1 : gmap string node) (p q : string) :
  ensured h f p = Some f1 -> p <> q -> ensured h f q = None ->
  ensured h f1 q = None.
Proof.
  intros H1 Hne. unfold ensured.
  rewrite (ensured_other f f1 p q H1 Hne).
  destruct (present f q); [discriminate |].
  now destruct (refused h q).
Qed.



End EnsuredFacts.

(** ** Exit statuses *)

Section ExitFacts.

Import PyStr.




Variable d : string.
Hypothesis Hd : plain d.






End ExitFacts.

Section SetupFacts.

Import PyStr.

Variable d : string.
Hypothesis Hd : plain d.




End SetupFacts.

(** ** The reuse prompt, whatever the lines before the answer *)

Section ReuseAnswers.

Import PyStr.





Variable d : string.
Hypothesis Hd : plain d.






End ReuseAnswers.

(** ** Answers and names *)

Section AnswerFacts.

Import PyStr.

(** The validator and the specification's set of names: every name of the
    specification is accepted, and a name is turned down with exit status
    1 unless it is such a name, possibly followed by one newline. *)
Lemma verify_folder_name_refines (s : string) (w : World) :
  (NameSpec.accepts s = true -> fst (verify_folder_name s w) = Return tt)
  /\ ((forall body, NameSpec.accepts body = true -> s <> body /\ s <> body ++ nl) ->
      fst (verify_folder_name s w) = Exit 1).
Proof.
  split.
  - intros H. now rewrite (verify_folder_name_valid s w (accepts_valid s H)).
  - intros H. rewrite verify_folder_name_invalid; [reflexivity |].
    intros Hv. apply valid_name_iff in Hv as [body [Hb Hs]].
    destruct (H body Hb) as [H1 H2]. now destruct Hs.
Qed.

Lemma not_elem_of_compute (x : string) (l : list string) :
  bool_decide (x ∈ l) = false -> x ∉ l.
Proof. apply bool_decide_eq_false. Qed.

Lemma elem_of_compute (x : string) (l : list string) :
  bool_decide (x ∈ l) = true -> x ∈ l.
Proof. apply bool_decide_eq_true. Qed.

End AnswerFacts.

(** A line that lower-cases to one of the four answers has no white space
    around it, so the prompt reads it as that answer. *)
Lemma lowercase_answer_strip (line : string) :
  PyStr.lower line ∈ ["yes"; "y"; "no"; "n"] -> PyStr.strip line = line.
Proof.
  intros H. apply lower_space_free.
  rewrite !elem_of_cons in H.
  destruct H as [-> | [-> | [-> | [-> | H]]]]; try reflexivity.
  now apply elem_of_nil in H.
Qed.

(** * The claims *)

(** C2, at the input that separates the code from the claim: the name
    [name] followed by a newline holds a character that is no letter, digit,
    underscore, hyphen or space, so the specification's validator turns it
    down; [verify_folder_name] logs it as valid and returns, because [$]
    also matches before a final newline. *)
Theorem verify_folder_name_trailing_newline (w : World) :
  NameSpec.accepts ("name" ++ nl) = false
  /\ verify_folder_name ("name" ++ nl) w
     = (Return tt,
        emit (Log INFO ("'" ++ ("name" ++ nl) ++ "' is a valid folder name.")) w).
Proof. split; reflexivity. Qed.

(** C3, as stated, fails: the line [" yes "] does not lower-case to any of
    the four answers, yet the prompt does not ask again; it returns true
    having read that line only. *)
Lemma padded_answer_not_retried :
  (PyStr.lower " yes " ∉ ["yes"; "y"; "no"; "n"])
  /\ get_yes_no_input "Proceed? " 3 (mkWorld sample_host ∅ [" yes "; "no"] [])
     = (Return true, mkWorld sample_host ∅ ["no"] [Prompt "Proceed? "]).
Proof. split; [now apply not_elem_of_compute | reflexivity]. Qed.

(** C3, amended: for every prompt string, retry limit and input, the lines
    are read through [strip] and [lower]. After fewer than [retry_limit]
    unrecognized lines, a line that reads [yes] or [y] makes the prompt
    return true and one that reads [no] or [n] makes it return false; each
    unrecognized line before it was answered by the invalid-input record
    and a new prompt. After [retry_limit] unrecognized lines the error is
    logged and the process exits with status 1. The file system is
    untouched throughout. *)
Theorem get_yes_no_input_answers (prompt : string) (retry_limit : Z) (w : World)
    (us rest : list string) :
  Forall unrecognized us ->
  stdin w = (us ++ rest)%list ->
  ((length us < Z.to_nat retry_limit)%nat ->
   forall line tail, rest = line :: tail ->
     let w' := mkWorld (host w) (fs w) tail
                 (out w ++ retries prompt us ++ [Prompt prompt]) in
     (PyStr.lower (PyStr.strip line) ∈ ["yes"; "y"] ->
      get_yes_no_input prompt retry_limit w = (Return true, w'))
     /\ (PyStr.lower (PyStr.strip line) ∈ ["no"; "n"] ->
         get_yes_no_input prompt retry_limit w = (Return false, w')))
  /\ (length us = Z.to_nat retry_limit ->
      get_yes_no_input prompt retry_limit w
      = (Exit 1,
         mkWorld (host w) (fs w) rest
           (out w ++ retries prompt us ++ [Log ERROR "Too many invalid inputs."]))).
Proof.
  intros Hus Hin. unfold get_yes_no_input. split.
  - intros Hlt line tail ->.
    assert (Hn : exists k, Z.to_nat retry_limit = (length us + S k)%nat).
    { exists (Z.to_nat retry_limit - length us - 1)%nat. lia. }
    destruct Hn as [k ->].
    rewrite (loop_skip prompt us (S k) w (line :: tail) Hus Hin).
    split; intros Ha.
    + erewrite (loop_yes prompt k _ line tail) by (reflexivity || exact Ha).
      unfold set_stdin, emit. simpl. now rewrite <- app_assoc.
    + erewrite (loop_no prompt k _ line tail) by (reflexivity || exact Ha).
      unfold set_stdin, emit. simpl. now rewrite <- app_assoc.
  - intros <-. rewrite <- (Nat.add_0_r (length us)).
    rewrite (loop_skip prompt us 0 w rest Hus Hin).
    simpl. unfold bind, logging_error, modify, emit, sys_exit. simpl.
    now rewrite <- app_assoc.
Qed.

Lemma get_yes_no_input_answers_witness :
  get_yes_no_input "Proceed? " 3 (mkWorld sample_host ∅ ["maybe"; "Y"; "x"] [])
  = (Return true,
     mkWorld sample_host ∅ ["x"]
       [Prompt "Proceed? "; invalid_input; Prompt "Proceed? "])
  /\ get_yes_no_input "Proceed? " 3 (mkWorld sample_host ∅ ["maybe"; "N"; "x"] [])
     = (Return false,
        mkWorld sample_host ∅ ["x"]
          [Prompt "Proceed? "; invalid_input; Prompt "Proceed? "])
  /\ get_yes_no_input "Proceed? " 3 (mkWorld sample_host ∅ ["a"; "b"; "c"; "yes"] [])
     = (Exit 1,
        mkWorld sample_host ∅ ["yes"]
          [Prompt "Proceed? "; invalid_input; Prompt "Proceed? "; invalid_input;
           Prompt "Proceed? "; invalid_input; Log ERROR "Too many invalid inputs."]).
Proof.
  assert (H1 : Forall unrecognized ["maybe"]).
  { constructor; [now apply not_elem_of_compute | constructor]. }
  assert (H3 : Forall unrecognized ["a"; "b"; "c"]).
  { repeat constructor; now apply not_elem_of_compute. }
  assert (Hlt : (length ["maybe"] < Z.to_nat 3)%nat) by (simpl; lia).
  split; [| split].
  - exact (proj1 (proj1 (get_yes_no_input_answers "Proceed? " 3
                           (mkWorld sample_host ∅ ["maybe"; "Y"; "x"] [])
                           ["maybe"] ["Y"; "x"] H1 eq_refl)
                    Hlt "Y" ["x"] eq_refl)
             (elem_of_compute (PyStr.lower (PyStr.strip "Y")) ["yes"; "y"] eq_refl)).
  - exact (proj2 (proj1 (get_yes_no_input_answers "Proceed? " 3
                           (mkWorld sample_host ∅ ["maybe"; "N"; "x"] [])
                           ["maybe"] ["N"; "x"] H1 eq_refl)
                    Hlt "N" ["x"] eq_refl)
             (elem_of_compute (PyStr.lower (PyStr.strip "N")) ["no"; "n"] eq_refl)).
  - exact (proj2 (get_yes_no_input_answers "Proceed? " 3
                    (mkWorld sample_host ∅ ["a"; "b"; "c"; "yes"] [])
                    ["a"; "b"; "c"] ["yes"] H3 eq_refl)
             eq_refl).
Defined.

(** C7: for every entered name that fails validation, whatever the rest of
    the environment, the process exits with status 1 through [sys.exit] and
    the file system is the one it started with: no folder, file or
    subdirectory was created. *)
Theorem invalid_name_exits_before_mutation (w : World) (line : string)
    (rest : list string) :
  stdin w = line :: rest ->
  Re.match_ Re.pattern (PyStr.strip line) = false ->
  fst (run w) = 1%Z
  /\ exists w', main w = (Exit 1, w') /\ fs w' = fs w.
Proof.
  intros Hin Hv.
  assert (Hnv : ~ valid_name (PyStr.strip line)).
  { unfold valid_name. rewrite Hv. discriminate. }
  rewrite run_status.
  destruct (interpreter_ok (host w)) eqn:Hi.
  - rewrite (main_invalid w line rest Hi Hin Hnv). split; [reflexivity |].
    eexists. split; reflexivity.
  - rewrite (main_missing_interpreter w Hi). split; [reflexivity |].
    eexists. split; reflexivity.
Qed.

Lemma invalid_name_exits_before_mutation_witness :
  fst (run (mkWorld sample_host {[ "notes" := File "kept" ]} ["bad/name"] [])) = 1%Z
  /\ exists w',
       main (mkWorld sample_host {[ "notes" := File "kept" ]} ["bad/name"] [])
       = (Exit 1, w')
       /\ fs w' = {[ "notes" := File "kept" ]}.
Proof.
  exact (invalid_name_exits_before_mutation
           (mkWorld sample_host {[ "notes" := File "kept" ]} ["bad/name"] [])
           "bad/name" [] eq_refl eq_refl).
Defined.

(** C9: [strip] removes white space at both ends of a line and nothing
    else; the Yes/No prompt (with at least one round) and, once the
    interpreter check has passed, [main] behave on a line exactly as on its
    stripped form. So [" YES "] is read as yes, and the entered line
    ["  my_project  "] is validated and used as [my_project]: in an empty
    file system the folder created is [my_project]. *)
Theorem entered_lines_are_stripped (prompt : string) (retry_limit : Z) (w : World)
    (line : string) (rest : list string) :
  (0 < retry_limit)%Z ->
  interpreter_ok (host w) = true ->
  (exists l t, line = l ++ PyStr.strip line ++ t
               /\ PyStr.all PyStr.isspace l = true /\ PyStr.all PyStr.isspace t = true
               /\ PyStr.lstrip (PyStr.strip line) = PyStr.strip line
               /\ PyStr.rstrip (PyStr.strip line) = PyStr.strip line)
  /\ get_yes_no_input prompt retry_limit (set_stdin (line :: rest) w)
     = get_yes_no_input prompt retry_limit (set_stdin (PyStr.strip line :: rest) w)
  /\ main (set_stdin (line :: rest) w)
     = main (set_stdin (PyStr.strip line :: rest) w)
  /\ fst (get_yes_no_input prompt retry_limit (set_stdin (" YES " :: rest) w))
     = Return true
  /\ main (set_stdin ("  my_project  " :: rest) w)
     = setup "my_project"
         (emit (Log INFO "'my_project' is a valid folder name.") (named rest w))
  /\ (let w' := snd (main (mkWorld sample_host ∅ ["  my_project  "] [])) in
      fs w' !! "my_project" = Some Dir /\ fs w' !! "  my_project  " = None).
Proof.
  intros Hlim Hi.
  assert (Hn : exists n, Z.to_nat retry_limit = S n).
  { exists (Z.to_nat retry_limit - 1)%nat. lia. }
  destruct Hn as [n Hn].
  split; [| split; [| split; [| split; [| split]]]].
  - destruct (strip_split line) as [l [t [H1 [H2 H3]]]].
    exists l, t. repeat split; auto using lstrip_strip, rstrip_strip.
  - unfold get_yes_no_input. rewrite Hn. apply loop_strip.
  - now apply main_strip.
  - unfold get_yes_no_input. rewrite Hn.
    erewrite loop_yes; [reflexivity | reflexivity |].
    now apply elem_of_compute.
  - exact (main_valid (set_stdin ("  my_project  " :: rest) w)
             "  my_project  " rest Hi eq_refl eq_refl).
  - vm_compute. split; reflexivity.
Qed.

Lemma entered_lines_are_stripped_witness :
  get_yes_no_input "Proceed? " 3 (mkWorld sample_host ∅ [" YES "] [])
  = get_yes_no_input "Proceed? " 3 (mkWorld sample_host ∅ ["YES"] [])
  /\ main (mkWorld sample_host ∅ ["  my_project  "] [])
     = main (mkWorld sample_host ∅ ["my_project"] []).
Proof.
  pose proof (entered_lines_are_stripped "Proceed? " 3
                (mkWorld sample_host ∅ [] []) " YES " [] eq_refl eq_refl) as H1.
  pose proof (entered_lines_are_stripped "Proceed? " 3
                (mkWorld sample_host ∅ [] []) "  my_project  " [] eq_refl eq_refl) as H2.
  split.
  - exact (proj1 (proj2 H1)).
  - exact (proj1 (proj2 (proj2 H2))).
Defined.

(** C1, at the inputs that separate the code from the claim: [proj/Pipfile]
    and [proj/.gitignore] exist and the user answers the overwrite prompt.
    Whether the answer is yes or no, [check_and_overwrite_file] calls
    [lower] on the [bool] that the prompt returned, so [create_pipfile] and
    [create_gitignore] end with [AttributeError] right after the prompt: on
    consent the file is not replaced by the template, it still holds its
    old content. *)
Theorem answered_overwrite_raises :
  let f : gmap string node :=
    {[ "proj" := Dir; "proj/Pipfile" := File "old"; "proj/.gitignore" := File "old" ]} in
  create_pipfile "proj" (mkWorld sample_host f ["yes"] [])
  = (Raise no_lower,
     mkWorld sample_host f [] [Prompt (overwrite_prompt "proj/Pipfile")])
  /\ create_pipfile "proj" (mkWorld sample_host f ["no"] [])
     = (Raise no_lower,
        mkWorld sample_host f [] [Prompt (overwrite_prompt "proj/Pipfile")])
  /\ create_gitignore "proj" (mkWorld sample_host f ["yes"] [])
     = (Raise no_lower,
        mkWorld sample_host f [] [Prompt (overwrite_prompt "proj/.gitignore")])
  /\ f !! "proj/Pipfile" = Some (File "old")
  /\ f !! "proj/.gitignore" = Some (File "old")
  /\ pipfile_content <> "old" /\ gitignore_content <> "old".
Proof.
  intros f. split; [| split; [| split; [| split; [| split; [| split]]]]].
  - unfold create_pipfile. change (join "proj" "Pipfile") with "proj/Pipfile".
    cbv zeta. unfold bind at 1.
    now rewrite (check_and_overwrite_file_answered "proj/Pipfile"
                   (mkWorld sample_host f ["yes"] [])
                   (mkWorld sample_host f [] [Prompt (overwrite_prompt "proj/Pipfile")])
                   true eq_refl eq_refl).
  - unfold create_pipfile. change (join "proj" "Pipfile") with "proj/Pipfile".
    cbv zeta. unfold bind at 1.
    now rewrite (check_and_overwrite_file_answered "proj/Pipfile"
                   (mkWorld sample_host f ["no"] [])
                   (mkWorld sample_host f [] [Prompt (overwrite_prompt "proj/Pipfile")])
                   false eq_refl eq_refl).
  - unfold create_gitignore. change (join "proj" ".gitignore") with "proj/.gitignore".
    cbv zeta. unfold bind at 1.
    now rewrite (check_and_overwrite_file_answered "proj/.gitignore"
                   (mkWorld sample_host f ["yes"] [])
                   (mkWorld sample_host f [] [Prompt (overwrite_prompt "proj/.gitignore")])
                   true eq_refl eq_refl).
  - reflexivity.
  - reflexivity.
  - discriminate.
  - discriminate.
Qed.

(** C4: for every validated project name. If the folder exists, the answer
    to the reuse prompt is what [manage_folder] returns, true on acceptance
    and false on refusal, and the file system is untouched. If the folder
    does not exist and the operating system creates it, the folder is a
    directory afterwards and true is returned. If the creation fails, the
    failure is an [OSError], it is logged, and false is returned: the
    process is not terminated and the file system is untouched. *)
Theorem manage_folder_cases (d : string) (w : World) :
  Re.match_ Re.pattern d = true ->
  (present (fs w) d = true ->
   forall b w1,
     get_yes_no_input (reuse_prompt d) default_retry_limit w = (Return b, w1) ->
     exists w', manage_folder d w = (Return b, w') /\ fs w' = fs w)
  /\ (present (fs w) d = false -> refused (host w) d = false ->
      exists w', manage_folder d w = (Return true, w')
                 /\ fs w' = <[d := Dir]> (fs w))
  /\ (present (fs w) d = false ->
      forall o w1, makedirs d w = (o, w1) -> o <> Return tt ->
        exists e, o = Raise e /\ is_OSError e = true
                  /\ fs w1 = fs w
                  /\ manage_folder d w
                     = (Return false,
                        emit (Log ERROR ("Failed to create the folder '" ++ d ++ "': "
                                         ++ exn_str e)) w1)).
Proof.
  intros Hv. pose proof (valid_name_plain d Hv) as Hd.
  split; [| split].
  - intros Hp b w1 Hg. rewrite (manage_folder_present d w Hp), Hg.
    pose proof (loop_frame (reuse_prompt d) (Z.to_nat default_retry_limit) w) as Hf.
    unfold get_yes_no_input in Hg. rewrite Hg in Hf. simpl in Hf.
    destruct Hf as [Hf _]. destruct b; eexists; (split; [reflexivity | exact Hf]).
  - intros Hp Hr. rewrite (manage_folder_absent d w Hd Hp), Hr.
    eexists. split; reflexivity.
  - intros Hp o w1 Hm Ho.
    rewrite (makedirs_plain d w (proj2 Hd)), (mkdir_plain d w Hd), Hp in Hm.
    rewrite (manage_folder_absent d w Hd Hp).
    destruct (refused (host w) d); injection Hm as <- <-.
    + exists (OSError EACCES d). repeat split.
    + now contradiction Ho.
Qed.

Lemma manage_folder_cases_witness :
  (exists w', manage_folder "proj" (mkWorld strict_host {[ "proj" := Dir ]} ["no"] [])
              = (Return false, w') /\ fs w' = {[ "proj" := Dir ]})
  /\ (exists w', manage_folder "proj" (mkWorld strict_host ∅ [] []) = (Return true, w')
                 /\ fs w' = <[ "proj" := Dir ]> ∅)
  /\ (exists e, Raise (A:=unit) (OSError EACCES "locked") = Raise e
                /\ is_OSError e = true
                /\ fs (mkWorld strict_host ∅ [] []) = ∅
                /\ manage_folder "locked" (mkWorld strict_host ∅ [] [])
                   = (Return false,
                      emit (Log ERROR ("Failed to create the folder '" ++ "locked" ++ "': "
                                       ++ exn_str e)) (mkWorld strict_host ∅ [] []))).
Proof.
  split; [| split].
  - exact (proj1 (manage_folder_cases "proj" (mkWorld strict_host {[ "proj" := Dir ]} ["no"] []) eq_refl)
             eq_refl false
             (mkWorld strict_host {[ "proj" := Dir ]} [] [Prompt (reuse_prompt "proj")]) eq_refl).
  - exact (proj1 (proj2 (manage_folder_cases "proj" (mkWorld strict_host ∅ [] []) eq_refl))
             eq_refl eq_refl).
  - exact (proj2 (proj2 (manage_folder_cases "locked" (mkWorld strict_host ∅ [] []) eq_refl))
             eq_refl (Raise (OSError EACCES "locked")) (mkWorld strict_host ∅ [] []) eq_refl
             ltac:(discriminate)).
Defined.

(** C6: for every project folder (a directory with a validated name) in
    which the target file is absent, and which the operating system lets
    the script write to: [create_pipfile] and [create_gitignore] return
    with the target holding exactly the fixed template, whatever the file
    system held elsewhere; nothing is read from the input and the only
    thing emitted is the record of the creation, so no prompt is asked. *)
Theorem templates_written_when_absent (d : string) (w : World) :
  Re.match_ Re.pattern d = true ->
  fs w !! d = Some Dir ->
  (present (fs w) (join d "Pipfile") = false ->
   refused (host w) (join d "Pipfile") = false ->
   create_pipfile d w
   = (Return tt,
      mkWorld (host w) (<[join d "Pipfile" := File pipfile_content]> (fs w))
        (stdin w) (out w ++ [Log INFO "Pipfile created."])))
  /\ (present (fs w) (join d ".gitignore") = false ->
      refused (host w) (join d ".gitignore") = false ->
      create_gitignore d w
      = (Return tt,
         mkWorld (host w) (<[join d ".gitignore" := File gitignore_content]> (fs w))
           (stdin w) (out w ++ [Log INFO ".gitignore file created."]))).
Proof.
  intros Hv Hdir. pose proof (valid_name_plain d Hv) as Hd.
  rewrite (join_pipfile d Hd), (join_gitignore d Hd). split; intros Hp Hr.
  - now rewrite (create_pipfile_absent d Hd w Hdir Hp), Hr.
  - now rewrite (create_gitignore_absent d Hd w Hdir Hp), Hr.
Qed.

Lemma templates_written_when_absent_witness :
  create_pipfile "proj" (mkWorld sample_host {[ "proj" := Dir ]} ["unread"] [])
  = (Return tt,
     mkWorld sample_host (<[ "proj/Pipfile" := File pipfile_content ]> {[ "proj" := Dir ]})
       ["unread"] [Log INFO "Pipfile created."])
  /\ create_gitignore "proj" (mkWorld sample_host {[ "proj" := Dir ]} ["unread"] [])
     = (Return tt,
        mkWorld sample_host (<[ "proj/.gitignore" := File gitignore_content ]> {[ "proj" := Dir ]})
          ["unread"] [Log INFO ".gitignore file created."]).
Proof.
  pose proof (templates_written_when_absent "proj"
                (mkWorld sample_host {[ "proj" := Dir ]} ["unread"] [])
                eq_refl eq_refl) as [H1 H2].
  split; [exact (H1 eq_refl eq_refl) | exact (H2 eq_refl eq_refl)].
Defined.

(** C10: [manage_folder] tests that the path exists, not that it is a
    directory. For every path at which a regular file is found, the reuse
    prompt is the first thing emitted, and when the prompt returns true so
    does [manage_folder], with the file system as it was: the regular file
    is still there and no directory was made. *)
Theorem regular_file_treated_as_folder (d content : string) (w : World) :
  fs w !! d = Some (File content) ->
  (exists evs, out (snd (manage_folder d w))
               = (out w ++ Prompt (reuse_prompt d) :: evs)%list)
  /\ (forall w1,
        get_yes_no_input (reuse_prompt d) default_retry_limit w = (Return true, w1) ->
        exists w', manage_folder d w = (Return true, w')
                   /\ fs w' = fs w /\ fs w' !! d = Some (File content)).
Proof.
  intros Hf. pose proof (present_some _ _ _ Hf) as Hp.
  rewrite (manage_folder_present d w Hp). split.
  - destruct (loop_asks (reuse_prompt d) 2 w) as [evs He].
    change (get_yes_no_loop (reuse_prompt d) 3 w)
      with (get_yes_no_input (reuse_prompt d) default_retry_limit w) in He.
    destruct (get_yes_no_input (reuse_prompt d) default_retry_limit w)
      as [[[] | c | e] w1]; simpl in *; rewrite He;
      eexists; rewrite <- ?app_assoc; simpl; reflexivity.
  - intros w1 Hg. rewrite Hg.
    pose proof (loop_frame (reuse_prompt d) (Z.to_nat default_retry_limit) w) as Hfr.
    unfold get_yes_no_input in Hg. rewrite Hg in Hfr. simpl in Hfr.
    destruct Hfr as [Hfs _]. eexists. split; [reflexivity |].
    simpl. rewrite Hfs. now split.
Qed.

Lemma regular_file_treated_as_folder_witness :
  (exists evs,
     out (snd (manage_folder "proj"
                 (mkWorld sample_host {[ "proj" := File "text" ]} ["yes"] [])))
     = ([] ++ Prompt (reuse_prompt "proj") :: evs)%list)
  /\ exists w',
       manage_folder "proj" (mkWorld sample_host {[ "proj" := File "text" ]} ["yes"] [])
       = (Return true, w')
       /\ fs w' = {[ "proj" := File "text" ]}
       /\ fs w' !! "proj" = Some (File "text").
Proof.
  pose proof (regular_file_treated_as_folder "proj" "text"
                (mkWorld sample_host {[ "proj" := File "text" ]} ["yes"] [])
                eq_refl) as [H1 H2].
  split; [exact H1 |].
  exact (H2 (mkWorld sample_host {[ "proj" := File "text" ]} []
               [Prompt (reuse_prompt "proj")]) eq_refl).
Defined.







(** * Further properties *)

(** ** The prompt, read backwards *)

Section PromptInversion.

Variable prompt : string.

Lemma reads_true (line : string) :
  reads true line <-> PyStr.lower (PyStr.strip line) ∈ ["yes"; "y"].
Proof. reflexivity. Qed.

Lemma reads_false (line : string) :
  reads false line <-> PyStr.lower (PyStr.strip line) ∈ ["no"; "n"].
Proof. reflexivity. Qed.

(** A line is an answer or is unrecognized. *)
Lemma line_cases (line : string) :
  reads true line \/ reads false line \/ unrecognized line.
Proof.
  unfold reads, unrecognized.
  destruct (decide (PyStr.lower (PyStr.strip line) ∈ ["yes"; "y"])) as [Hy | Hy];
    [now left |].
  destruct (decide (PyStr.lower (PyStr.strip line) ∈ ["no"; "n"])) as [Hn | Hn];
    [now right; left |].
  right. right. revert Hy Hn. rewrite !elem_of_cons. tauto.
Qed.

(** What the loop can end with, from the input it was given. *)
Lemma loop_inversion (n : nat) (w : World) :
  match get_yes_no_loop prompt n w with
  | (Return b, w') =>
      exists us line tail,
        stdin w = (us ++ line :: tail)%list /\ Forall unrecognized us
        /\ (length us < n)%nat /\ reads b line /\ stdin w' = tail
  | (Exit c, w') =>
      c = 1%Z
      /\ exists us tail,
           stdin w = (us ++ tail)%list /\ Forall unrecognized us
           /\ length us = n /\ stdin w' = tail
  | (Raise e, w') =>
      e = EOFError /\ Forall unrecognized (stdin w)
      /\ (length (stdin w) < n)%nat /\ stdin w' = []
  end.
Proof.
  revert w. induction n as [|n IH]; intros w.
  - simpl. split; [reflexivity |]. exists [], (stdin w). repeat split. constructor.
  - destruct (stdin w) as [|line rest] eqn:Hin.
    + rewrite (loop_eof prompt n w Hin). simpl. rewrite Hin.
      repeat split; [constructor | simpl; lia].
    + destruct (line_cases line) as [Hy | [Hn | Hu]].
      * rewrite (loop_yes prompt n w line rest Hin Hy).
        exists [], line, rest. repeat split; [constructor | simpl; lia | exact Hy].
      * rewrite (loop_no prompt n w line rest Hin Hn).
        exists [], line, rest. repeat split; [constructor | simpl; lia | exact Hn].
      * rewrite (loop_retry prompt n w line rest Hin Hu).
        specialize (IH (emit invalid_input (set_stdin rest (emit (Prompt prompt) w)))).
        destruct (get_yes_no_loop prompt n _) as [[b | c | e] w']; simpl in IH.
        -- destruct IH as [us [l [tail [H1 [H2 [H3 [H4 H5]]]]]]].
           exists (line :: us), l, tail. rewrite H1. repeat split; auto.
           simpl. lia.
        -- destruct IH as [Hc [us [tail [H1 [H2 [H3 H4]]]]]].
           split; [exact Hc |]. exists (line :: us), tail. rewrite H1.
           repeat split; auto. simpl. now rewrite H3.
        -- destruct IH as [He [H1 [H2 H3]]].
           repeat split; auto. simpl. lia.
Qed.

End PromptInversion.

(** X1: whatever [get_yes_no_input] ends with tells how the input began.
    If it returns [b], fewer than [retry_limit] unrecognized lines were
    followed by a line that reads as [b], and exactly those lines were
    consumed. If it exits, the status is 1 and exactly [retry_limit]
    unrecognized lines were consumed (none when the limit is not positive).
    If an exception escapes, it is [EOFError]: the input held fewer than
    [retry_limit] lines, all unrecognized, and is used up. In every case the
    file system and the host are untouched. *)
Theorem get_yes_no_input_inversion (prompt : string) (retry_limit : Z) (w : World) :
  let r := get_yes_no_input prompt retry_limit w in
  fs (snd r) = fs w /\ host (snd r) = host w
  /\ match fst r with
     | Return b =>
         exists us line tail,
           stdin w = (us ++ line :: tail)%list /\ Forall unrecognized us
           /\ (Z.of_nat (length us) < retry_limit)%Z /\ reads b line
           /\ stdin (snd r) = tail
     | Exit c =>
         c = 1%Z
         /\ exists us tail,
              stdin w = (us ++ tail)%list /\ Forall unrecognized us
              /\ Z.of_nat (length us) = Z.max 0 retry_limit
              /\ stdin (snd r) = tail
     | Raise e =>
         e = EOFError /\ Forall unrecognized (stdin w)
         /\ (Z.of_nat (length (stdin w)) < retry_limit)%Z
         /\ stdin (snd r) = []
     end.
Proof.
  intros r. subst r. unfold get_yes_no_input.
  destruct (loop_frame prompt (Z.to_nat retry_limit) w) as [Hfs [Hh _]].
  split; [exact Hfs |]. split; [exact Hh |].
  pose proof (loop_inversion prompt (Z.to_nat retry_limit) w) as H.
  destruct (get_yes_no_loop prompt (Z.to_nat retry_limit) w) as [[b | c | e] w'];
    simpl in *.
  - destruct H as [us [line [tail [H1 [H2 [H3 [H4 H5]]]]]]].
    exists us, line, tail. repeat split; auto. lia.
  - destruct H as [Hc [us [tail [H1 [H2 [H3 H4]]]]]].
    split; [exact Hc |]. exists us, tail. repeat split; auto. lia.
  - destruct H as [He [H1 [H2 H3]]]. repeat split; auto. lia.
Qed.

(** X2: when the input ends before an answer and before the retry limit,
    [get_yes_no_input] does not reach its own error exit: after one prompt
    per line and one more, [input] raises [EOFError], which the function
    lets escape. *)
Theorem get_yes_no_input_premature_eof (prompt : string) (retry_limit : Z)
    (w : World) :
  Forall unrecognized (stdin w) ->
  (Z.of_nat (length (stdin w)) < retry_limit)%Z ->
  get_yes_no_input prompt retry_limit w
  = (Raise EOFError,
     mkWorld (host w) (fs w) []
       (out w ++ retries prompt (stdin w) ++ [Prompt prompt])).
Proof.
  intros Hu Hlt. unfold get_yes_no_input.
  assert (Hn : exists k, Z.to_nat retry_limit = (length (stdin w) + S k)%nat).
  { exists (Z.to_nat retry_limit - length (stdin w) - 1)%nat. lia. }
  destruct Hn as [k ->].
  rewrite (loop_skip prompt (stdin w) (S k) w [] Hu)
    by (now rewrite app_nil_r).
  rewrite loop_eof by reflexivity.
  unfold emit. simpl. now rewrite <- app_assoc.
Qed.

Lemma get_yes_no_input_premature_eof_witness :
  get_yes_no_input "Proceed? " 3 (mkWorld sample_host ∅ ["maybe"; ""] [])
  = (Raise EOFError,
     mkWorld sample_host ∅ []
       [Prompt "Proceed? "; invalid_input; Prompt "Proceed? "; invalid_input;
        Prompt "Proceed? "]).
Proof.
  assert (Hu : Forall unrecognized ["maybe"; ""]).
  { repeat constructor; now apply not_elem_of_compute. }
  exact (get_yes_no_input_premature_eof "Proceed? " 3
           (mkWorld sample_host ∅ ["maybe"; ""] []) Hu eq_refl).
Defined.

(** ** The interpreter check and the validator *)

(** X3: [check_python3_installed] returns exactly when the interpreter ran
    with return code 0, and then logs the version it printed, stripped. In
    every other case, the executable missing or the return code not 0, it
    logs the same error record and exits with status 1. It reads no input
    and leaves the file system alone. *)
Theorem check_python3_installed_outcome (w : World) :
  let r := check_python3_installed w in
  fs (snd r) = fs w /\ stdin (snd r) = stdin w /\ host (snd r) = host w
  /\ ((exists so,
         interpreter (host w) = Completed 0 so
         /\ r = (Return tt,
                 emit (Log INFO ("Python interpreter is installed: " ++ PyStr.strip so)) w))
      \/ ((interpreter (host w) = NotFound
           \/ exists rc so, interpreter (host w) = Completed rc so /\ rc <> 0%Z)
          /\ r = (Exit 1, emit (Log ERROR "Python interpreter is not installed.") w))).
Proof.
  intros r. subst r. rewrite check_python3_installed_eq.
  unfold interpreter_ok, installed_msg.
  destruct (interpreter (host w)) as [rc so|] eqn:Hi.
  - destruct (Z.eqb_spec rc 0) as [-> | Hne].
    + refine (conj eq_refl (conj eq_refl (conj eq_refl _))).
      left. exists so. now split.
    + refine (conj eq_refl (conj eq_refl (conj eq_refl _))).
      right. split; [| reflexivity]. right. now exists rc, so.
  - refine (conj eq_refl (conj eq_refl (conj eq_refl _))).
    right. split; [now left | reflexivity].
Qed.

(** X4: [verify_folder_name] returns exactly on the names of the
    specification and on each of them followed by one newline; on every
    other string it exits with status 1. Either way it logs one record,
    reads no input and leaves the file system alone. *)
Theorem verify_folder_name_exact (s : string) (w : World) :
  let r := verify_folder_name s w in
  (fst r = Return tt
   <-> exists body, NameSpec.accepts body = true /\ (s = body \/ s = body ++ nl))
  /\ (fst r = Return tt \/ fst r = Exit 1)
  /\ fs (snd r) = fs w /\ stdin (snd r) = stdin w
  /\ exists lv msg, out (snd r) = (out w ++ [Log lv msg])%list.
Proof.
  intros r. subst r. rewrite <- valid_name_iff.
  destruct (Re.match_ Re.pattern s) eqn:Hm.
  - rewrite (verify_folder_name_valid s w Hm). simpl.
    repeat split; auto. eexists _, _. reflexivity.
  - assert (Hnv : ~ valid_name s) by (unfold valid_name; rewrite Hm; discriminate).
    rewrite (verify_folder_name_invalid s w Hnv). simpl.
    repeat split; auto; try discriminate; try contradiction.
    eexists _, _. reflexivity.
Qed.

Lemma name_class_no_dot (c : ascii) :
  Re.name_class c = true -> c <> "."%char /\ c <> "/"%char.
Proof.
  intros H. split; intros ->; vm_compute in H; discriminate H.
Qed.

(** X5: a name that [verify_folder_name] lets through is one path
    component. It is not empty and holds neither a slash nor a dot, so it
    is not [.], not [..], not absolute and not nested; joining a file name
    to it puts one slash in between, and splitting the result gives both
    back. *)
Theorem validated_name_is_one_component (s : string) (w : World) :
  fst (verify_folder_name s w) = Return tt ->
  s <> EmptyString
  /\ PyStr.all (fun c => negb (bool_decide (c = "/"%char) || bool_decide (c = "."%char))) s
     = true
  /\ (forall f, plain f -> join s f = s ++ "/" ++ f /\ split (join s f) = (s, f)).
Proof.
  intros Hr.
  assert (Hv : valid_name s).
  { unfold valid_name. unfold verify_folder_name in Hr.
    destruct (Re.match_ Re.pattern s); [reflexivity | discriminate Hr]. }
  pose proof (valid_name_plain s Hv) as Hp.
  split; [| split].
  - destruct Hp as [Hne _]. intros ->. discriminate Hne.
  - apply valid_name_iff in Hv as [body [Hb Hs]].
    apply andb_prop in Hb as [_ Hall].
    assert (Hbody : PyStr.all (fun c => negb (bool_decide (c = "/"%char)
                                              || bool_decide (c = "."%char))) body = true).
    { clear Hs Hp. induction body as [|c b IH]; simpl in *; [reflexivity |].
      apply andb_prop in Hall as [Hc Hall]. rewrite (IH Hall), andb_true_r.
      rewrite <- name_class_allowed in Hc.
      destruct (name_class_no_dot c Hc) as [H1 H2].
      rewrite (bool_decide_false _ H1), (bool_decide_false _ H2). reflexivity. }
    destruct Hs as [-> | ->]; [exact Hbody |].
    rewrite all_app, Hbody. reflexivity.
  - intros f [Hfne Hf].
    assert (Hj : join s f = s ++ "/" ++ f).
    { apply join_child; [exact Hp |].
      destruct f as [|c f]; [discriminate Hfne |].
      simpl in *. apply andb_prop in Hf as [Hc _].
      unfold not_sep in Hc. now destruct (is_sep c). }
    split; [exact Hj |]. rewrite Hj. now apply split_child.
Qed.

Lemma validated_name_is_one_component_witness :
  "my project" <> EmptyString
  /\ PyStr.all (fun c => negb (bool_decide (c = "/"%char) || bool_decide (c = "."%char)))
       "my project" = true
  /\ (forall f, plain f ->
        join "my project" f = "my project" ++ "/" ++ f
        /\ split (join "my project" f) = ("my project", f)).
Proof.
  exact (validated_name_is_one_component "my project"
           (mkWorld sample_host ∅ [] []) eq_refl).
Defined.

(** ** The folder manager and the overwrite check *)

(** X6: for a validated name, [manage_folder] returns true only with the
    path present afterwards, and changes the file system in one way only:
    by adding the folder as a directory where nothing was. When it does not
    return true the file system is as before. It exits with status 1 only,
    and the only exception it lets escape is the [EOFError] of the
    prompt. *)
Theorem manage_folder_postcondition (d : string) (w : World) :
  Re.match_ Re.pattern d = true ->
  let r := manage_folder d w in
  host (snd r) = host w
  /\ (fst r = Return true -> present (fs (snd r)) d = true)
  /\ (fst r <> Return true -> fs (snd r) = fs w)
  /\ (fs (snd r) = fs w
      \/ (present (fs w) d = false /\ fs (snd r) = <[d := Dir]> (fs w)))
  /\ (forall e, fst r = Raise e -> e = EOFError)
  /\ (forall c, fst r = Exit c -> c = 1%Z).
Proof.
  intros Hv r. subst r. pose proof (valid_name_plain d Hv) as Hd.
  destruct (present (fs w) d) eqn:Hp.
  - rewrite (manage_folder_present d w Hp). unfold get_yes_no_input.
    destruct (loop_frame (reuse_prompt d) (Z.to_nat default_retry_limit) w)
      as [Hfs [Hh _]].
    pose proof (loop_inversion (reuse_prompt d) (Z.to_nat default_retry_limit) w) as Hi.
    destruct (get_yes_no_loop (reuse_prompt d) (Z.to_nat default_retry_limit) w)
      as [[[] | c | e] w']; simpl in *;
      repeat split; auto; try congruence; try (now rewrite Hfs);
      try (intros ? [= <-]; now destruct Hi).
  - rewrite (manage_folder_absent d w Hd Hp).
    destruct (refused (host w) d); simpl; repeat split; auto; try congruence;
      try (intros H; now contradiction H).
    rewrite present_insert. now rewrite (bool_decide_true (d = d)).
Qed.

Lemma manage_folder_postcondition_witness :
  host (snd (manage_folder "proj" (mkWorld sample_host ∅ [] []))) = sample_host
  /\ (fst (manage_folder "proj" (mkWorld sample_host ∅ [] [])) = Return true ->
      present (fs (snd (manage_folder "proj" (mkWorld sample_host ∅ [] [])))) "proj"
      = true).
Proof.
  pose proof (manage_folder_postcondition "proj" (mkWorld sample_host ∅ [] []) eq_refl)
    as [H1 [H2 _]].
  split; [exact H1 | exact H2].
Defined.

(** X7: [check_and_overwrite_file] never returns false and never changes
    the file system. It returns true exactly when nothing is at the path,
    and then without having asked or logged anything. When something is at
    the path it never returns: it ends as the prompt does, with exit
    status 1 or with [EOFError], or with the [AttributeError] raised on
    the prompt's answer. *)
Theorem check_and_overwrite_file_never_declines (p : string) (w : World) :
  let r := check_and_overwrite_file p w in
  fs (snd r) = fs w
  /\ fst r <> Return false
  /\ (fst r = Return true <-> present (fs w) p = false)
  /\ (fst r = Return true -> snd r = w)
  /\ (forall e, fst r = Raise e -> e = EOFError \/ e = no_lower)
  /\ (forall c, fst r = Exit c -> c = 1%Z).
Proof.
  intros r. subst r. destruct (present (fs w) p) eqn:Hp.
  - rewrite (check_and_overwrite_file_present p w Hp). unfold get_yes_no_input.
    destruct (loop_frame (overwrite_prompt p) (Z.to_nat default_retry_limit) w)
      as [Hfs _].
    pose proof (loop_inversion (overwrite_prompt p) (Z.to_nat default_retry_limit) w)
      as Hi.
    destruct (get_yes_no_loop (overwrite_prompt p) (Z.to_nat default_retry_limit) w)
      as [[b | c | e] w']; simpl in *.
    + split; [exact Hfs |]. split; [discriminate |].
      split; [split; discriminate |]. split; [discriminate |].
      split; [| discriminate]. intros e [= <-]. now right.
    + split; [exact Hfs |]. split; [discriminate |].
      split; [split; discriminate |]. split; [discriminate |].
      split; [discriminate |]. intros c' [= <-]. exact (proj1 Hi).
    + split; [exact Hfs |]. split; [discriminate |].
      split; [split; discriminate |]. split; [discriminate |].
      split; [| discriminate]. intros e' [= <-]. left. exact (proj1 Hi).
  - rewrite (check_and_overwrite_file_absent p w Hp). simpl.
    split; [reflexivity |]. split; [discriminate |].
    split; [split; reflexivity |]. split; [reflexivity |].
    split; discriminate.
Qed.

(** ** What a run may touch *)

Section Confinement.

Lemma touches_only_refl (S : list string) (w : World) : touches_only S w w.
Proof. split; [reflexivity | split; [reflexivity | reflexivity]]. Qed.

Lemma touches_only_trans (S : list string) (w1 w2 w3 : World) :
  touches_only S w1 w2 -> touches_only S w2 w3 -> touches_only S w1 w3.
Proof.
  intros [Hh1 [Hs1 Hq1]] [Hh2 [Hs2 Hq2]]. split; [congruence |]. split.
  - now transitivity (fs w2).
  - intros q Hq. now rewrite (Hq2 q Hq), (Hq1 q Hq).
Qed.

Lemma touches_only_weaken (S S' : list string) (w w' : World) :
  (forall q, q ∈ S -> q ∈ S') -> touches_only S w w' -> touches_only S' w w'.
Proof.
  intros Hsub [Hh [Hs Hq]]. split; [exact Hh | split; [exact Hs |]].
  intros q Hn. apply Hq. intros Hin. apply Hn, Hsub, Hin.
Qed.

(** A world that differs in input and output only. *)
Lemma touches_only_same (S : list string) (w w' : World) :
  host w' = host w -> fs w' = fs w -> touches_only S w w'.
Proof.
  intros Hh Hf. split; [exact Hh | split; [now rewrite Hf | now rewrite Hf]].
Qed.

Lemma touches_only_present (S : list string) (w w' : World) (q : string) :
  touches_only S w w' -> present (fs w) q = true -> present (fs w') q = true.
Proof.
  intros [_ [Hs _]] Hp. unfold present in *.
  apply bool_decide_eq_true in Hp as [n Hn]. apply bool_decide_eq_true.
  exists n. eapply lookup_weaken; eauto.
Qed.

Lemma ok_at_weaken {A} (S S' : list string) (m : M A) (w : World) :
  (forall q, q ∈ S -> q ∈ S') -> ok_at S m w -> ok_at S' m w.
Proof. intros Hsub [Ht He]. split; [now apply (touches_only_weaken S) | exact He]. Qed.

(** Sequencing, the second step being looked at only where the first one
    returned. *)
Lemma ok_at_bind {A B} (S : list string) (m : M A) (k : A -> M B) (w : World) :
  ok_at S m w ->
  (forall a w1, m w = (Return a, w1) -> ok_at S (k a) w1) ->
  ok_at S (bind m k) w.
Proof.
  intros [Ht He] Hk. unfold ok_at, bind.
  destruct (m w) as [[a | c | e] w1] eqn:Hm; simpl in *.
  - destruct (Hk a w1 eq_refl) as [Ht' He'].
    split; [exact (touches_only_trans S w w1 _ Ht Ht') | exact He'].
  - split; [exact Ht |]. intros c' [= <-]. now apply He.
  - split; [exact Ht | discriminate].
Qed.

Lemma ok_at_try {A} (S : list string) (body : M A) (catches : exn -> bool)
    (handler : exn -> M A) (w : World) :
  ok_at S body w ->
  (forall e w1, body w = (Raise e, w1) -> ok_at S (handler e) w1) ->
  ok_at S (try_except body catches handler) w.
Proof.
  intros [Ht He] Hh. unfold ok_at, try_except.
  destruct (body w) as [[a | c | e] w1] eqn:Hb; simpl in *.
  - split; [exact Ht | discriminate].
  - split; [exact Ht | exact He].
  - destruct (catches e).
    + destruct (Hh e w1 eq_refl) as [Ht' He'].
      split; [exact (touches_only_trans S w w1 _ Ht Ht') | exact He'].
    + split; [exact Ht | discriminate].
Qed.

Lemma ok_at_ret {A} (S : list string) (a : A) (w : World) : ok_at S (ret a) w.
Proof. split; [apply touches_only_refl | discriminate]. Qed.

Lemma ok_at_exit_1 {A} (S : list string) (w : World) : ok_at S (sys_exit (A:=A) 1) w.
Proof. split; [apply touches_only_refl | now intros c [= <-]]. Qed.

Lemma ok_at_logging_info (S : list string) (msg : string) (w : World) :
  ok_at S (logging_info msg) w.
Proof. split; [now apply touches_only_same | discriminate]. Qed.

Lemma ok_at_logging_error (S : list string) (msg : string) (w : World) :
  ok_at S (logging_error msg) w.
Proof. split; [now apply touches_only_same | discriminate]. Qed.

Lemma ok_at_exists (S : list string) (p : string) (w : World) : ok_at S (exists_ p) w.
Proof. split; [apply touches_only_refl | discriminate]. Qed.

Lemma ok_at_input (S : list string) (prompt : string) (w : World) :
  ok_at S (input prompt) w.
Proof.
  unfold ok_at, input. simpl. destruct (stdin w); simpl;
    (split; [now apply touches_only_same | discriminate]).
Qed.

Lemma ok_at_loop (S : list string) (prompt : string) (n : nat) (w : World) :
  ok_at S (get_yes_no_loop prompt n) w.
Proof.
  destruct (loop_frame prompt n w) as [Hfs [Hh _]].
  split; [now apply touches_only_same |].
  pose proof (loop_inversion prompt n w) as Hi.
  destruct (get_yes_no_loop prompt n w) as [[b | c | e] w']; simpl in *;
    try discriminate.
  intros c' [= <-]. now destruct Hi.
Qed.

(** [mkdir] adds the path where nothing was, or changes nothing. *)
Lemma ok_at_mkdir (p : string) (w : World) : ok_at [p] (mkdir p) w.
Proof.
  unfold ok_at, mkdir.
  destruct (PyStr.is_empty p);
    [split; [apply touches_only_refl | discriminate] |].
  destruct (parent_error (fs w) p);
    [split; [apply touches_only_refl | discriminate] |].
  destruct (present (fs w) p) eqn:Hp;
    [split; [apply touches_only_refl | discriminate] |].
  destruct (refused (host w) p);
    [split; [apply touches_only_refl | discriminate] |].
  simpl. split; [| discriminate]. split; [reflexivity |]. split.
  - apply insert_subseteq. now apply present_lookup.
  - intros q Hq. apply lookup_insert_ne. intros ->. apply Hq. now left.
Qed.

(** Writing where nothing was adds the file, or changes nothing. *)
Lemma ok_at_write_file (p content : string) (w : World) :
  present (fs w) p = false -> ok_at [p] (write_file p content) w.
Proof.
  intros Hp. unfold ok_at, write_file.
  destruct (PyStr.is_empty p);
    [split; [apply touches_only_refl | discriminate] |].
  destruct (parent_error (fs w) p);
    [split; [apply touches_only_refl | discriminate] |].
  apply present_lookup in Hp. rewrite Hp.
  destruct (refused (host w) p);
    [split; [apply touches_only_refl | discriminate] |].
  simpl. split; [| discriminate]. split; [reflexivity |]. split.
  - now apply insert_subseteq.
  - intros q Hq. apply lookup_insert_ne. intros ->. apply Hq. now left.
Qed.

End Confinement.

Section ConfinedScript.

Variable d : string.
Hypothesis Hd : plain d.

Lemma in_project_paths (q : string) :
  q ∈ [d] \/ q ∈ [pipfile_path d] \/ q ∈ [gitignore_path d]
  \/ q ∈ [src_path d] \/ q ∈ [tests_path d] ->
  q ∈ project_paths d.
Proof. unfold project_paths. rewrite !elem_of_cons. tauto. Qed.

Lemma ok_at_makedirs_plain (w : World) : ok_at [d] (makedirs d) w.
Proof.
  unfold ok_at. rewrite (makedirs_plain d w (proj2 Hd)). apply ok_at_mkdir.
Qed.

Lemma ok_at_manage_folder (w : World) : ok_at (project_paths d) (manage_folder d) w.
Proof.
  apply (ok_at_weaken [d]); [intros q Hq; apply in_project_paths; now left |].
  unfold manage_folder. apply ok_at_bind; [apply ok_at_exists |].
  intros found w1 _. destruct found.
  - apply ok_at_bind; [apply ok_at_loop |].
    intros use w2 _. destruct use;
      (apply ok_at_bind; [apply ok_at_logging_info | intros; apply ok_at_ret]).
  - apply ok_at_try.
    + apply ok_at_bind; [apply ok_at_makedirs_plain |].
      intros _ w2 _. apply ok_at_bind; [apply ok_at_logging_info |].
      intros; apply ok_at_ret.
    + intros e w2 _. apply ok_at_bind; [apply ok_at_logging_error |].
      intros; apply ok_at_ret.
Qed.

(** When [manage_folder] returns true the path is there. *)
Lemma manage_folder_true_present (w w1 : World) :
  manage_folder d w = (Return true, w1) -> present (fs w1) d = true.
Proof.
  intros H. destruct (present (fs w) d) eqn:Hp.
  - rewrite (manage_folder_present d w Hp) in H.
    destruct (loop_frame (reuse_prompt d) (Z.to_nat default_retry_limit) w) as [Hfs _].
    unfold get_yes_no_input in H.
    destruct (get_yes_no_loop (reuse_prompt d) (Z.to_nat default_retry_limit) w)
      as [[[] | c | e] w2]; simplify_eq. simpl in *. now rewrite Hfs.
  - rewrite (manage_folder_absent d w Hd Hp) in H.
    destruct (refused (host w) d); simplify_eq. simpl.
    rewrite present_insert. now rewrite (bool_decide_true (d = d)).
Qed.

Lemma ok_at_check (S : list string) (p : string) (w : World) :
  ok_at S (check_and_overwrite_file p) w.
Proof.
  unfold check_and_overwrite_file. apply ok_at_bind; [apply ok_at_exists |].
  intros found w1 _. destruct found; [| apply ok_at_ret].
  apply ok_at_bind; [apply ok_at_loop |]. intros b w2 _.
  split; [apply touches_only_refl | discriminate].
Qed.

(** The check returns only where nothing is at the path, and then true and
    in the same world. *)
Lemma check_returns (p : string) (w w1 : World) (a : bool) :
  check_and_overwrite_file p w = (Return a, w1) ->
  a = true /\ w1 = w /\ present (fs w) p = false.
Proof.
  intros H. destruct (present (fs w) p) eqn:Hp.
  - rewrite (check_and_overwrite_file_present p w Hp) in H.
    destruct (get_yes_no_input _ default_retry_limit w) as [[b | c | e] w2];
      discriminate H.
  - rewrite (check_and_overwrite_file_absent p w Hp) in H. now simplify_eq.
Qed.

Lemma ok_at_create_pipfile (w : World) :
  ok_at (project_paths d) (create_pipfile d) w.
Proof.
  apply (ok_at_weaken [pipfile_path d]);
    [intros q Hq; apply in_project_paths; tauto |].
  unfold create_pipfile. rewrite (join_pipfile d Hd).
  apply ok_at_bind; [apply ok_at_check |].
  intros go w1 Hc. apply check_returns in Hc as [-> [-> Hp]].
  apply ok_at_bind; [now apply ok_at_write_file |].
  intros; apply ok_at_logging_info.
Qed.

Lemma ok_at_create_gitignore (w : World) :
  ok_at (project_paths d) (create_gitignore d) w.
Proof.
  apply (ok_at_weaken [gitignore_path d]);
    [intros q Hq; apply in_project_paths; tauto |].
  unfold create_gitignore. rewrite (join_gitignore d Hd).
  apply ok_at_bind; [apply ok_at_check |].
  intros go w1 Hc. apply check_returns in Hc as [-> [-> Hp]].
  apply ok_at_bind; [now apply ok_at_write_file |].
  intros; apply ok_at_logging_info.
Qed.

Lemma ok_at_ensure_block (label f : string) (w : World) :
  plain f -> present (fs w) d = true ->
  ok_at [d ++ "/" ++ f] (ensure_block label (d ++ "/" ++ f)) w.
Proof.
  intros Hf Hp. unfold ensure_block. apply ok_at_bind; [apply ok_at_exists |].
  intros found w1 Hw. unfold exists_, get in Hw. injection Hw as Hfound Hw1.
  subst found w1.
  destruct (present (fs w) (d ++ "/" ++ f)); simpl; [apply ok_at_logging_info |].
  apply ok_at_bind; [| intros; apply ok_at_logging_info].
  unfold ok_at. rewrite (makedirs_child d f w Hd Hf Hp). apply ok_at_mkdir.
Qed.

Lemma ok_at_create_project_structure (w : World) :
  present (fs w) d = true ->
  ok_at (project_paths d) (create_project_structure d) w.
Proof.
  intros Hp.
  change (create_project_structure d)
    with (try_except
            (ensure_block "Source" (join d "src");;
             ensure_block "Tests" (join d "tests"))
            is_OSError
            (fun e =>
               logging_error ("Failed to create project directories in '" ++ d ++ "': "
                              ++ exn_str e);;
               sys_exit 1)).
  rewrite (join_src d Hd), (join_tests d Hd).
  apply ok_at_try.
  - apply ok_at_bind.
    + apply (ok_at_weaken [src_path d]);
        [intros q Hq; apply in_project_paths; tauto |].
      now apply ok_at_ensure_block.
    + intros [] w1 Hw.
      apply (ok_at_weaken [tests_path d]);
        [intros q Hq; apply in_project_paths; tauto |].
      apply ok_at_ensure_block; [easy |].
      pose proof (ok_at_ensure_block "Source" "src" w ltac:(easy) Hp) as [Ht _].
      unfold src_path in Hw. rewrite Hw in Ht.
      exact (touches_only_present _ _ _ d Ht Hp).
  - intros e w1 _. apply ok_at_bind; [apply ok_at_logging_error |].
    intros; apply ok_at_exit_1.
Qed.

Lemma ok_at_setup (w : World) : ok_at (project_paths d) (setup d) w.
Proof.
  unfold setup. apply ok_at_bind; [apply ok_at_manage_folder |].
  intros proceed w1 Hm. destruct proceed; [| apply ok_at_logging_info].
  apply manage_folder_true_present in Hm.
  apply ok_at_bind; [apply ok_at_logging_info |]. intros [] w2 Hw2.
  assert (Hp2 : present (fs w2) d = true).
  { unfold logging_info, modify in Hw2. injection Hw2 as <-. exact Hm. }
  apply ok_at_bind; [apply ok_at_create_pipfile |]. intros [] w3 Hw3.
  assert (Hp3 : present (fs w3) d = true).
  { pose proof (ok_at_create_pipfile w2) as [Ht _]. rewrite Hw3 in Ht.
    exact (touches_only_present _ _ _ d Ht Hp2). }
  apply ok_at_bind; [apply ok_at_create_gitignore |]. intros [] w4 Hw4.
  apply ok_at_create_project_structure.
  pose proof (ok_at_create_gitignore w3) as [Ht _]. rewrite Hw4 in Ht.
  exact (touches_only_present _ _ _ d Ht Hp3).
Qed.

End ConfinedScript.

(** The paths a run may touch, from the first line of the input. *)
Lemma ok_at_main (w : World) :
  ok_at (match stdin w with
         | [] => []
         | line :: _ => project_paths (PyStr.strip line)
         end) main w.
Proof.
  destruct (interpreter_ok (host w)) eqn:Hi.
  - destruct (stdin w) as [|line rest] eqn:Hin.
    + unfold ok_at. rewrite (main_eof w Hi Hin).
      split; [now apply touches_only_same | discriminate].
    + destruct (Re.match_ Re.pattern (PyStr.strip line)) eqn:Hv.
      * unfold ok_at. rewrite (main_valid w line rest Hi Hin Hv).
        pose proof (ok_at_setup (PyStr.strip line) (valid_name_plain _ Hv)
                      (emit (Log INFO ("'" ++ PyStr.strip line ++ "' is a valid folder name."))
                         (named rest w))) as [Ht He].
        split; [| exact He].
        refine (touches_only_trans _ w _ _ _ Ht). now apply touches_only_same.
      * unfold ok_at. rewrite (main_invalid w line rest Hi Hin).
        -- split; [now apply touches_only_same | now intros c [= <-]].
        -- unfold valid_name. rewrite Hv. discriminate.
  - unfold ok_at. rewrite (main_missing_interpreter w Hi).
    split; [now apply touches_only_same | now intros c [= <-]].
Qed.

(** X8: [main] never removes or changes what the file system holds: every
    path present before a run is present after it with the same content,
    whatever the input, the host and the file system. What a run adds lies
    at the project folder named by the first line, stripped, and at its
    [Pipfile], [.gitignore], [src] and [tests]; with no input line nothing
    is added. *)
Theorem main_only_adds_project_paths (w : World) :
  fs w ⊆ fs (snd (main w))
  /\ forall q,
       fs (snd (main w)) !! q <> fs w !! q ->
       exists line rest,
         stdin w = line :: rest
         /\ q ∈ [PyStr.strip line;
                 PyStr.strip line ++ "/" ++ "Pipfile";
                 PyStr.strip line ++ "/" ++ ".gitignore";
                 PyStr.strip line ++ "/" ++ "src";
                 PyStr.strip line ++ "/" ++ "tests"].
Proof.
  destruct (ok_at_main w) as [[_ [Hs Hq]] _]. split; [exact Hs |].
  intros q Hne. destruct (stdin w) as [|line rest].
  - contradiction Hne. apply Hq. apply not_elem_of_nil.
  - exists line, rest. split; [reflexivity |].
    destruct (decide (q ∈ project_paths (PyStr.strip line))) as [Hin | Hn];
      [exact Hin | contradiction Hne; now apply Hq].
Qed.

(** X9: the exit status of a run is 0 or 1 in every environment: every
    [sys.exit] the run can reach has status 1, and an escaping exception
    gives 1. *)
Theorem exit_status_zero_or_one (w : World) :
  fst (run w) = 0%Z \/ fst (run w) = 1%Z.
Proof.
  rewrite run_status. destruct (ok_at_main w) as [_ He].
  destruct (fst (main w)) as [a | c | e]; simpl.
  - now left.
  - right. now apply He.
  - now right.
Qed.

(** ** Stepping through a run

    The steps of a run between worlds written out as records, so that each
    equation is about one call. *)

Section Steps.

Lemma bind_Return {A B} (m : M A) (k : A -> M B) (w w1 : World) (a : A) :
  m w = (Return a, w1) -> bind m k w = k a w1.
Proof. intros H. unfold bind. now rewrite H. Qed.

Lemma bind_Raise {A B} (m : M A) (k : A -> M B) (w w1 : World) (e : exn) :
  m w = (Raise e, w1) -> bind m k w = (Raise e, w1).
Proof. intros H. unfold bind. now rewrite H. Qed.

Lemma logging_info_step (msg : string) (h : Host) (f : gmap string node)
    (s : list string) (o : list event) :
  logging_info msg (mkWorld h f s o) = (Return tt, mkWorld h f s (o ++ [Log INFO msg])).
Proof. reflexivity. Qed.

(** The world in which the name is validated, as a record. *)
Lemma main_valid_step (w : World) (line : string) (rest : list string) :
  interpreter_ok (host w) = true -> stdin w = line :: rest ->
  valid_name (PyStr.strip line) ->
  main w
  = setup (PyStr.strip line)
      (mkWorld (host w) (fs w) rest
         (out w ++ [installed_msg (host w);
                    Prompt "Enter the name of your python project: ";
                    Log INFO ("'" ++ PyStr.strip line ++ "' is a valid folder name.")])).
Proof.
  intros Hi Hin Hv. rewrite (main_valid w line rest Hi Hin Hv). f_equal.
  unfold named, emit, set_stdin, name_prompt. cbn [host fs stdin out].
  now rewrite <- !app_assoc.
Qed.


Variable d : string.
Hypothesis Hd : plain d.

Lemma manage_folder_creates (h : Host) (f : gmap string node) (s : list string)
    (o : list event) :
  present f d = false -> refused h d = false ->
  manage_folder d (mkWorld h f s o)
  = (Return true,
     mkWorld h (<[d := Dir]> f) s (o ++ [Log INFO ("Folder '" ++ d ++ "' created.")])).
Proof.
  intros Hp Hr. rewrite (manage_folder_absent d _ Hd) by exact Hp.
  cbn [host]. now rewrite Hr.
Qed.


Lemma create_pipfile_writes (h : Host) (f : gmap string node) (s : list string)
    (o : list event) :
  f !! d = Some Dir -> present f (pipfile_path d) = false ->
  refused h (pipfile_path d) = false ->
  create_pipfile d (mkWorld h f s o)
  = (Return tt,
     mkWorld h (<[pipfile_path d := File pipfile_content]> f) s
       (o ++ [Log INFO "Pipfile created."])).
Proof.
  intros Hdir Hp Hr. rewrite (create_pipfile_absent d Hd) by assumption.
  cbn [host]. now rewrite Hr.
Qed.

Lemma create_gitignore_writes (h : Host) (f : gmap string node) (s : list string)
    (o : list event) :
  f !! d = Some Dir -> present f (gitignore_path d) = false ->
  refused h (gitignore_path d) = false ->
  create_gitignore d (mkWorld h f s o)
  = (Return tt,
     mkWorld h (<[gitignore_path d := File gitignore_content]> f) s
       (o ++ [Log INFO ".gitignore file created."])).
Proof.
  intros Hdir Hp Hr. rewrite (create_gitignore_absent d Hd) by assumption.
  cbn [host]. now rewrite Hr.
Qed.


Lemma create_project_structure_creates (h : Host) (f : gmap string node)
    (s : list string) (o : list event) :
  f !! d = Some Dir ->
  present f (src_path d) = false -> refused h (src_path d) = false ->
  present f (tests_path d) = false -> refused h (tests_path d) = false ->
  create_project_structure d (mkWorld h f s o)
  = (Return tt,
     mkWorld h (<[tests_path d := Dir]> (<[src_path d := Dir]> f)) s
       (o ++ [Log INFO ("Source directory created at: " ++ d ++ "/" ++ "src");
              Log INFO ("Tests directory created at: " ++ d ++ "/" ++ "tests")])).
Proof.
  intros Hdir Ps Rs Pt Rt.
  rewrite (create_project_structure_eq d Hd) by exact Hdir.
  cbn [host fs]. unfold ensured. rewrite Ps, Rs. cbv zeta.
  rewrite present_insert, Pt, Rt.
  rewrite (bool_decide_false (src_path d = tests_path d))
    by (intros E; apply child_inj in E; discriminate E).
  cbn [orb]. unfold emit, set_fs, dir_report. cbn [host fs stdin out].
  now rewrite <- !app_assoc.
Qed.

End Steps.

(** ** Whole runs *)

(** X10: a run on a fresh project. When the interpreter check passes, the
    entered name is valid, and nothing exists or is refused at the project
    folder and its four entries, [main] returns: the file system gains
    exactly the folder, the two templates with their fixed contents and the
    two subdirectories, the rest of the input is left unread, and the nine
    records and prompts are emitted in program order. *)
Theorem main_fresh_project (w : World) (line : string) (rest : list string) :
  interpreter_ok (host w) = true ->
  stdin w = line :: rest ->
  Re.match_ Re.pattern (PyStr.strip line) = true ->
  Forall (fun q => present (fs w) q = false /\ refused (host w) q = false)
    (project_paths (PyStr.strip line)) ->
  let d := PyStr.strip line in
  main w
  = (Return tt,
     mkWorld (host w)
       (<[tests_path d := Dir]>
          (<[src_path d := Dir]>
             (<[gitignore_path d := File gitignore_content]>
                (<[pipfile_path d := File pipfile_content]>
                   (<[d := Dir]> (fs w))))))
       rest
       (out w ++ [installed_msg (host w);
                  Prompt "Enter the name of your python project: ";
                  Log INFO ("'" ++ d ++ "' is a valid folder name.");
                  Log INFO ("Folder '" ++ d ++ "' created.");
                  Log INFO ("Setup will proceed using the folder: " ++ d);
                  Log INFO "Pipfile created.";
                  Log INFO ".gitignore file created.";
                  Log INFO ("Source directory created at: " ++ d ++ "/" ++ "src");
                  Log INFO ("Tests directory created at: " ++ d ++ "/" ++ "tests")])).
Proof.
  intros Hi Hin Hv Hall d. fold d in Hv, Hall.
  pose proof (valid_name_plain d Hv) as Hd.
  unfold project_paths in Hall.
  apply Forall_cons in Hall as [[Pd Rd] Hall].
  apply Forall_cons in Hall as [[Pp Rp] Hall].
  apply Forall_cons in Hall as [[Pg Rg] Hall].
  apply Forall_cons in Hall as [[Ps Rs] Hall].
  apply Forall_cons in Hall as [[Pt Rt] _].
  assert (Hne : forall f, d <> d ++ "/" ++ f).
  { intros f E. symmetry in E. now apply child_ne in E. }
  assert (Hch : forall f g, f <> g -> d ++ "/" ++ f <> d ++ "/" ++ g).
  { intros f g Hfg E. now apply child_inj in E. }
  rewrite (main_valid_step w line rest Hi Hin Hv). fold d. unfold setup.
  rewrite (bind_Return _ _ _ _ _
             (manage_folder_creates d Hd (host w) (fs w) rest _ Pd Rd)).
  cbv beta iota.
  rewrite (bind_Return _ _ _ _ _ (logging_info_step _ _ _ _ _)).
  assert (P1 : present (<[d := Dir]> (fs w)) (pipfile_path d) = false).
  { rewrite present_insert, Pp. now rewrite (bool_decide_false _ (Hne "Pipfile")). }
  rewrite (bind_Return _ _ _ _ _
             (create_pipfile_writes d Hd (host w) (<[d := Dir]> (fs w)) rest _
                (lookup_insert_eq _ _ _) P1 Rp)).
  assert (D2 : <[pipfile_path d := File pipfile_content]> (<[d := Dir]> (fs w)) !! d = Some Dir).
  { rewrite lookup_insert_ne by (apply child_ne). apply lookup_insert_eq. }
  assert (P2 : present (<[pipfile_path d := File pipfile_content]> (<[d := Dir]> (fs w)))
                 (gitignore_path d) = false).
  { rewrite !present_insert, Pg. rewrite (bool_decide_false _ (Hne ".gitignore")).
    now rewrite (bool_decide_false (pipfile_path d = gitignore_path d))
      by (apply Hch; discriminate). }
  rewrite (bind_Return _ _ _ _ _
             (create_gitignore_writes d Hd (host w) _ rest _ D2 P2 Rg)).
  set (F3 := <[gitignore_path d := File gitignore_content]>
               (<[pipfile_path d := File pipfile_content]> (<[d := Dir]> (fs w)))).
  assert (D3 : F3 !! d = Some Dir).
  { unfold F3. rewrite !lookup_insert_ne by (apply child_ne). apply lookup_insert_eq. }
  assert (P3 : present F3 (src_path d) = false).
  { unfold F3. rewrite !present_insert, Ps.
    rewrite (bool_decide_false _ (Hne "src")).
    rewrite (bool_decide_false (pipfile_path d = src_path d)) by (apply Hch; discriminate).
    now rewrite (bool_decide_false (gitignore_path d = src_path d))
      by (apply Hch; discriminate). }
  assert (P4 : present F3 (tests_path d) = false).
  { unfold F3. rewrite !present_insert, Pt.
    rewrite (bool_decide_false _ (Hne "tests")).
    rewrite (bool_decide_false (pipfile_path d = tests_path d)) by (apply Hch; discriminate).
    now rewrite (bool_decide_false (gitignore_path d = tests_path d))
      by (apply Hch; discriminate). }
  rewrite (create_project_structure_creates d Hd (host w) F3 rest _ D3 P3 Rs P4 Rt).
  unfold F3. rewrite <- !app_assoc.
  reflexivity.
Qed.

Lemma main_fresh_project_witness :
  main (mkWorld sample_host ∅ ["  my_project  "; "unread"] [])
  = (Return tt,
     mkWorld sample_host
       (<[ "my_project/tests" := Dir ]>
          (<[ "my_project/src" := Dir ]>
             (<[ "my_project/.gitignore" := File gitignore_content ]>
                (<[ "my_project/Pipfile" := File pipfile_content ]>
                   (<[ "my_project" := Dir ]> ∅)))))
       ["unread"]
       [Log INFO "Python interpreter is installed: Python 3.11.4";
        Prompt "Enter the name of your python project: ";
        Log INFO "'my_project' is a valid folder name.";
        Log INFO "Folder 'my_project' created.";
        Log INFO "Setup will proceed using the folder: my_project";
        Log INFO "Pipfile created.";
        Log INFO ".gitignore file created.";
        Log INFO "Source directory created at: my_project/src";
        Log INFO "Tests directory created at: my_project/tests"]).
Proof.
  assert (Hall : Forall (fun q => present (∅ : gmap string node) q = false
                                  /\ refused sample_host q = false)
                   (project_paths "my_project")).
  { repeat constructor. }
  exact (main_fresh_project (mkWorld sample_host ∅ ["  my_project  "; "unread"] [])
           "  my_project  " ["unread"] eq_refl eq_refl eq_refl Hall).
Defined.


(** ** [create_project_structure] called on its own *)

Section Standalone.

Variable d : string.
Hypothesis Hd : plain d.

Lemma makedirs_fuel_plain (n : nat) (w : World) : makedirs_fuel n d w = mkdir d w.
Proof.
  destruct n; simpl; rewrite (split_plain d (proj2 Hd));
    destruct (PyStr.is_empty d); reflexivity.
Qed.

(** [makedirs] of a child of a path that is absent: the parent is made
    first, and only then the child. *)
Lemma makedirs_orphan (f : string) (w : World) :
  plain f -> f <> "." -> present (fs w) d = false ->
  makedirs (d ++ "/" ++ f) w
  = if refused (host w) d then (Raise (OSError EACCES d), w)
    else mkdir (d ++ "/" ++ f) (set_fs (<[d := Dir]> (fs w)) w).
Proof.
  intros [Hfne Hf] Hdot Hp. unfold makedirs.
  assert (Hlen : exists n, String.length (d ++ "/" ++ f) = S n).
  { rewrite length_app. destruct Hd as [Hne _].
    destruct d; [discriminate Hne |]. simpl. eauto. }
  destruct Hlen as [n ->]. simpl.
  rewrite (split_child d f Hd Hf), Hfne. destruct Hd as [Hdne Hds].
  rewrite Hdne. simpl. unfold bind at 1, bind at 1, exists_, get, ret.
  rewrite ?Hfne, Hp. simpl. unfold bind, try_except.
  rewrite makedirs_fuel_plain, (mkdir_plain d w (conj Hdne Hds)), Hp.
  destruct (refused (host w) d); [reflexivity |].
  now rewrite (bool_decide_false (f = ".")) by exact Hdot.
Qed.

(** The block of a subdirectory when the folder itself is absent. *)
Lemma ensure_block_orphan (label f : string) (h : Host) (g : gmap string node)
    (s : list string) (o : list event) :
  plain f -> f <> "." ->
  present g d = false -> refused h d = false ->
  present g (d ++ "/" ++ f) = false -> refused h (d ++ "/" ++ f) = false ->
  ensure_block label (d ++ "/" ++ f) (mkWorld h g s o)
  = (Return tt,
     mkWorld h (<[d ++ "/" ++ f := Dir]> (<[d := Dir]> g)) s
       (o ++ [Log INFO (label ++ " directory created at: " ++ d ++ "/" ++ f)])).
Proof.
  intros Hf Hdot Pd Rd Pf Rf.
  assert (Hne : d <> d ++ "/" ++ f).
  { intros E. symmetry in E. now apply child_ne in E. }
  unfold ensure_block, bind at 1, exists_, get. cbn [fs].
  rewrite Pf. cbn [negb]. unfold bind.
  rewrite (makedirs_orphan f (mkWorld h g s o) Hf Hdot Pd). cbn [host fs].
  rewrite Rd. unfold set_fs. cbn [host fs stdin out].
  rewrite (mkdir_child d f (mkWorld h (<[d := Dir]> g) s o) Hd Hf (lookup_insert_eq _ _ _)).
  cbn [host fs set_fs]. rewrite present_insert, Pf, Rf.
  rewrite (bool_decide_false _ Hne). cbn [orb].
  reflexivity.
Qed.

(** The block of a subdirectory when the folder is a regular file. *)
Lemma ensure_block_under_file (label f content : string) (w : World) :
  plain f -> fs w !! d = Some (File content) ->
  present (fs w) (d ++ "/" ++ f) = false ->
  ensure_block label (d ++ "/" ++ f) w = (Raise (OSError ENOTDIR (d ++ "/" ++ f)), w).
Proof.
  intros Hf Hfile Pf.
  unfold ensure_block, bind at 1, exists_, get.
  rewrite Pf. cbn [negb]. unfold bind.
  rewrite (makedirs_child d f w Hd Hf (present_some _ _ _ Hfile)).
  unfold mkdir, parent_error.
  rewrite (split_child d f Hd (proj2 Hf)). simpl fst.
  destruct Hd as [Hdne _]. rewrite Hdne, Hfile.
  destruct d; [discriminate Hdne | reflexivity].
Qed.

End Standalone.
(** X12: [create_project_structure] does not need the project folder to
    exist. For a validated name at which nothing exists, and with nothing
    refused, it makes the folder together with [src], then [tests], logs
    both as created and returns; the folder itself gets no record. *)
Theorem create_project_structure_makes_folder (d : string) (w : World) :
  Re.match_ Re.pattern d = true ->
  Forall (fun q => present (fs w) q = false /\ refused (host w) q = false)
    [d; src_path d; tests_path d] ->
  create_project_structure d w
  = (Return tt,
     mkWorld (host w)
       (<[tests_path d := Dir]> (<[src_path d := Dir]> (<[d := Dir]> (fs w))))
       (stdin w)
       (out w ++ [Log INFO ("Source directory created at: " ++ d ++ "/" ++ "src");
                  Log INFO ("Tests directory created at: " ++ d ++ "/" ++ "tests")])).
Proof.
  intros Hv Hall. pose proof (valid_name_plain d Hv) as Hd.
  apply Forall_cons in Hall as [[Pd Rd] Hall].
  apply Forall_cons in Hall as [[Ps Rs] Hall].
  apply Forall_cons in Hall as [[Pt Rt] _].
  destruct w as [h g s o]. cbn [host fs stdin out] in *.
  assert (Hne : forall f, d <> d ++ "/" ++ f).
  { intros f E. symmetry in E. now apply child_ne in E. }
  assert (Hsrc : plain "src") by easy.
  assert (Htests : plain "tests") by easy.
  assert (Hdot : "src" <> ".") by discriminate.
  change (create_project_structure d (mkWorld h g s o))
    with (try_except
            (ensure_block "Source" (join d "src");;
             ensure_block "Tests" (join d "tests"))
            is_OSError
            (fun e =>
               logging_error ("Failed to create project directories in '" ++ d ++ "': "
                              ++ exn_str e);;
               sys_exit 1) (mkWorld h g s o)).
  rewrite (join_src d Hd), (join_tests d Hd).
  unfold try_except.
  rewrite (bind_Return _ _ _ _ _
             (ensure_block_orphan d Hd "Source" "src" h g s o Hsrc Hdot Pd Rd Ps Rs)).
  assert (D2 : <[d ++ "/" ++ "src" := Dir]> (<[d := Dir]> g) !! d = Some Dir).
  { rewrite lookup_insert_ne by (apply child_ne). apply lookup_insert_eq. }
  unfold tests_path at 1.
  rewrite (ensure_block_eq d Hd "Tests" "tests"
             (mkWorld h (<[d ++ "/" ++ "src" := Dir]> (<[d := Dir]> g)) s
                (o ++ [Log INFO ("Source" ++ " directory created at: " ++ d ++ "/" ++ "src")]))
             Htests D2).
  cbn [host fs]. unfold ensured. fold (tests_path d). fold (src_path d).
  rewrite !present_insert, Pt, Rt.
  rewrite (bool_decide_false _ (Hne "tests")).
  rewrite (bool_decide_false (src_path d = tests_path d))
    by (intros E; apply child_inj in E; discriminate E).
  cbn [orb]. unfold emit, set_fs, dir_report. cbn [host fs stdin out].
  rewrite <- !app_assoc. reflexivity.
Qed.

Lemma create_project_structure_makes_folder_witness :
  create_project_structure "proj" (mkWorld sample_host ∅ ["unread"] [])
  = (Return tt,
     mkWorld sample_host
       (<[ "proj/tests" := Dir ]> (<[ "proj/src" := Dir ]> (<[ "proj" := Dir ]> ∅)))
       ["unread"]
       [Log INFO "Source directory created at: proj/src";
        Log INFO "Tests directory created at: proj/tests"]).
Proof.
  assert (Hall : Forall (fun q => present (∅ : gmap string node) q = false
                                  /\ refused sample_host q = false)
                   ["proj"; src_path "proj"; tests_path "proj"]).
  { repeat constructor. }
  exact (create_project_structure_makes_folder "proj"
           (mkWorld sample_host ∅ ["unread"] []) eq_refl Hall).
Defined.

(** X13: [create_project_structure] on a path that is a regular file. For
    a validated name at which a regular file is found, and with [src] not
    there, the creation of [src] fails with an [OSError] (not a directory);
    the function logs the failure and exits with status 1, the file system
    is untouched and [tests] is not tried. *)
Theorem create_project_structure_on_file (d content : string) (w : World) :
  Re.match_ Re.pattern d = true ->
  fs w !! d = Some (File content) ->
  present (fs w) (src_path d) = false ->
  create_project_structure d w
  = (Exit 1,
     emit (Log ERROR ("Failed to create project directories in '" ++ d ++ "': "
                      ++ exn_str (OSError ENOTDIR (src_path d)))) w).
Proof.
  intros Hv Hf Ps. pose proof (valid_name_plain d Hv) as Hd.
  assert (Hsrc : plain "src") by easy.
  change (create_project_structure d w)
    with (try_except
            (ensure_block "Source" (join d "src");;
             ensure_block "Tests" (join d "tests"))
            is_OSError
            (fun e =>
               logging_error ("Failed to create project directories in '" ++ d ++ "': "
                              ++ exn_str e);;
               sys_exit 1) w).
  rewrite (join_src d Hd), (join_tests d Hd).
  unfold try_except.
  rewrite (bind_Raise _ _ _ _ _
             (ensure_block_under_file d Hd "Source" "src" content w Hsrc Hf Ps)).
  reflexivity.
Qed.

Lemma create_project_structure_on_file_witness :
  create_project_structure "proj" (mkWorld sample_host {[ "proj" := File "text" ]} [] [])
  = (Exit 1,
     mkWorld sample_host {[ "proj" := File "text" ]} []
       [Log ERROR "Failed to create project directories in 'proj': [Errno 20] Not a directory: 'proj/src'"]).
Proof.
  exact (create_project_structure_on_file "proj" "text"
           (mkWorld sample_host {[ "proj" := File "text" ]} [] [])
           eq_refl eq_refl eq_refl).
Defined.
(** ** A project that already holds a template *)

Section ExistingTemplate.

Variable d : string.
Hypothesis Hd : plain d.

Lemma bind_Exit {A B} (m : M A) (k : A -> M B) (w w1 : World) (c : Z) :
  m w = (Exit c, w1) -> bind m k w = (Exit c, w1).
Proof. intros H. unfold bind. now rewrite H. Qed.

Lemma present_ext (f g : gmap string node) (p : string) :
  f !! p = g !! p -> present f p = present g p.
Proof. intros H. unfold present. now rewrite H. Qed.

(** [manage_folder] changes the file system only when it returns true,
    and then at the folder only. *)
Lemma manage_folder_effect (w : World) :
  (fst (manage_folder d w) <> Return true -> fs (snd (manage_folder d w)) = fs w)
  /\ (forall q, q <> d -> fs (snd (manage_folder d w)) !! q = fs w !! q).
Proof.
  destruct (present (fs w) d) eqn:Hp.
  - rewrite (manage_folder_present d w Hp).
    destruct (loop_frame (reuse_prompt d) (Z.to_nat default_retry_limit) w) as [Hfs _].
    unfold get_yes_no_input.
    destruct (get_yes_no_loop (reuse_prompt d) (Z.to_nat default_retry_limit) w)
      as [[[] | c | e] w1]; simpl in *; rewrite Hfs; split; auto.
  - rewrite (manage_folder_absent d w Hd Hp).
    destruct (refused (host w) d); simpl; split; auto.
    + intros H. now contradiction H.
    + intros q Hq. apply lookup_insert_ne. congruence.
Qed.

Lemma ok_at_pipfile_only (w : World) : ok_at [pipfile_path d] (create_pipfile d) w.
Proof.
  unfold create_pipfile. rewrite (join_pipfile d Hd).
  apply ok_at_bind; [apply ok_at_check |].
  intros go w1 Hc. apply check_returns in Hc as [-> [-> Hp]].
  apply ok_at_bind; [now apply ok_at_write_file |].
  intros; apply ok_at_logging_info.
Qed.

Lemma create_pipfile_returns (w w1 : World) (u : unit) :
  create_pipfile d w = (Return u, w1) -> present (fs w) (pipfile_path d) = false.
Proof.
  unfold create_pipfile. rewrite (join_pipfile d Hd). unfold bind at 1.
  destruct (check_and_overwrite_file (pipfile_path d) w) as [[a | c | e] w2] eqn:Hc;
    try discriminate.
  intros _. now apply check_returns in Hc.
Qed.

(** With its template present [create_gitignore] does not return, and
    leaves the file system as it is. *)
Lemma create_gitignore_stuck (w : World) :
  present (fs w) (gitignore_path d) = true ->
  fs (snd (create_gitignore d w)) = fs w
  /\ forall u, fst (create_gitignore d w) <> Return u.
Proof.
  intros Hp.
  assert (E : create_gitignore d w
              = match get_yes_no_input (overwrite_prompt (gitignore_path d))
                        default_retry_limit w with
                | (Return _, w1) => (Raise no_lower, w1)
                | (Exit c, w1) => (Exit c, w1)
                | (Raise e, w1) => (Raise e, w1)
                end).
  { unfold create_gitignore. rewrite (join_gitignore d Hd). unfold bind at 1.
    rewrite (check_and_overwrite_file_present _ w Hp).
    now destruct (get_yes_no_input _ default_retry_limit w) as [[b | c | e] w1]. }
  rewrite E. unfold get_yes_no_input.
  destruct (loop_frame (overwrite_prompt (gitignore_path d))
              (Z.to_nat default_retry_limit) w) as [Hfs _].
  destruct (get_yes_no_loop (overwrite_prompt (gitignore_path d))
              (Z.to_nat default_retry_limit) w) as [[b | c | e] w1];
    simpl in *; (split; [exact Hfs | intros u; discriminate]).
Qed.

(** With a template present, [setup] returns only on the branch that
    cancels; [.gitignore], [src] and [tests] are left as they are. *)
Lemma setup_blocked (w : World) :
  present (fs w) (pipfile_path d) = true \/ present (fs w) (gitignore_path d) = true ->
  (forall u, fst (setup d w) = Return u ->
     fs (snd (setup d w)) = fs w
     /\ exists l, out (snd (setup d w))
                  = (l ++ [Log INFO "Setup was cancelled by the user."])%list)
  /\ (forall q, q <> d -> q <> pipfile_path d -> fs (snd (setup d w)) !! q = fs w !! q).
Proof.
  intros Hex. destruct (manage_folder_effect w) as [Hno Hq].
  unfold setup.
  destruct (manage_folder d w) as [[[] | c | e] w1] eqn:Hm; simpl in Hno, Hq.
  - rewrite (bind_Return _ _ _ _ _ Hm).
    rewrite (bind_Return (logging_info ("Setup will proceed using the folder: " ++ d))
               _ w1 _ tt eq_refl).
    set (w2 := emit _ w1).
    assert (H2 : fs w2 = fs w1) by reflexivity.
    destruct (ok_at_pipfile_only w2) as [[_ [_ Hpq]] _].
    destruct (create_pipfile d w2) as [[[] | c | e] w3] eqn:Hc; simpl in Hpq.
    + rewrite (bind_Return _ _ _ _ _ Hc).
      apply create_pipfile_returns in Hc.
      assert (Hpw : present (fs w) (pipfile_path d) = false).
      { rewrite <- Hc. apply present_ext. rewrite ?H2. symmetry. apply Hq, child_ne. }
      destruct Hex as [Hex | Hex]; [congruence |].
      assert (Hg : present (fs w3) (gitignore_path d) = true).
      { rewrite <- Hex. apply present_ext.
        rewrite Hpq.
        - rewrite ?H2. apply Hq, child_ne.
        - rewrite list_elem_of_singleton. intros E. apply child_inj in E.
          discriminate E. }
      destruct (create_gitignore_stuck w3 Hg) as [Hfs Hnr].
      destruct (create_gitignore d w3) as [[[] | c | e] w4] eqn:Hg4; simpl in Hfs, Hnr.
      * now contradiction (Hnr tt).
      * rewrite (bind_Exit _ _ _ _ _ Hg4). simpl.
        split; [discriminate |]. intros q Hqd Hqp.
        rewrite Hfs, Hpq by (now rewrite list_elem_of_singleton).
        rewrite ?H2. now apply Hq.
      * rewrite (bind_Raise _ _ _ _ _ Hg4). simpl.
        split; [discriminate |]. intros q Hqd Hqp.
        rewrite Hfs, Hpq by (now rewrite list_elem_of_singleton).
        rewrite ?H2. now apply Hq.
    + rewrite (bind_Exit _ _ _ _ _ Hc). simpl. split; [discriminate |]. intros q Hqd Hqp.
      rewrite Hpq by (now rewrite list_elem_of_singleton).
      rewrite ?H2. now apply Hq.
    + rewrite (bind_Raise _ _ _ _ _ Hc). simpl. split; [discriminate |]. intros q Hqd Hqp.
      rewrite Hpq by (now rewrite list_elem_of_singleton).
      rewrite ?H2. now apply Hq.
  - rewrite (bind_Return _ _ _ _ _ Hm). simpl. split.
    + intros _ _. split; [apply Hno; discriminate |]. now exists (out w1).
    + intros q Hqd _. now apply Hq.
  - rewrite (bind_Exit _ _ _ _ _ Hm). simpl.
    split; [discriminate |]. intros q Hqd _. now apply Hq.
  - rewrite (bind_Raise _ _ _ _ _ Hm). simpl.
    split; [discriminate |]. intros q Hqd _. now apply Hq.
Qed.

End ExistingTemplate.

(** X14: a project that already holds a template cannot be set up. When
    the interpreter check passes, the entered name is valid and the
    [Pipfile] or the [.gitignore] of the project exists, the only run with
    exit status 0 is a cancelled one, its last record being the
    cancellation and the file system being as before; and in every run
    everything but the folder and its [Pipfile] is left as it was: no
    [.gitignore] is written, no [src] and no [tests] is made. *)
Theorem existing_template_blocks_setup (w : World) (line : string)
    (rest : list string) :
  interpreter_ok (host w) = true ->
  stdin w = line :: rest ->
  Re.match_ Re.pattern (PyStr.strip line) = true ->
  present (fs w) (pipfile_path (PyStr.strip line)) = true
  \/ present (fs w) (gitignore_path (PyStr.strip line)) = true ->
  let d := PyStr.strip line in
  (fst (run w) = 0%Z ->
   fs (snd (main w)) = fs w
   /\ exists l, out (snd (main w))
                = (l ++ [Log INFO "Setup was cancelled by the user."])%list)
  /\ (forall q, q <> d -> q <> pipfile_path d -> fs (snd (main w)) !! q = fs w !! q).
Proof.
  intros Hi Hin Hv Hex d. fold d in Hv, Hex.
  pose proof (valid_name_plain d Hv) as Hd.
  destruct (ok_at_main w) as [_ Hexit].
  rewrite run_status.
  rewrite (main_valid_step w line rest Hi Hin Hv) in *. fold d in Hexit |- *.
  set (w2 := mkWorld (host w) (fs w) rest _) in *.
  destruct (setup_blocked d Hd w2 Hex) as [Hret Hq].
  split; [| exact Hq].
  intros Hst. destruct (fst (setup d w2)) as [[] | c | e] eqn:Ho; simpl in Hst.
  - exact (Hret tt eq_refl).
  - specialize (Hexit c eq_refl). subst c. discriminate Hst.
  - discriminate Hst.
Qed.

Lemma existing_template_blocks_setup_witness :
  (fst (run gitignore_only) = 0%Z ->
   fs (snd (main gitignore_only)) = fs gitignore_only
   /\ exists l, out (snd (main gitignore_only))
                = (l ++ [Log INFO "Setup was cancelled by the user."])%list)
  /\ (forall q, q <> "proj" -> q <> "proj/Pipfile" ->
      fs (snd (main gitignore_only)) !! q = fs gitignore_only !! q).
Proof.
  exact (existing_template_blocks_setup gitignore_only "proj" ["yes"; "no"]
           eq_refl eq_refl eq_refl (or_intror eq_refl)).
Defined.

(** ** How much of the input a run reads *)

Section InputBound.

Lemma advances_refl (w : World) : advances 0 w w.
Proof. split; [now exists 0%nat | exists []; now rewrite app_nil_r]. Qed.

Lemma advances_trans (a b : nat) (w1 w2 w3 : World) :
  advances a w1 w2 -> advances b w2 w3 -> advances (a + b) w1 w3.
Proof.
  intros [[k1 [H1 E1]] [l1 O1]] [[k2 [H2 E2]] [l2 O2]]. split.
  - exists (k1 + k2)%nat. split; [lia |]. now rewrite E2, E1, drop_drop.
  - exists (l1 ++ l2)%list. now rewrite O2, O1, <- app_assoc.
Qed.

Lemma advances_le (n n' : nat) (w w' : World) :
  (n <= n')%nat -> advances n w w' -> advances n' w w'.
Proof. intros Hle [[k [H E]] O]. split; [exists k; split; [lia | exact E] | exact O]. Qed.

Lemma reads_within_le {A} (r n r' n' : nat) (m : M A) (w : World) :
  (r <= r')%nat -> (n <= n')%nat -> reads_within r n m w -> reads_within r' n' m w.
Proof.
  intros Hr Hn [H1 H2]. split; [exact (advances_le n n' _ _ Hn H1) |].
  intros a Ha. exact (advances_le r r' _ _ Hr (H2 a Ha)).
Qed.

(** Sequencing: what the first step reads when it returns is added to
    what the second reads. *)
Lemma reads_within_bind {A B} (r1 n1 r2 n2 : nat) (m : M A) (k : A -> M B)
    (w : World) :
  reads_within r1 n1 m w ->
  (forall a w1, m w = (Return a, w1) -> reads_within r2 n2 (k a) w1) ->
  reads_within (r1 + r2) (Nat.max n1 (r1 + n2)) (bind m k) w.
Proof.
  intros [Hn Hr] Hk. unfold reads_within, bind.
  destruct (m w) as [[a | c | e] w1] eqn:Hm; simpl in *.
  - destruct (Hk a w1 eq_refl) as [Hn' Hr']. specialize (Hr a eq_refl). split.
    + apply (advances_le (r1 + n2)); [lia |]. exact (advances_trans _ _ _ _ _ Hr Hn').
    + intros b Hb. exact (advances_trans _ _ _ _ _ Hr (Hr' b Hb)).
  - split; [apply (advances_le n1); [lia | exact Hn] | discriminate].
  - split; [apply (advances_le n1); [lia | exact Hn] | discriminate].
Qed.

(** A step that reads nothing, followed by another. *)
Lemma reads_within_seq {A B} (r n : nat) (m : M A) (k : A -> M B) (w : World) :
  reads_within 0 0 m w ->
  (forall a w1, m w = (Return a, w1) -> reads_within r n (k a) w1) ->
  reads_within r n (bind m k) w.
Proof.
  intros Hm Hk. apply (reads_within_le (0 + r) (Nat.max 0 (0 + n))); [lia | lia |].
  now apply reads_within_bind.
Qed.

Lemma reads_within_try {A} (body : M A) (catches : exn -> bool)
    (handler : exn -> M A) (w : World) :
  reads_within 0 0 body w ->
  (forall e w1, body w = (Raise e, w1) -> reads_within 0 0 (handler e) w1) ->
  reads_within 0 0 (try_except body catches handler) w.
Proof.
  intros [Hn Hr] Hh. unfold reads_within, try_except.
  destruct (body w) as [[a | c | e] w1] eqn:Hb; simpl in *.
  - split; [exact Hn | intros; exact Hn].
  - split; [exact Hn | discriminate].
  - destruct (catches e).
    + destruct (Hh e w1 eq_refl) as [Hn' Hr']. split.
      * exact (advances_trans 0 0 _ _ _ Hn Hn').
      * intros a Ha. exact (advances_trans 0 0 _ _ _ Hn (Hr' a Ha)).
    + split; [exact Hn | discriminate].
Qed.

(** A step that leaves the input alone and adds to the output. *)
Lemma reads_nothing {A} (m : M A) (w : World) :
  stdin (snd (m w)) = stdin w ->
  (exists evs, out (snd (m w)) = (out w ++ evs)%list) ->
  reads_within 0 0 m w.
Proof.
  intros Hs Ho.
  assert (H : advances 0 w (snd (m w))).
  { split; [exists 0%nat; split; [lia | exact Hs] | exact Ho]. }
  split; [exact H | intros; exact H].
Qed.

Lemma reads_within_ret {A} (a : A) (w : World) : reads_within 0 0 (ret a) w.
Proof. apply reads_nothing; [reflexivity | exists []; symmetry; apply app_nil_r]. Qed.

Lemma reads_within_exit {A} (c : Z) (w : World) : reads_within 0 0 (sys_exit (A:=A) c) w.
Proof. apply reads_nothing; [reflexivity | exists []; symmetry; apply app_nil_r]. Qed.

Lemma reads_within_raise {A} (e : exn) (w : World) : reads_within 0 0 (raise (A:=A) e) w.
Proof. apply reads_nothing; [reflexivity | exists []; symmetry; apply app_nil_r]. Qed.

Lemma reads_within_logging_info (msg : string) (w : World) :
  reads_within 0 0 (logging_info msg) w.
Proof. apply reads_nothing; [reflexivity | now exists [Log INFO msg]]. Qed.

Lemma reads_within_logging_error (msg : string) (w : World) :
  reads_within 0 0 (logging_error msg) w.
Proof. apply reads_nothing; [reflexivity | now exists [Log ERROR msg]]. Qed.

Lemma reads_within_exists (p : string) (w : World) : reads_within 0 0 (exists_ p) w.
Proof. apply reads_nothing; [reflexivity | exists []; symmetry; apply app_nil_r]. Qed.

Lemma reads_within_mkdir (p : string) (w : World) : reads_within 0 0 (mkdir p) w.
Proof.
  apply reads_nothing; unfold mkdir;
    destruct (PyStr.is_empty p), (parent_error (fs w) p), (present (fs w) p),
      (refused (host w) p); simpl;
    reflexivity || (exists []; symmetry; apply app_nil_r).
Qed.

Lemma reads_within_write_file (p content : string) (w : World) :
  reads_within 0 0 (write_file p content) w.
Proof.
  apply reads_nothing; unfold write_file;
    destruct (PyStr.is_empty p), (parent_error (fs w) p), (fs w !! p) as [[] |],
      (refused (host w) p); simpl;
    reflexivity || (exists []; symmetry; apply app_nil_r).
Qed.

Lemma reads_within_makedirs_fuel (n : nat) (name : string) (w : World) :
  reads_within 0 0 (makedirs_fuel n name) w.
Proof.
  revert name w. induction n as [|n IH]; intros name w; simpl;
    destruct (split name) as [head0 tail0];
    destruct (if PyStr.is_empty tail0 then split head0 else (head0, tail0))
      as [head tail].
  - apply reads_within_seq.
    + destruct (PyStr.is_empty head || PyStr.is_empty tail);
        [apply reads_within_ret |].
      apply reads_within_seq; [apply reads_within_exists |].
      intros; apply reads_within_ret.
    + intros [] w1 _; apply reads_within_mkdir.
  - apply reads_within_seq.
    + destruct (PyStr.is_empty head || PyStr.is_empty tail);
        [apply reads_within_ret |].
      apply reads_within_seq; [apply reads_within_exists |].
      intros; apply reads_within_ret.
    + intros [] w1 _; [| apply reads_within_mkdir].
      apply reads_within_seq.
      * apply reads_within_try; [apply IH | intros; apply reads_within_ret].
      * intros _ w2 _. destruct (bool_decide (tail = "."));
          [apply reads_within_ret | apply reads_within_mkdir].
Qed.

Lemma reads_within_makedirs (name : string) (w : World) :
  reads_within 0 0 (makedirs name) w.
Proof. apply reads_within_makedirs_fuel. Qed.

(** [input] reads one line. *)
Lemma reads_within_input (prompt : string) (w : World) :
  reads_within 1 1 (input prompt) w.
Proof.
  assert (H : advances 1 w (snd (input prompt w))).
  { unfold input. simpl. destruct (stdin w) as [|line rest] eqn:Hs; simpl.
    - split; [exists 0%nat; split; [lia | now rewrite Hs] | now exists [Prompt prompt]].
    - split; [exists 1%nat; split; [lia | now rewrite Hs] | now exists [Prompt prompt]]. }
  split; [exact H | intros; exact H].
Qed.

(** The prompt reads at most one line for each of its rounds. *)
Lemma reads_within_loop (prompt : string) (n : nat) (w : World) :
  reads_within n n (get_yes_no_loop prompt n) w.
Proof.
  revert w. induction n as [|n IH]; intros w.
  - simpl. apply reads_within_seq; [apply reads_within_logging_error |].
    intros; apply reads_within_exit.
  - change (get_yes_no_loop prompt (S n))
      with (line <- input prompt;
            let response := PyStr.lower (PyStr.strip line) in
            if PyStr.in_list response ["yes"; "y"] then ret true
            else if PyStr.in_list response ["no"; "n"] then ret false
            else
              logging_info "Invalid input. Please answer 'yes' or 'no'.";;
              get_yes_no_loop prompt n).
    apply (reads_within_le (1 + n) (Nat.max 1 (1 + n))); [lia | lia |].
    apply reads_within_bind; [apply reads_within_input |].
    intros line w1 _. cbv zeta.
    destruct (PyStr.in_list _ ["yes"; "y"]);
      [apply (reads_within_le 0 0); [lia | lia | apply reads_within_ret] |].
    destruct (PyStr.in_list _ ["no"; "n"]);
      [apply (reads_within_le 0 0); [lia | lia | apply reads_within_ret] |].
    apply reads_within_seq; [apply reads_within_logging_info |].
    intros; apply IH.
Qed.

Lemma reads_within_get_yes_no_input (prompt : string) (w : World) :
  reads_within 3 3 (get_yes_no_input prompt default_retry_limit) w.
Proof. apply (reads_within_loop prompt 3). Qed.

Lemma reads_within_manage_folder (d : string) (w : World) :
  reads_within 3 3 (manage_folder d) w.
Proof.
  unfold manage_folder. apply reads_within_seq; [apply reads_within_exists |].
  intros found w1 _. destruct found.
  - apply (reads_within_le (3 + 0) (Nat.max 3 (3 + 0))); [lia | lia |].
    apply reads_within_bind; [apply reads_within_get_yes_no_input |].
    intros use w2 _. destruct use;
      (apply reads_within_seq; [apply reads_within_logging_info |];
       intros; apply reads_within_ret).
  - apply (reads_within_le 0 0); [lia | lia |].
    apply reads_within_try.
    + apply reads_within_seq; [apply reads_within_makedirs |].
      intros _ w2 _. apply reads_within_seq; [apply reads_within_logging_info |].
      intros; apply reads_within_ret.
    + intros e w2 _. apply reads_within_seq; [apply reads_within_logging_error |].
      intros; apply reads_within_ret.
Qed.

(** The overwrite check reads up to three lines, and none when it
    returns. *)
Lemma reads_within_check (p : string) (w : World) :
  reads_within 0 3 (check_and_overwrite_file p) w.
Proof.
  split.
  - apply (reads_within_le 3 3 3 3); [lia | lia |].
    unfold check_and_overwrite_file.
    apply reads_within_seq; [apply reads_within_exists |].
    intros found w1 _. destruct found;
      [| apply (reads_within_le 0 0); [lia | lia | apply reads_within_ret]].
    apply (reads_within_le (3 + 0) (Nat.max 3 (3 + 0))); [lia | lia |].
    apply reads_within_bind; [apply reads_within_get_yes_no_input |].
    intros b w2 _. apply reads_within_seq; [apply reads_within_raise |].
    intros l1 w3 H. discriminate H.
  - intros a Ha. destruct (check_and_overwrite_file p w) as [o w1] eqn:E.
    simpl in Ha. subst o. apply check_returns in E as [_ [-> _]].
    apply advances_refl.
Qed.

Lemma reads_within_create_pipfile (d : string) (w : World) :
  reads_within 0 3 (create_pipfile d) w.
Proof.
  unfold create_pipfile. cbv zeta.
  apply (reads_within_le (0 + 0) (Nat.max 3 (0 + 0))); [lia | lia |].
  apply reads_within_bind; [apply reads_within_check |].
  intros go w1 _. destruct go; [| apply reads_within_logging_info].
  apply reads_within_seq; [apply reads_within_write_file |].
  intros; apply reads_within_logging_info.
Qed.

Lemma reads_within_create_gitignore (d : string) (w : World) :
  reads_within 0 3 (create_gitignore d) w.
Proof.
  unfold create_gitignore. cbv zeta.
  apply (reads_within_le (0 + 0) (Nat.max 3 (0 + 0))); [lia | lia |].
  apply reads_within_bind; [apply reads_within_check |].
  intros go w1 _. destruct go; [| apply reads_within_ret].
  apply reads_within_seq; [apply reads_within_write_file |].
  intros; apply reads_within_logging_info.
Qed.

Lemma reads_within_ensure_block (label p : string) (w : World) :
  reads_within 0 0 (ensure_block label p) w.
Proof.
  unfold ensure_block. apply reads_within_seq; [apply reads_within_exists |].
  intros found w1 _. destruct (negb found); [| apply reads_within_logging_info].
  apply reads_within_seq; [apply reads_within_makedirs |].
  intros; apply reads_within_logging_info.
Qed.

Lemma reads_within_create_project_structure (d : string) (w : World) :
  reads_within 0 0 (create_project_structure d) w.
Proof.
  change (create_project_structure d)
    with (try_except
            (ensure_block "Source" (join d "src");;
             ensure_block "Tests" (join d "tests"))
            is_OSError
            (fun e =>
               logging_error ("Failed to create project directories in '" ++ d ++ "': "
                              ++ exn_str e);;
               sys_exit 1)).
  apply reads_within_try.
  - apply reads_within_seq; [apply reads_within_ensure_block |].
    intros; apply reads_within_ensure_block.
  - intros e w1 _. apply reads_within_seq; [apply reads_within_logging_error |].
    intros; apply reads_within_exit.
Qed.

Lemma reads_within_verify_folder_name (d : string) (w : World) :
  reads_within 0 0 (verify_folder_name d) w.
Proof.
  unfold verify_folder_name. destruct (Re.match_ Re.pattern d);
    [apply reads_within_logging_info |].
  apply reads_within_seq; [apply reads_within_logging_error |].
  intros; apply reads_within_exit.
Qed.

Lemma reads_within_check_python3_installed (w : World) :
  reads_within 0 0 check_python3_installed w.
Proof.
  unfold check_python3_installed. apply reads_within_try.
  - apply reads_within_seq.
    + apply reads_nothing; unfold subprocess_run_version;
        destruct (interpreter (host w)); simpl;
        reflexivity || (exists []; symmetry; apply app_nil_r).
    + intros result w1 _. destruct (fst result =? 0)%Z;
        [apply reads_within_logging_info |].
      apply reads_within_seq; [apply reads_within_logging_error |].
      intros; apply reads_within_exit.
  - intros e w1 _. apply reads_within_seq; [apply reads_within_logging_error |].
    intros; apply reads_within_exit.
Qed.

Lemma reads_within_setup (d : string) (w : World) : reads_within 3 6 (setup d) w.
Proof.
  unfold setup.
  apply (reads_within_le (3 + 0) (Nat.max 3 (3 + 3))); [lia | lia |].
  apply reads_within_bind; [apply reads_within_manage_folder |].
  intros proceed w1 _. destruct proceed;
    [| apply (reads_within_le 0 0); [lia | lia | apply reads_within_logging_info]].
  apply reads_within_seq; [apply reads_within_logging_info |]. intros _ w2 _.
  apply (reads_within_le (0 + 0) (Nat.max 3 (0 + 3))); [lia | lia |].
  apply reads_within_bind; [apply reads_within_create_pipfile |]. intros _ w3 _.
  apply (reads_within_le (0 + 0) (Nat.max 3 (0 + 0))); [lia | lia |].
  apply reads_within_bind; [apply reads_within_create_gitignore |]. intros _ w4 _.
  apply reads_within_create_project_structure.
Qed.

End InputBound.

(** X15: a run reads at most seven lines of input, and at most four when
    [main] returns: one line for the name, up to three at the reuse prompt
    and up to three at one overwrite prompt, after which no run goes on.
    The lines are taken from the front of the input, and what was emitted
    before the run is kept, the run adding its prompts and records after
    it. *)
Theorem main_reads_at_most_seven_lines (w : World) :
  advances 7 w (snd (main w))
  /\ (forall u, fst (main w) = Return u -> advances 4 w (snd (main w))).
Proof.
  change (reads_within 4 7 main w). unfold main.
  apply reads_within_seq; [apply reads_within_check_python3_installed |].
  intros _ w1 _.
  apply (reads_within_le (1 + 3) (Nat.max 1 (1 + 6))); [lia | lia |].
  apply reads_within_bind; [apply reads_within_input |].
  intros line w2 _. cbv zeta.
  apply reads_within_seq; [apply reads_within_verify_folder_name |].
  intros _ w3 _. apply reads_within_setup.
Qed.

(** The bound is reached: three unrecognized lines at the overwrite prompt
    after two at the reuse prompt. *)
Example seven_lines_read :
  stdin (snd (main (mkWorld sample_host
                      {[ "proj" := Dir; "proj/Pipfile" := File pipfile_content ]}
                      ["proj"; "what"; "maybe"; "y"; "1"; "2"; "3"; "unread"] [])))
  = ["unread"].
Proof. vm_compute. reflexivity. Qed.

(** ** The tests *)

Section TestFacts.

Import UnitTest.

Lemma pbind_ext {A B} (m m' : P A) (k k' : A -> P B) (s : TestState) :
  m s = m' s -> (forall a s', k a s' = k' a s') -> pbind m k s = pbind m' k' s.
Proof.
  intros Hm Hk. unfold pbind. rewrite Hm.
  destruct (m' s) as [[a | c | e] s']; [apply Hk | reflexivity | reflexivity].
Qed.

Lemma ptry_ext {A} (b b' : P A) (c : exn -> bool) (h h' : exn -> P A)
    (s : TestState) :
  b s = b' s -> (forall e s', h e s' = h' e s') -> ptry b c h s = ptry b' c h' s.
Proof.
  intros Hb Hh. unfold ptry. rewrite Hb.
  destruct (b' s) as [[a | st | e] s']; [reflexivity | reflexivity |].
  destruct (c e); [apply Hh | reflexivity].
Qed.

Lemma pbind_Return {A B} (m : P A) (k : A -> P B) (s s1 : TestState) (a : A) :
  m s = (Return a, s1) -> pbind m k s = k a s1.
Proof. intros H. unfold pbind. now rewrite H. Qed.

Lemma pbind_Raise {A B} (m : P A) (k : A -> P B) (s s1 : TestState) (e : exn) :
  m s = (Raise e, s1) -> pbind m k s = (Raise e, s1).
Proof. intros H. unfold pbind. now rewrite H. Qed.

(** [lift] goes through the constructs of the script. *)
Lemma lift_ret {A} (a : A) (s : TestState) : lift (ret a) s = pret a s.
Proof. now destruct s. Qed.

Lemma lift_bind {A B} (m : M A) (k : A -> M B) (s : TestState) :
  lift (bind m k) s = pbind (lift m) (fun a => lift (k a)) s.
Proof.
  unfold lift, pbind, bind.
  destruct (m (world s)) as [[a | c | e] w1]; reflexivity.
Qed.

Lemma lift_try {A} (b : M A) (c : exn -> bool) (h : exn -> M A) (s : TestState) :
  lift (try_except b c h) s = ptry (lift b) c (fun e => lift (h e)) s.
Proof.
  unfold lift, ptry, try_except.
  destruct (b (world s)) as [[a | st | e] w1]; [reflexivity | reflexivity |].
  destruct (c e); reflexivity.
Qed.

(** The functions written over the names they look up are the functions
    of the script when nothing is patched. *)
Lemma get_yes_no_loop_in_unpatched (prompt : string) (n : nat) (s : TestState) :
  get_yes_no_loop_in (g_input unpatched) (g_logging_info unpatched) prompt n s
  = lift (get_yes_no_loop prompt n) s.
Proof.
  revert s. induction n as [|n IH]; intros s.
  - cbn [get_yes_no_loop_in get_yes_no_loop]. rewrite lift_bind. reflexivity.
  - cbn [get_yes_no_loop_in get_yes_no_loop]. rewrite lift_bind.
    apply pbind_ext; [reflexivity |]. intros line s1. cbv zeta.
    destruct (PyStr.in_list _ ["yes"; "y"]); [now rewrite lift_ret |].
    destruct (PyStr.in_list _ ["no"; "n"]); [now rewrite lift_ret |].
    rewrite lift_bind. apply pbind_ext; [reflexivity |]. intros _ s2. apply IH.
Qed.

Lemma check_and_overwrite_file_in_unpatched (p : string) (s : TestState) :
  check_and_overwrite_file_in (g_input unpatched) (g_logging_info unpatched) p s
  = lift (check_and_overwrite_file p) s.
Proof.
  unfold check_and_overwrite_file_in, check_and_overwrite_file.
  rewrite lift_bind. apply pbind_ext; [reflexivity |]. intros found s1.
  destruct found; [| now rewrite lift_ret].
  rewrite lift_bind. apply pbind_ext.
  { unfold get_yes_no_input_in, get_yes_no_input. apply get_yes_no_loop_in_unpatched. }
  intros response s2.
  rewrite lift_bind. apply pbind_ext; [reflexivity |]. intros l1 s3.
  destruct (eq_str l1 "yes"); [now rewrite lift_ret |].
  rewrite lift_bind. apply pbind_ext; [reflexivity |]. intros l2 s4.
  destruct (eq_str l2 "y"); [now rewrite lift_ret |].
  rewrite lift_bind. apply pbind_ext; [reflexivity |]. intros _ s5.
  now rewrite lift_ret.
Qed.

Lemma create_pipfile_in_unpatched (d : string) (s : TestState) :
  create_pipfile_in (g_input unpatched) (g_logging_info unpatched) d s
  = lift (create_pipfile d) s.
Proof.
  unfold create_pipfile_in, create_pipfile. cbv zeta.
  rewrite lift_bind. apply pbind_ext; [apply check_and_overwrite_file_in_unpatched |].
  intros go s1. destruct go; [| reflexivity].
  rewrite lift_bind. apply pbind_ext; [reflexivity |]. reflexivity.
Qed.

Lemma create_gitignore_in_unpatched (d : string) (s : TestState) :
  create_gitignore_in (g_input unpatched) (g_logging_info unpatched) d s
  = lift (create_gitignore d) s.
Proof.
  unfold create_gitignore_in, create_gitignore. cbv zeta.
  rewrite lift_bind. apply pbind_ext; [apply check_and_overwrite_file_in_unpatched |].
  intros go s1. destruct go; [| now rewrite lift_ret].
  rewrite lift_bind. apply pbind_ext; [reflexivity |]. reflexivity.
Qed.

Lemma create_project_structure_in_unpatched (d : string) (s : TestState) :
  create_project_structure_in (g_logging_info unpatched) d s
  = lift (create_project_structure d) s.
Proof.
  unfold create_project_structure_in, create_project_structure. cbv zeta.
  rewrite lift_try. apply ptry_ext.
  - rewrite lift_bind. apply pbind_ext; [reflexivity |]. intros src_found s1.
    rewrite lift_bind. apply pbind_ext.
    { destruct (negb src_found); [| reflexivity].
      rewrite lift_bind. apply pbind_ext; reflexivity. }
    intros _ s2.
    rewrite lift_bind. apply pbind_ext; [reflexivity |]. intros tests_found s3.
    destruct (negb tests_found); [| reflexivity].
    rewrite lift_bind. apply pbind_ext; reflexivity.
  - intros e s1. rewrite lift_bind. apply pbind_ext; reflexivity.
Qed.

Lemma main_in_unpatched (s : TestState) : main_in unpatched s = lift main s.
Proof.
  unfold main_in, main. cbn [unpatched g_input g_logging_info
    g_check_python3_installed g_verify_folder_name g_manage_folder
    g_create_pipfile g_create_gitignore g_create_project_structure].
  rewrite lift_bind. apply pbind_ext; [reflexivity |]. intros _ s1.
  rewrite lift_bind. apply pbind_ext; [reflexivity |]. intros line s2. cbv zeta.
  rewrite lift_bind. apply pbind_ext; [reflexivity |]. intros _ s3.
  rewrite lift_bind. apply pbind_ext; [reflexivity |]. intros proceed s4.
  destruct proceed; [| reflexivity].
  rewrite lift_bind. apply pbind_ext; [reflexivity |]. intros _ s5.
  rewrite lift_bind. apply pbind_ext; [reflexivity |]. intros _ s6.
  rewrite lift_bind. apply pbind_ext; [reflexivity |]. intros _ s7.
  reflexivity.
Qed.

End TestFacts.
Section TestRuns.

Import UnitTest.

Lemma mkdir_outcome (p : string) (w : World) :
  (exists c, mkdir p w = (Raise (OSError c p), w))
  \/ (mkdir p w = (Return tt, set_fs (<[p := Dir]> (fs w)) w)
      /\ present (fs w) p = false).
Proof.
  unfold mkdir. destruct (PyStr.is_empty p); [left; eauto |].
  destruct (parent_error (fs w) p); [left; eauto |].
  destruct (present (fs w) p); [left; eauto |].
  destruct (refused (host w) p); [left; eauto | right; split; reflexivity].
Qed.

(** [makedirs] of an entry of a folder: an [OSError], or the entry is
    there afterwards and nothing was removed. *)
Lemma makedirs_child_outcome (d f : string) (w : World) :
  plain d -> plain f -> f <> "." ->
  (exists e w1, makedirs (d ++ "/" ++ f) w = (Raise e, w1) /\ is_OSError e = true)
  \/ (exists w1, makedirs (d ++ "/" ++ f) w = (Return tt, w1)
                 /\ present (fs w1) (d ++ "/" ++ f) = true
                 /\ fs w ⊆ fs w1).
Proof.
  intros Hd Hf Hdot. destruct (present (fs w) d) eqn:Hp.
  - rewrite (makedirs_child d f w Hd Hf Hp).
    destruct (mkdir_outcome (d ++ "/" ++ f) w) as [[c ->] | [-> Hn]].
    + left. now exists (OSError c (d ++ "/" ++ f)), w.
    + right. eexists. split; [reflexivity |]. simpl. split.
      * rewrite present_insert. now rewrite (bool_decide_true (_ = _)) by reflexivity.
      * apply insert_subseteq. now apply present_lookup.
  - rewrite (makedirs_orphan d Hd f w Hf Hdot Hp).
    destruct (refused (host w) d).
    + left. now exists (OSError EACCES d), w.
    + destruct (mkdir_outcome (d ++ "/" ++ f) (set_fs (<[d := Dir]> (fs w)) w))
        as [[c ->] | [-> Hn]].
      * left. now exists (OSError c (d ++ "/" ++ f)), (set_fs (<[d := Dir]> (fs w)) w).
      * right. eexists. split; [reflexivity |]. simpl in *. split.
        -- rewrite present_insert. now rewrite (bool_decide_true (_ = _)) by reflexivity.
        -- transitivity (<[d := Dir]> (fs w)).
           ++ apply insert_subseteq. now apply present_lookup.
           ++ apply insert_subseteq. now apply present_lookup.
Qed.

(** The block of a subdirectory under the patched [logging.info]: an
    [OSError], or one more call of the mock and the directory is there. *)
Lemma ensure_block_in_patched (d label f : string) (s : TestState) :
  plain d -> plain f -> f <> "." ->
  (exists e s1, ensure_block_in patched_info label (d ++ "/" ++ f) s = (Raise e, s1)
                /\ is_OSError e = true)
  \/ (exists w1 msg,
        ensure_block_in patched_info label (d ++ "/" ++ f) s
        = (Return tt, mkTest w1 (calls s ++ [(mock_log, [msg])]))
        /\ (msg = label ++ " directory created at: " ++ d ++ "/" ++ f
            \/ msg = label ++ " directory already exists at: " ++ d ++ "/" ++ f)
        /\ present (fs w1) (d ++ "/" ++ f) = true
        /\ fs (world s) ⊆ fs w1).
Proof.
  intros Hd Hf Hdot. destruct s as [w cs]. unfold ensure_block_in.
  rewrite (pbind_Return (lift (exists_ (d ++ "/" ++ f))) _ (mkTest w cs) (mkTest w cs)
             (present (fs w) (d ++ "/" ++ f)) eq_refl).
  destruct (present (fs w) (d ++ "/" ++ f)) eqn:Hp; cbn [negb].
  - right. exists w, (label ++ " directory already exists at: " ++ d ++ "/" ++ f).
    split; [reflexivity |]. split; [now right |]. split; [exact Hp | reflexivity].
  - destruct (makedirs_child_outcome d f w Hd Hf Hdot)
      as [[e [w1 [Hm He]]] | [w1 [Hm [Hp1 Hsub]]]].
    + left. exists e, (mkTest w1 cs). split; [| exact He].
      apply pbind_Raise. unfold lift. cbn [world calls]. now rewrite Hm.
    + right. exists w1, (label ++ " directory created at: " ++ d ++ "/" ++ f).
      split.
      * rewrite (pbind_Return (lift (makedirs (d ++ "/" ++ f))) _ (mkTest w cs)
                   (mkTest w1 cs) tt); [reflexivity |].
        unfold lift. cbn [world calls]. now rewrite Hm.
      * split; [now left |]. split; [exact Hp1 | exact Hsub].
Qed.

(** [create_project_structure] under the patched [logging.info]: it exits
    with status 1, or it returns after two more calls of the mock, the
    last one about [tests], and both directories are there. *)
Lemma create_project_structure_in_patched (d : string) (s : TestState) :
  plain d ->
  (exists s1, create_project_structure_in patched_info d s = (Exit 1, s1))
  \/ (exists w1 m1 m2,
        create_project_structure_in patched_info d s
        = (Return tt, mkTest w1 (calls s ++ [(mock_log, [m1]); (mock_log, [m2])]))
        /\ (m2 = "Tests directory created at: " ++ tests_path d
            \/ m2 = "Tests directory already exists at: " ++ tests_path d)
        /\ present (fs w1) (src_path d) = true
        /\ present (fs w1) (tests_path d) = true).
Proof.
  intros Hd.
  change (create_project_structure_in patched_info d s)
    with (ptry
            (pbind (ensure_block_in patched_info "Source" (join d "src"))
               (fun _ => ensure_block_in patched_info "Tests" (join d "tests")))
            is_OSError
            (fun e =>
               pbind (lift (logging_error ("Failed to create project directories in '"
                                           ++ d ++ "': " ++ exn_str e)))
                 (fun _ => lift (sys_exit 1))) s).
  rewrite (join_src d Hd), (join_tests d Hd). unfold ptry, src_path, tests_path.
  assert (Hsrc : plain "src") by easy.
  assert (Htests : plain "tests") by easy.
  destruct (ensure_block_in_patched d "Source" "src" s Hd Hsrc ltac:(discriminate))
    as [[e [s1 [Hb He]]] | [w1 [m1 [Hb [_ [Hp1 _]]]]]].
  - left. rewrite (pbind_Raise _ _ _ _ _ Hb), He.
    eexists. reflexivity.
  - rewrite (pbind_Return _ _ _ _ _ Hb). cbv beta.
    destruct (ensure_block_in_patched d "Tests" "tests"
                (mkTest w1 (calls s ++ [(mock_log, [m1])])) Hd Htests ltac:(discriminate))
      as [[e [s2 [Hb2 He2]]] | [w2 [m2 [Hb2 [Hm2 [Hp2 Hsub]]]]]].
    + left. rewrite Hb2, He2. eexists. reflexivity.
    + right. exists w2, m1, m2. rewrite Hb2.
      cbn [calls world] in *. rewrite <- app_assoc. split; [reflexivity |].
      split; [exact Hm2 |]. split; [| exact Hp2].
      unfold present in *. apply bool_decide_eq_true in Hp1 as [n Hn].
      apply bool_decide_eq_true. exists n. exact (lookup_weaken _ _ _ _ Hn Hsub).
Qed.

(** Up to its last call, [main] under the patches of [test_main_success]
    only adds to the records. *)
Lemma main_in_success_patches (w : World) :
  main_in success_patches (fresh w)
  = create_project_structure_in patched_info "valid_project"
      (mkTest w [(mock_check, []);
                 (mock_input, ["Enter the name of your python project: "]);
                 (mock_verify, ["valid_project"]);
                 (mock_manage_folder, ["valid_project"]);
                 (mock_log, ["Setup will proceed using the folder: valid_project"]);
                 (mock_pipfile, ["valid_project"]);
                 (mock_gitignore, ["valid_project"])]).
Proof. reflexivity. Qed.

End TestRuns.

(** X16: [test_main_success] cannot pass. It patches [logging.info] but
    not [create_project_structure], which therefore runs for real and
    logs to the mock after the record that the last assertion expects. In
    every environment the test ends with the [SystemExit] of
    [create_project_structure], or reaches its assertions and fails: the
    last of them does not hold. In the second case [valid_project/src] and
    [valid_project/tests] exist in the working directory, found or made by
    the test. *)
Theorem test_main_success_never_passes (w : World) :
  fst (UnitTest.test_main_success (UnitTest.fresh w)) <> UnitTest.Passed
  /\ (fst (UnitTest.test_main_success (UnitTest.fresh w)) = UnitTest.Failed ->
      UnitTest.assert_called_with UnitTest.mock_log
        ["Setup will proceed using the folder: valid_project"]
        (snd (UnitTest.test_main_success (UnitTest.fresh w))) = false
      /\ present (fs (UnitTest.world (snd (UnitTest.test_main_success (UnitTest.fresh w)))))
           "valid_project/src" = true
      /\ present (fs (UnitTest.world (snd (UnitTest.test_main_success (UnitTest.fresh w)))))
           "valid_project/tests" = true)
  /\ (fst (UnitTest.test_main_success (UnitTest.fresh w)) = UnitTest.Errored ->
      fst (UnitTest.main_in UnitTest.success_patches (UnitTest.fresh w)) = Exit 1).
Proof.
  unfold UnitTest.test_main_success. rewrite !main_in_success_patches.
  assert (Hd : plain "valid_project") by easy.
  destruct (create_project_structure_in_patched "valid_project"
              (UnitTest.mkTest w
                 [(UnitTest.mock_check, []);
                  (UnitTest.mock_input, ["Enter the name of your python project: "]);
                  (UnitTest.mock_verify, ["valid_project"]);
                  (UnitTest.mock_manage_folder, ["valid_project"]);
                  (UnitTest.mock_log,
                   ["Setup will proceed using the folder: valid_project"]);
                  (UnitTest.mock_pipfile, ["valid_project"]);
                  (UnitTest.mock_gitignore, ["valid_project"])]) Hd)
    as [[s1 ->] | [w1 [m1 [m2 [-> [Hm2 [Hp1 Hp2]]]]]]].
  - simpl. split; [discriminate |]. split; [discriminate | reflexivity].
  - cbn [UnitTest.calls].
    set (s1 := UnitTest.mkTest w1 _).
    assert (Hlast : UnitTest.assert_called_with UnitTest.mock_log
                      ["Setup will proceed using the folder: valid_project"] s1
                    = false).
    { apply bool_decide_eq_false. subst s1. unfold UnitTest.calls_to. cbn.
      intros [= E]. destruct Hm2 as [-> | ->]; discriminate E. }
    rewrite Hlast, !andb_false_r. cbn [fst snd].
    split; [discriminate |]. split; [| discriminate].
    intros _. split; [exact Hlast |].
    subst s1. cbn [UnitTest.world]. split; [exact Hp1 | exact Hp2].
Qed.

(** X17: [test_main_cancelled_by_user] passes in every environment. With
    [manage_folder] patched to return false, [main] makes five calls, all
    of them to mocks, the last one being the cancellation record that the
    test expects; the file system, the input and the log of the process
    are left as they were. *)
Theorem test_main_cancelled_by_user_passes (w : World) :
  UnitTest.test_main_cancelled_by_user (UnitTest.fresh w)
  = (UnitTest.Passed,
     UnitTest.mkTest w
       [(UnitTest.mock_check, []);
        (UnitTest.mock_input, ["Enter the name of your python project: "]);
        (UnitTest.mock_verify, ["valid_project"]);
        (UnitTest.mock_manage_folder, ["valid_project"]);
        (UnitTest.mock_log, ["Setup was cancelled by the user."])]).
Proof. reflexivity. Qed.

